(** * miro-mcp: a shallow embedding of the JSON-RPC tool server

    The development follows the Python sources module by module:
    - [Py]         the fragment of Python values and exceptions the code uses;
    - [Registry]   tool_registry.py and the registrations of the tools/ modules;
    - [Serializer] convert_to_dict of miro_client.py;
    - [Client]     config.py and the MiroClient class of miro_client.py;
    - [Tools]      the handle_tool_call functions of the tools/ modules;
    - [Server]     server.py;
    - [Example]    a concrete interpreter runtime and a concrete vendor, on
                   which the properties are evaluated at the end.

    The vendor SDK, the HTTP endpoint and the parts of the interpreter the
    repository relies on are interfaces ([PyRuntime], [Vendor]); the
    properties hold for every implementation of them.

    A Python int is a [Z] and a Python float a binary64 double, Rocq's
    primitive [float]; float() of an int rounds to the nearest double and
    raises OverflowError beyond the range.  A piece of text handed to the
    json module is represented by what json.loads makes of it
    ([json_text]). *)

From Stdlib Require Import ZArith List String Ascii Bool Lia DecimalString.
From Stdlib Require Import QArith PrimFloat SpecFloat FloatOps.
Import ListNotations.
Local Open Scope string_scope.
Local Open Scope Z_scope.

Set Implicit Arguments.

(* ================================================================== *)
(** ** Python values, exceptions and the error/state monad            *)
(* ================================================================== *)
Module Py.

(** The exception classes that occur; all derive from Exception.  No except
    clause of the repository names ValueError, so that JSONDecodeError being
    a subclass of it plays no part. *)
Inductive exn : Type :=
| ValueError (msg : string)
| KeyError (key : string)
| TypeError (msg : string)
| AttributeError (msg : string)
| JSONDecodeError (msg : string)
| OverflowError (msg : string)
| RecursionError (msg : string)
| VendorError (msg : string).

(** str(e): a KeyError prints the repr of its key. *)
Definition exn_str (e : exn) : string :=
  match e with
  | ValueError m => m
  | KeyError k => "'" ++ k ++ "'"
  | TypeError m => m
  | AttributeError m => m
  | JSONDecodeError m => m
  | OverflowError m => m
  | RecursionError m => m
  | VendorError m => m
  end.

Definition is_AttributeError (e : exn) : bool :=
  match e with AttributeError _ => true | _ => false end.

Definition is_KeyError (e : exn) : bool :=
  match e with KeyError _ => true | _ => false end.

Definition is_JSONDecodeError (e : exn) : bool :=
  match e with JSONDecodeError _ => true | _ => false end.

Inductive res (A : Type) : Type :=
| Ok (a : A)
| Raise (e : exn).
Arguments Ok {A} a.
Arguments Raise {A} e.

Definition is_ok {A} (r : res A) : bool :=
  match r with Ok _ => true | Raise _ => false end.

(** Values.  [PObj] is an instance of a user or SDK class, described by what
    the code probes: str(type(obj)), the two ways of calling model_dump
    (with mode='json' and without), the dict method, __dict__ and str(obj);
    a method that is present either returns or raises. *)
#[warnings="-register-all"]
Inductive pyval : Type :=
| PNone
| PBool (b : bool)
| PNum (n : Z)
| PFloat (f : float)
| PStr (s : string)
| PDatetime (iso : string)
| PList (items : list pyval)
| PTuple (items : list pyval)
| PSet (items : list pyval)
| PDict (entries : list (string * pyval))
| PObj (type_str : string)
       (model_dump : option (res pyval * res pyval))
       (dict_method : option (res pyval))
       (vars : option (list (string * pyval)))
       (str_result : res string).

(** Induction over values that reaches the elements of containers and the
    attribute values of objects (dump results are returned verbatim by the
    code and need no induction hypothesis). *)
Section PyvalInd.
Variable P : pyval -> Prop.
Hypothesis HNone : P PNone.
Hypothesis HBool : forall b, P (PBool b).
Hypothesis HNum : forall n, P (PNum n).
Hypothesis HFloat : forall f, P (PFloat f).
Hypothesis HStr : forall s, P (PStr s).
Hypothesis HDatetime : forall s, P (PDatetime s).
Hypothesis HList : forall l, Forall P l -> P (PList l).
Hypothesis HTuple : forall l, Forall P l -> P (PTuple l).
Hypothesis HSet : forall l, Forall P l -> P (PSet l).
Hypothesis HDict : forall d, Forall (fun kv => P (snd kv)) d -> P (PDict d).
Hypothesis HObjNoVars : forall t md dm sr, P (PObj t md dm None sr).
Hypothesis HObjVars : forall t md dm d sr,
    Forall (fun kv => P (snd kv)) d -> P (PObj t md dm (Some d) sr).

Fixpoint pyval_nested_ind (v : pyval) : P v :=
  let fix items (l : list pyval) : Forall P l :=
      match l with
      | [] => Forall_nil _
      | x :: t => Forall_cons _ (pyval_nested_ind x) (items t)
      end in
  let fix entries (d : list (string * pyval))
      : Forall (fun kv => P (snd kv)) d :=
      match d with
      | [] => Forall_nil _
      | kv :: t =>
          Forall_cons (P := fun kv => P (snd kv)) kv
                      (pyval_nested_ind (snd kv)) (entries t)
      end in
  match v with
  | PNone => HNone
  | PBool b => HBool b
  | PNum n => HNum n
  | PFloat f => HFloat f
  | PStr s => HStr s
  | PDatetime s => HDatetime s
  | PList l => HList (items l)
  | PTuple l => HTuple (items l)
  | PSet l => HSet (items l)
  | PDict d => HDict (entries d)
  | PObj t md dm None sr => HObjNoVars t md dm sr
  | PObj t md dm (Some d) sr => HObjVars t md dm sr (entries d)
  end.
End PyvalInd.

(** bool(v); a float is falsy when it equals 0.0, as -0.0 does and nan does
    not. *)
Definition truthy (v : pyval) : bool :=
  match v with
  | PNone => false
  | PBool b => b
  | PNum n => negb (n =? 0)
  | PFloat f => negb (PrimFloat.eqb f PrimFloat.zero)
  | PStr s => negb (s =? EmptyString)%string
  | PDatetime _ => true
  | PList l | PTuple l | PSet l => match l with [] => false | _ => true end
  | PDict d => match d with [] => false | _ => true end
  | PObj _ _ _ _ _ => true
  end.

Definition is_None (v : pyval) : bool :=
  match v with PNone => true | _ => false end.

(** isinstance(v, dict) *)
Definition is_dict (v : pyval) : bool :=
  match v with PDict _ => true | _ => false end.

(** type(v).__name__, as it appears in the interpreter's messages; for an
    instance, the text of its type. *)
Definition type_name (v : pyval) : string :=
  match v with
  | PNone => "NoneType"
  | PBool _ => "bool"
  | PNum _ => "int"
  | PFloat _ => "float"
  | PStr _ => "str"
  | PDatetime _ => "datetime"
  | PList _ => "list"
  | PTuple _ => "tuple"
  | PSet _ => "set"
  | PDict _ => "dict"
  | PObj t _ _ _ _ => t
  end.

(** *** Dictionaries: insertion-ordered association lists *)

Fixpoint lookup (k : string) (d : list (string * pyval)) : option pyval :=
  match d with
  | [] => None
  | (k', v) :: t => if (k =? k')%string then Some v else lookup k t
  end.

(** d[k] = v keeps the position of an existing key and appends a new one. *)
Fixpoint store (k : string) (v : pyval) (d : list (string * pyval))
  : list (string * pyval) :=
  match d with
  | [] => [(k, v)]
  | (k', v') :: t =>
      if (k =? k')%string then (k, v) :: t else (k', v') :: store k v t
  end.

Definition no_attribute (v : pyval) (attr : string) : exn :=
  AttributeError ("'" ++ type_name v ++ "' object has no attribute '" ++ attr ++ "'").

(** d.get(k, default); an AttributeError on anything that is not a dict. *)
Definition py_get (d : pyval) (k : string) (default : pyval) : res pyval :=
  match d with
  | PDict e => Ok (match lookup k e with Some v => v | None => default end)
  | _ => Raise (no_attribute d "get")
  end.

(** What d.get(k) answers on a dict with entries [d]. *)
Definition arg (d : list (string * pyval)) (k : string) : pyval :=
  match lookup k d with Some v => v | None => PNone end.

(** d[k] with a string key. *)
Definition py_getitem (d : pyval) (k : string) : res pyval :=
  match d with
  | PDict e => match lookup k e with Some v => Ok v | None => Raise (KeyError k) end
  | PStr _ => Raise (TypeError "string indices must be integers")
  | PList _ => Raise (TypeError "list indices must be integers or slices, not str")
  | PTuple _ => Raise (TypeError "tuple indices must be integers or slices, not str")
  | _ => Raise (TypeError ("'" ++ type_name d ++ "' object is not subscriptable"))
  end.

(** needle in hay, on strings *)
Fixpoint substring_of (needle hay : string) : bool :=
  String.prefix needle hay
  || match hay with
     | EmptyString => false
     | String _ rest => substring_of needle rest
     end.

(** k in d, for a string k. *)
Definition py_contains (d : pyval) (k : string) : res bool :=
  match d with
  | PDict e => Ok (match lookup k e with Some _ => true | None => false end)
  | PList l | PTuple l | PSet l =>
      Ok (existsb (fun v => match v with PStr s => (s =? k)%string | _ => false end) l)
  | PStr s => Ok (substring_of k s)
  | _ => Raise (TypeError ("argument of type '" ++ type_name d ++ "' is not iterable"))
  end.

(** What the interpreter and the json module do and the repository does
    not define: str() of the values that are neither scalars nor class
    instances, float() of a string ([None] where it raises ValueError),
    str() of a float, and the text json.dumps writes. *)
Class PyRuntime : Type := {
  render : pyval -> res string;
  float_of_str : string -> option float;
  float_repr : float -> string;
  json_dumps_text : pyval -> string
}.

(** str(n) of an integer, in decimal. *)
Definition decimal (n : Z) : string := NilZero.string_of_int (Z.to_int n).

(** str(v): a string is itself, an instance answers with its own __str__. *)
Definition py_str {RT : PyRuntime} (v : pyval) : res string :=
  match v with
  | PNone => Ok "None"
  | PBool true => Ok "True"
  | PBool false => Ok "False"
  | PNum n => Ok (decimal n)
  | PFloat f => Ok (float_repr f)
  | PStr s => Ok s
  | PObj _ _ _ _ sr => sr
  | _ => render v
  end.

(** f'...{v}...' *)
Definition fmt {RT : PyRuntime} (before : string) (v : pyval) (after : string)
  : res string :=
  match py_str v with
  | Ok s => Ok (before ++ s ++ after)
  | Raise e => Raise e
  end.

(** len(v) *)
Definition py_len (v : pyval) : res Z :=
  match v with
  | PList l | PTuple l | PSet l => Ok (Z.of_nat (List.length l))
  | PDict d => Ok (Z.of_nat (List.length d))
  | PStr s => Ok (Z.of_nat (String.length s))
  | _ => Raise (TypeError ("object of type '" ++ type_name v ++ "' has no len()"))
  end.

(** *** Numbers *)

(** A number: an int or a float. *)
Inductive number : Type :=
| Int (z : Z)
| Float (f : float).

Definition of_number (n : number) : pyval :=
  match n with Int z => PNum z | Float f => PFloat f end.

(** The numbers among the values; a bool is the int 0 or 1. *)
Definition as_number (v : pyval) : option number :=
  match v with
  | PNum z => Some (Int z)
  | PBool b => Some (Int (if b then 1 else 0))
  | PFloat f => Some (Float f)
  | _ => None
  end.

(** The exact value of a number: not a number, an infinity, or a rational.
    Comparisons of numbers compare these values, whether the operands are
    ints, floats or one of each. *)
Inductive exact : Type :=
| NaN
| Infinite (negative : bool)
| Finite (q : Q).

Definition float_value (f : float) : exact :=
  match Prim2SF f with
  | S754_zero _ => Finite (inject_Z 0)
  | S754_infinity s => Infinite s
  | S754_nan => NaN
  | S754_finite s m e =>
      let n := if s then Z.neg m else Z.pos m in
      Finite (if 0 <=? e then Qmake (n * 2 ^ e) 1
              else Qmake n (Pos.pow 2 (Z.to_pos (- e))))
  end.

Definition value (n : number) : exact :=
  match n with
  | Int z => Finite (inject_Z z)
  | Float f => float_value f
  end.

Definition exact_lt (a b : exact) : bool :=
  match a, b with
  | Finite p, Finite q => negb (Qle_bool q p)
  | Infinite true, Finite _ => true
  | Infinite true, Infinite false => true
  | Finite _, Infinite false => true
  | _, _ => false
  end.

Definition exact_eqb (a b : exact) : bool :=
  match a, b with
  | Finite p, Finite q => Qeq_bool p q
  | Infinite s, Infinite s' => Bool.eqb s s'
  | _, _ => false
  end.

Definition num_lt (a b : number) : bool := exact_lt (value a) (value b).
Definition num_eqb (a b : number) : bool := exact_eqb (value a) (value b).

(** float(z) of an int: the nearest double, ties to even. *)
Definition float_of_int (z : Z) : res float :=
  match binary_normalize prec emax z 0 false with
  | S754_infinity _ => Raise (OverflowError "int too large to convert to float")
  | sf => Ok (SF2Prim sf)
  end.

(** float(n) of a number *)
Definition number_float (n : number) : res float :=
  match n with
  | Int z => float_of_int z
  | Float f => Ok f
  end.

(** a + b: ints add exactly, and an int meeting a float is converted. *)
Definition num_add (a b : number) : res number :=
  match a, b with
  | Int x, Int y => Ok (Int (x + y))
  | _, _ =>
      match number_float a with
      | Ok x => match number_float b with
                | Ok y => Ok (Float (PrimFloat.add x y))
                | Raise e => Raise e
                end
      | Raise e => Raise e
      end
  end.

(** a == b where the code compares identifiers, method names and type
    tags: numbers by value (a bool is the integer 0 or 1), strings by their
    text, lists and tuples element by element.  Dicts, sets and instances
    are compared on no path of the code and answer False here. *)
Fixpoint py_eqb (a b : pyval) {struct a} : bool :=
  let fix all_eqb (l1 l2 : list pyval) : bool :=
      match l1, l2 with
      | [], [] => true
      | x :: t1, y :: t2 => py_eqb x y && all_eqb t1 t2
      | _, _ => false
      end in
  match as_number a, as_number b with
  | Some x, Some y => num_eqb x y
  | _, _ =>
      match a, b with
      | PNone, PNone => true
      | PStr x, PStr y => (x =? y)%string
      | PList l1, PList l2 => all_eqb l1 l2
      | PTuple l1, PTuple l2 => all_eqb l1 l2
      | _, _ => false
      end
  end.

(** for x in v *)
Definition py_iter (v : pyval) : res (list pyval) :=
  match v with
  | PList l | PTuple l | PSet l => Ok l
  | PDict d => Ok (map (fun kv => PStr (fst kv)) d)
  | PStr s => Ok (map (fun c => PStr (String c EmptyString)) (list_ascii_of_string s))
  | _ => Raise (TypeError ("'" ++ type_name v ++ "' object is not iterable"))
  end.

(** v.items() *)
Definition py_items (v : pyval) : res (list (string * pyval)) :=
  match v with
  | PDict d => Ok d
  | _ => Raise (no_attribute v "items")
  end.

(** a < b and a > b, on numbers *)
Definition py_lt (a b : pyval) : res bool :=
  match as_number a, as_number b with
  | Some x, Some y => Ok (num_lt x y)
  | _, _ => Raise (TypeError ("'<' not supported between instances of '"
                              ++ type_name a ++ "' and '" ++ type_name b ++ "'"))
  end.

Definition py_gt (a b : pyval) : res bool :=
  match as_number a, as_number b with
  | Some x, Some y => Ok (num_lt y x)
  | _, _ => Raise (TypeError ("'>' not supported between instances of '"
                              ++ type_name a ++ "' and '" ++ type_name b ++ "'"))
  end.

(** a + b, on numbers *)
Definition py_add (a b : pyval) : res pyval :=
  match as_number a, as_number b with
  | Some x, Some y =>
      match num_add x y with
      | Ok r => Ok (of_number r)
      | Raise e => Raise e
      end
  | _, _ => Raise (TypeError ("unsupported operand type(s) for +: '"
                              ++ type_name a ++ "' and '" ++ type_name b ++ "'"))
  end.

(** min(gen) and max(gen) over a generator whose elements are computed one
    by one: the first element starts, a later one replaces the current best
    when it is strictly smaller (larger). *)
Fixpoint best_of (better : pyval -> pyval -> res bool) (current : pyval)
         (gen : list (res pyval)) : res pyval :=
  match gen with
  | [] => Ok current
  | x :: rest =>
      match x with
      | Ok v => match better v current with
                | Ok b => best_of better (if b then v else current) rest
                | Raise e => Raise e
                end
      | Raise e => Raise e
      end
  end.

Definition py_min (gen : list (res pyval)) : res pyval :=
  match gen with
  | [] => Raise (ValueError "min() arg is an empty sequence")
  | Ok v :: rest => best_of py_lt v rest
  | Raise e :: _ => Raise e
  end.

Definition py_max (gen : list (res pyval)) : res pyval :=
  match gen with
  | [] => Raise (ValueError "max() arg is an empty sequence")
  | Ok v :: rest => best_of py_gt v rest
  | Raise e :: _ => Raise e
  end.

(** What json.loads (json.load, for a file) makes of a text: the document
    it decodes, or the exception it raises.  That is JSONDecodeError for a
    text that is no JSON; the decoder also raises RecursionError on deep
    nesting and a plain ValueError on an integer beyond the digit limit, and
    reading a file can raise UnicodeDecodeError. *)
Inductive json_text : Type :=
| Rejected (e : exn)
| Document (v : pyval).

(** A text that is no JSON. *)
Definition Unparsable (err : string) : json_text := Rejected (JSONDecodeError err).

Definition json_loads (t : json_text) : res pyval :=
  match t with
  | Rejected e => Raise e
  | Document v => Ok v
  end.

(** The document a serializable value is written as: tuples become arrays. *)
Fixpoint as_json (v : pyval) : pyval :=
  match v with
  | PList l | PTuple l => PList (map as_json l)
  | PDict d => PDict (map (fun kv => (fst kv, as_json (snd kv))) d)
  | _ => v
  end.

(** float(v) *)
Definition py_float {RT : PyRuntime} (v : pyval) : res float :=
  match v with
  | PNum n => float_of_int n
  | PBool b => Ok (if b then PrimFloat.one else PrimFloat.zero)
  | PFloat f => Ok f
  | PStr s =>
      match float_of_str s with
      | Some n => Ok n
      | None => Raise (ValueError ("could not convert string to float: '" ++ s ++ "'"))
      end
  | _ => Raise (TypeError ("float() argument must be a string or a real number, not '"
                           ++ type_name v ++ "'"))
  end.

(** What json.dumps accepts: None, booleans, numbers (nan and the
    infinities too, allow_nan being left at its default), strings, lists and
    tuples of such, and dicts (string-keyed here) of such. *)
Fixpoint json_serializable (v : pyval) : bool :=
  match v with
  | PNone | PBool _ | PNum _ | PFloat _ | PStr _ => true
  | PList l | PTuple l => forallb json_serializable l
  | PDict d => forallb (fun kv => json_serializable (snd kv)) d
  | PDatetime _ | PSet _ | PObj _ _ _ _ _ => false
  end.

(** The first value inside [v] that json.dumps has no encoding for. *)
Fixpoint offender (v : pyval) : option pyval :=
  let fix first (l : list pyval) : option pyval :=
      match l with
      | [] => None
      | x :: rest => match offender x with Some o => Some o | None => first rest end
      end in
  let fix first_value (d : list (string * pyval)) : option pyval :=
      match d with
      | [] => None
      | kv :: rest =>
          match offender (snd kv) with Some o => Some o | None => first_value rest end
      end in
  match v with
  | PNone | PBool _ | PNum _ | PFloat _ | PStr _ => None
  | PList l | PTuple l => first l
  | PDict d => first_value d
  | PDatetime _ | PSet _ | PObj _ _ _ _ _ => Some v
  end.

(** json.dumps(v) *)
Definition json_dumps {RT : PyRuntime} (v : pyval) : res string :=
  if json_serializable v then Ok (json_dumps_text v)
  else Raise (TypeError ("Object of type "
                         ++ match offender v with
                            | Some o => type_name o
                            | None => type_name v
                            end
                         ++ " is not JSON serializable")).

(** The values json.loads produces: None, booleans, numbers, strings, and
    lists and dicts of such. *)
Fixpoint plain (v : pyval) : bool :=
  match v with
  | PNone | PBool _ | PNum _ | PFloat _ | PStr _ => true
  | PList l => forallb plain l
  | PDict d => forallb (fun kv => plain (snd kv)) d
  | PDatetime _ | PTuple _ | PSet _ | PObj _ _ _ _ _ => false
  end.

(** *** The error monad over a state *)

Definition M (S A : Type) : Type := S -> res A * S.

Definition ret {S A} (a : A) : M S A := fun s => (Ok a, s).
Definition raise {S A} (e : exn) : M S A := fun s => (Raise e, s).
Definition lift {S A} (r : res A) : M S A := fun s => (r, s).

Definition bind {S A B} (m : M S A) (f : A -> M S B) : M S B :=
  fun s => match m s with
           | (Ok a, s') => f a s'
           | (Raise e, s') => (Raise e, s')
           end.

(** try: m  except Exception as e: h e   (mutations made by m persist) *)
Definition try_except {S A} (m : M S A) (h : exn -> M S A) : M S A :=
  fun s => match m s with
           | (Ok a, s') => (Ok a, s')
           | (Raise e, s') => h e s'
           end.

Definition rbind {A B} (r : res A) (f : A -> res B) : res B :=
  match r with Ok a => f a | Raise e => Raise e end.

(** [f(x) for x in l], stopping at the first exception *)
Section Collect.
Variables A B : Type.
Variable f : A -> res B.

Fixpoint collect (l : list A) : res (list B) :=
  match l with
  | [] => Ok []
  | x :: rest =>
      match f x with
      | Ok y => match collect rest with
                | Ok ys => Ok (y :: ys)
                | Raise e => Raise e
                end
      | Raise e => Raise e
      end
  end.
End Collect.

End Py.
Export Py.

Declare Scope py_scope.
Delimit Scope py_scope with py.
Notation "x <- m ;; k" := (bind m (fun x => k))
  (at level 61, m at next level, right associativity) : py_scope.
Notation "m ;;; k" := (bind m (fun _ => k))
  (at level 61, right associativity) : py_scope.
Notation "x <~ r ;; k" := (rbind r (fun x => k))
  (at level 61, r at next level, right associativity) : py_scope.
Local Open Scope py_scope.

(* ================================================================== *)
(** ** tool_registry.py and the registrations                         *)
(* ================================================================== *)
Module Registry.

(** v.get('required', False), taken for its truth value; the AttributeError
    of a specification that is no dict leaves the comprehension. *)
Definition marked_required (spec : pyval) : res bool :=
  r <~ py_get spec "required" (PBool false) ;; Ok (truthy r).

(** required = [k for k, v in parameters.items() if v.get('required', False)] *)
Fixpoint required_of (parameters : list (string * pyval)) : res (list string) :=
  match parameters with
  | [] => Ok []
  | kv :: rest =>
      marked <~ marked_required (snd kv) ;;
      others <~ required_of rest ;;
      Ok (if marked : bool then fst kv :: others else others)
  end.

Definition descriptor (name description : string)
           (parameters : list (string * pyval)) (required : list string) : pyval :=
  PDict [("name", PStr name);
         ("description", PStr description);
         ("inputSchema",
          PDict [("type", PStr "object");
                 ("properties", PDict parameters);
                 ("required", PList (map PStr required))])].

(** The module-level dict TOOLS, as the state the registrations run in. *)
Definition registry : Type := list (string * pyval).

(** register_tool: the required list first, then TOOLS[name] = {...}. *)
Definition register_tool (name description : string)
           (parameters : list (string * pyval)) : M registry unit :=
  required <- lift (required_of parameters) ;;
  fun tools =>
    (Ok tt, store name (descriptor name description parameters required) tools).

Definition field (type description : string) : pyval :=
  PDict [("type", PStr type); ("description", PStr description)].

Definition optional_field (type description : string) : pyval :=
  PDict [("type", PStr type); ("description", PStr description);
         ("required", PBool false)].

Definition create_shape_parameters : list (string * pyval) :=
  [("board_id", field "string" "The ID of the board");
   ("shape_type",
    PDict [("type", PStr "string");
           ("description",
            PStr "Type of shape: rectangle, circle, triangle, star, arrow, etc.");
           ("enum",
            PList (map PStr ["rectangle"; "circle"; "triangle"; "star";
                             "arrow"; "rhombus"; "octagon"; "hexagon"]))]);
   ("x", field "number" "X coordinate of the shape position");
   ("y", field "number" "Y coordinate of the shape position");
   ("width", field "number" "Width of the shape");
   ("height", field "number" "Height of the shape");
   ("fillColor", optional_field "string" "Fill color in hex format (e.g., #FF0000)");
   ("borderColor", optional_field "string" "Border color in hex format (e.g., #000000)");
   ("borderWidth", optional_field "number" "Border width in pixels");
   ("content", optional_field "string" "Text content to display in the shape")].

Definition update_shape_parameters : list (string * pyval) :=
  [("board_id", field "string" "The ID of the board");
   ("item_id", field "string" "The ID of the shape item to update");
   ("x", optional_field "number" "New X coordinate (optional)");
   ("y", optional_field "number" "New Y coordinate (optional)");
   ("width", optional_field "number" "New width (optional)");
   ("height", optional_field "number" "New height (optional)");
   ("fillColor", optional_field "string" "New fill color in hex format (optional)");
   ("borderColor", optional_field "string" "New border color in hex format (optional)");
   ("borderWidth", optional_field "number" "New border width in pixels (optional)");
   ("content", optional_field "string" "New text content (optional)")].

Definition delete_shape_parameters : list (string * pyval) :=
  [("board_id", field "string" "The ID of the board");
   ("item_id", field "string" "The ID of the shape item to delete")].

Definition group_shapes_parameters : list (string * pyval) :=
  [("board_id", field "string" "The ID of the board");
   ("item_ids",
    PDict [("type", PStr "array");
           ("items", PDict [("type", PStr "string")]);
           ("description", PStr "List of item IDs to group together")])].

Definition ungroup_shapes_parameters : list (string * pyval) :=
  [("board_id", field "string" "The ID of the board");
   ("group_id", field "string" "The ID of the group/frame to ungroup")].

Definition exchange_auth_code_parameters : list (string * pyval) :=
  [("code", field "string" "The authorization code received from Miro OAuth callback")].

Definition get_board_parameters : list (string * pyval) :=
  [("board_id", field "string" "The ID of the board")].

(** The registrations, in the order server.py imports the tools modules:
    shape_tools, group_tools, auth_tools, board_tools. *)
Definition registrations : list (string * string * list (string * pyval)) :=
  [("create_shape", "Create a shape on a Miro board", create_shape_parameters);
   ("update_shape", "Update properties of an existing shape", update_shape_parameters);
   ("delete_shape", "Delete a shape from a board", delete_shape_parameters);
   ("group_shapes", "Group multiple shapes together on a board", group_shapes_parameters);
   ("ungroup_shapes", "Ungroup shapes by removing them from a group/frame",
    ungroup_shapes_parameters);
   ("get_auth_url", "Get the OAuth 2.0 authorization URL to authenticate with Miro", []);
   ("exchange_auth_code", "Exchange an authorization code for an access token",
    exchange_auth_code_parameters);
   ("get_board",
    "Get information about a Miro board including metadata, name, description, and settings",
    get_board_parameters)].

Fixpoint register_all (rs : list (string * string * list (string * pyval)))
  : M registry unit :=
  match rs with
  | [] => ret tt
  | r :: rest =>
      register_tool (fst (fst r)) (snd (fst r)) (snd r) ;;; register_all rest
  end.

(** TOOLS once the tools modules have been imported. *)
Definition TOOLS : registry := snd (register_all registrations []).

(** descriptor['inputSchema']['required'] of a registered tool *)
Definition schema_required (name : string) : option pyval :=
  match lookup name TOOLS with
  | Some d =>
      match py_getitem d "inputSchema" with
      | Ok s => match py_getitem s "required" with Ok r => Some r | Raise _ => None end
      | Raise _ => None
      end
  | None => None
  end.

(** The derivation in the specification's words: the names of the properties
    not marked optional, a missing required flag counting as true. *)
Definition spec_marked_required (spec : pyval) : bool :=
  match py_get spec "required" (PBool true) with
  | Ok r => truthy r
  | Raise _ => false
  end.

Definition spec_required_of (parameters : list (string * pyval)) : list string :=
  map fst (filter (fun kv => spec_marked_required (snd kv)) parameters).

End Registry.

(* ================================================================== *)
(** ** miro_client.py: convert_to_dict                                *)
(* ================================================================== *)
Module Serializer.
Section Convert.
Context {RT : PyRuntime}.

(** type_str.startswith('typing.') or 'typing' in type_str *)
Definition is_typing_marker (type_str : string) : bool :=
  String.prefix "typing." type_str || substring_of "typing" type_str.

(** The model_dump attempt: mode='json' first, the plain call second; [None]
    when the attribute is missing or both calls raise. *)
Definition try_model_dump (md : option (res pyval * res pyval)) : option pyval :=
  match md with
  | Some (Ok v, _) => Some v
  | Some (Raise _, Ok v) => Some v
  | Some (Raise _, Raise _) => None
  | None => None
  end.

(** The dict() attempt. *)
Definition try_dict (dm : option (res pyval)) : option pyval :=
  match dm with
  | Some (Ok v) => Some v
  | Some (Raise _) => None
  | None => None
  end.

(** not k.startswith('_') or k == '__class__' *)
Definition public_attribute (k : string) : bool :=
  negb (String.prefix "_" k) || (k =? "__class__")%string.

(** The loop over obj.__dict__.items(): a value that fails to convert is
    kept as its string, and dropped when that fails too. *)
Section Vars.
Variable convert : pyval -> res pyval.

Fixpoint convert_vars (d result : list (string * pyval))
  : list (string * pyval) :=
  match d with
  | [] => result
  | kv :: rest =>
      if public_attribute (fst kv) then
        match convert (snd kv) with
        | Ok y => convert_vars rest (store (fst kv) y result)
        | Raise _ =>
            match py_str (snd kv) with
            | Ok s => convert_vars rest (store (fst kv) (PStr s) result)
            | Raise _ => convert_vars rest result
            end
        end
      else convert_vars rest result
  end.

(** k: convert(v) for one entry of a dict *)
Definition convert_entry (kv : string * pyval) : res (string * pyval) :=
  match convert (snd kv) with
  | Ok y => Ok (fst kv, y)
  | Raise e => Raise e
  end.
End Vars.

Fixpoint convert_to_dict (obj : pyval) {struct obj} : res pyval :=
  match obj with
  | PNone => Ok PNone
  | PBool _ | PNum _ | PFloat _ | PStr _ => Ok obj
  | PDatetime iso => Ok (PStr iso)
  | PDict d =>
      match collect (convert_entry convert_to_dict) d with
      | Ok d' => Ok (PDict d')
      | Raise e => Raise e
      end
  | PList l | PTuple l | PSet l =>
      match collect convert_to_dict l with
      | Ok l' => Ok (PList l')
      | Raise e => Raise e
      end
  | PObj type_str md dm vars sr =>
      if is_typing_marker type_str then
        match sr with Ok s => Ok (PStr s) | Raise e => Raise e end
      else
        match try_model_dump md with
        | Some dumped => Ok dumped
        | None =>
            match try_dict dm with
            | Some dumped => Ok dumped
            | None =>
                match vars with
                | Some d => Ok (PDict (convert_vars convert_to_dict d []))
                | None =>
                    match sr with
                    | Ok s => Ok (PStr s)
                    | Raise _ => Ok PNone
                    end
                end
            end
        end
  end.

(** Every typing marker that sits in [v] outside an object's attributes
    answers str() without raising. *)
Fixpoint markers_printable (v : pyval) : bool :=
  match v with
  | PList l | PTuple l | PSet l => forallb markers_printable l
  | PDict d => forallb (fun kv => markers_printable (snd kv)) d
  | PObj type_str _ _ _ sr => if is_typing_marker type_str then is_ok sr else true
  | _ => true
  end.

(** Every dump that convert_to_dict hands back as it is, from an object in
    [v], is something json.dumps accepts. *)
Fixpoint dumps_clean (v : pyval) : bool :=
  match v with
  | PList l | PTuple l | PSet l => forallb dumps_clean l
  | PDict d => forallb (fun kv => dumps_clean (snd kv)) d
  | PObj type_str md dm vars _ =>
      if is_typing_marker type_str then true
      else
        match try_model_dump md with
        | Some dumped => json_serializable dumped
        | None =>
            match try_dict dm with
            | Some dumped => json_serializable dumped
            | None =>
                match vars with
                | Some d =>
                    forallb (fun kv => negb (public_attribute (fst kv))
                                       || dumps_clean (snd kv)) d
                | None => true
                end
            end
        end
  | _ => true
  end.

(** What the induction carries for a value: conversion returns when the
    markers print, and what it returns is serializable when the dumps are. *)
Definition converts_well (v : pyval) : Prop :=
  (markers_printable v = true -> exists j, convert_to_dict v = Ok j)
  /\ (forall j, convert_to_dict v = Ok j -> dumps_clean v = true ->
                json_serializable j = true).

End Convert.
End Serializer.

(* ================================================================== *)
(** ** config.py and the MiroClient class of miro_client.py           *)
(* ================================================================== *)
Module Client.

(** *** config.py *)

(** The three variables read by os.getenv. *)
Record environ : Type := {
  env_MIRO_CLIENT_ID : option string;
  env_MIRO_CLIENT_SECRET : option string;
  env_MIRO_REDIRECT_URL : option string
}.

Definition getenv (v : option string) : pyval :=
  match v with Some s => PStr s | None => PNone end.

Definition MIRO_CLIENT_ID (env : environ) : pyval := getenv (env_MIRO_CLIENT_ID env).
Definition MIRO_CLIENT_SECRET (env : environ) : pyval :=
  getenv (env_MIRO_CLIENT_SECRET env).
Definition MIRO_REDIRECT_URL (env : environ) : pyval :=
  match env_MIRO_REDIRECT_URL env with
  | Some s => PStr s
  | None => PStr "http://localhost:8080/callback"
  end.

Definition validate_config (env : environ) : res unit :=
  if negb (truthy (MIRO_CLIENT_ID env)) then
    Raise (ValueError "MIRO_CLIENT_ID environment variable is required")
  else if negb (truthy (MIRO_CLIENT_SECRET env)) then
    Raise (ValueError "MIRO_CLIENT_SECRET environment variable is required")
  else Ok tt.

(** *** The vendor: the miro_api SDK and the HTTP endpoint *)

Inductive api_request : Type :=
| create_shape_item (board_id data : pyval)
| update_shape_item (board_id item_id data : pyval)
| delete_shape_item (board_id item_id : pyval)
| get_shape_item (board_id item_id : pyval)
| get_frame_item (board_id item_id : pyval)
| get_items (board_id : pyval)
| create_frame_item (board_id data : pyval)
| update_item_position_or_parent (board_id item_id data : pyval)
| delete_frame_item (board_id item_id : pyval).

(** A requests.Response, by the two methods called on it. *)
Record http_response : Type := {
  raise_for_status : res unit;
  json : res pyval
}.

(** Reading an attribute of the SDK object: the object has no such
    attribute, the attribute is a property whose getter raises, or it has a
    value. *)
Inductive attribute : Type :=
| Missing
| Failing (e : exn)
| Value (v : pyval).

(** getattr(obj, name, None): the default stands in for a missing attribute
    and for a getter that raises AttributeError, and for nothing else. *)
Definition getattr_or_None (a : attribute) : res pyval :=
  match a with
  | Missing => Ok PNone
  | Failing e => if is_AttributeError e then Ok PNone else Raise e
  | Value v => Ok v
  end.

(** [handle] is a miro_api.Miro instance, with its attributes [access_token]
    and [refresh_token].  The vendor's own state is [world]. *)
Class Vendor : Type := {
  world : Type;
  handle : Type;
  Miro : pyval -> pyval -> pyval -> res handle;
  auth_url : handle -> pyval;
  access_token : handle -> attribute;
  refresh_token : handle -> attribute;
  exchange_code_for_access_token :
    pyval -> handle -> world -> res unit * (handle * world);
  api : api_request -> handle -> world -> res pyval * world;
  requests_get : string -> list (string * string) -> world -> res http_response * world
}.

Section MiroClient.
Context {RT : PyRuntime} {V : Vendor}.

Record MiroClient : Type := {
  client_id : pyval;
  client_secret : pyval;
  redirect_url : pyval;
  _miro : option handle;
  _stored_access_token : pyval;
  _stored_refresh_token : pyval
}.

(** What a method of the client can touch: the object itself, the token
    file (absent, or its text) and the vendor. *)
Record cstate : Type := {
  self : MiroClient;
  token_file : option json_text;
  vendor : world
}.

Definition set_self (c : MiroClient) : M cstate unit :=
  fun st => (Ok tt, {| self := c; token_file := token_file st; vendor := vendor st |}).

Definition set_token_file (f : option json_text) : M cstate unit :=
  fun st => (Ok tt, {| self := self st; token_file := f; vendor := vendor st |}).

Definition get_self : M cstate MiroClient := fun st => (Ok (self st), st).

Definition set_miro (h : option handle) : M cstate unit :=
  c <- get_self ;;
  set_self {| client_id := client_id c; client_secret := client_secret c;
              redirect_url := redirect_url c; _miro := h;
              _stored_access_token := _stored_access_token c;
              _stored_refresh_token := _stored_refresh_token c |}.

Definition set_stored_access_token (t : pyval) : M cstate unit :=
  c <- get_self ;;
  set_self {| client_id := client_id c; client_secret := client_secret c;
              redirect_url := redirect_url c; _miro := _miro c;
              _stored_access_token := t;
              _stored_refresh_token := _stored_refresh_token c |}.

Definition set_stored_refresh_token (t : pyval) : M cstate unit :=
  c <- get_self ;;
  set_self {| client_id := client_id c; client_secret := client_secret c;
              redirect_url := redirect_url c; _miro := _miro c;
              _stored_access_token := _stored_access_token c;
              _stored_refresh_token := t |}.

Definition call_api (h : handle) (req : api_request) : M cstate pyval :=
  fun st => let (r, w) := api req h (vendor st) in
            (r, {| self := self st; token_file := token_file st; vendor := w |}).

(** self._miro and hasattr(self._miro, 'access_token') and
    self._miro.access_token, with the token when the test passes.  hasattr
    answers False on AttributeError only, raised by the lookup or by the
    getter: another exception of the property leaves the test. *)
Definition live_access_token (c : MiroClient) : res (option pyval) :=
  match _miro c with
  | Some h =>
      match access_token h with
      | Missing => Ok None
      | Failing e => if is_AttributeError e then Ok None else Raise e
      | Value t => Ok (if truthy t then Some t else None)
      end
  | None => Ok None
  end.

(** *** Token store *)

Definition _load_tokens : M cstate unit :=
  fun st =>
    match token_file st with
    | None => (Ok tt, st)
    | Some text =>
        try_except
          (tokens <- lift (json_loads text) ;;
           a <- lift (py_getitem tokens "access_token") ;;
           set_stored_access_token a ;;;
           r <- lift (py_get tokens "refresh_token" PNone) ;;
           set_stored_refresh_token r)
          (fun e =>
             if is_JSONDecodeError e || is_KeyError e then
               set_token_file None ;;;
               set_stored_access_token PNone ;;;
               set_stored_refresh_token PNone
             else raise e)
          st
    end.

(** What is left after the store has been found corrupt. *)
Definition reset_store (st : cstate) : cstate :=
  {| self := {| client_id := client_id (self st);
                client_secret := client_secret (self st);
                redirect_url := redirect_url (self st);
                _miro := _miro (self st);
                _stored_access_token := PNone;
                _stored_refresh_token := PNone |};
     token_file := None;
     vendor := vendor st |}.

(** The texts _load_tokens treats as a corrupt store: one on which json
    raises JSONDecodeError, and an object without the access_token key. *)
Definition corrupt_store (t : json_text) : bool :=
  match t with
  | Rejected e => is_JSONDecodeError e
  | Document (PDict d) =>
      match lookup "access_token" d with Some _ => false | None => true end
  | Document _ => false
  end.

Definition token_document (access refresh : pyval) : pyval :=
  PDict [("access_token", access); ("refresh_token", refresh)].

(** open(TOKEN_STORAGE_FILE, 'w') truncates the file before json.dump
    starts; a value json cannot encode leaves a partial text behind. *)
Definition write_token_file (tokens : pyval) : M cstate unit :=
  match json_dumps tokens with
  | Ok _ => set_token_file (Some (Document (as_json tokens)))
  | Raise e => set_token_file (Some (Unparsable "truncated")) ;;; raise e
  end.

(** The pair _save_tokens picks: the live handle's, else the stored one. *)
Definition tokens_to_save (c : MiroClient) : res (pyval * pyval) :=
  live <~ live_access_token c ;;
  match live with
  | Some t =>
      match _miro c with
      | Some h => r <~ getattr_or_None (refresh_token h) ;; Ok (t, r)
      | None => Ok (t, PNone)
      end
  | None =>
      Ok (if truthy (_stored_access_token c)
          then (_stored_access_token c, _stored_refresh_token c)
          else (PNone, PNone))
  end.

(** The token pair of the specification: an access token and an optional
    refresh token, and the two values the SDK object shows for it. *)
Record TokenPair : Type := {
  accessToken : string;
  refreshToken : option string
}.

Definition refresh_value (p : TokenPair) : pyval :=
  match refreshToken p with Some r => PStr r | None => PNone end.

(** The client [c] holds the pair [p]: on its live handle, where a handle
    without a refresh_token attribute holds no refresh token; or, when the
    handle shows no access token, in its cache. *)
Definition holds_pair (c : MiroClient) (p : TokenPair) : Prop :=
  (exists h, _miro c = Some h
             /\ access_token h = Value (PStr (accessToken p))
             /\ getattr_or_None (refresh_token h) = Ok (refresh_value p))
  \/ (live_access_token c = Ok None
      /\ _stored_access_token c = PStr (accessToken p)
      /\ _stored_refresh_token c = refresh_value p).

(** A client object constructed later, before it reads the token file. *)
Definition restarted (c0 : MiroClient) (st : cstate) : cstate :=
  {| self := c0; token_file := token_file st; vendor := vendor st |}.

Definition _save_tokens : M cstate unit :=
  c <- get_self ;;
  pair <- lift (tokens_to_save c) ;;
  let (access, refresh) := pair : pyval * pyval in
  if truthy access then
    write_token_file (token_document access refresh) ;;;
    set_stored_access_token access ;;;
    set_stored_refresh_token refresh
  else ret tt.

(** MiroClient(): validation, the attributes, then the stored tokens. *)
Definition new_client (env : environ) : MiroClient :=
  {| client_id := MIRO_CLIENT_ID env;
     client_secret := MIRO_CLIENT_SECRET env;
     redirect_url := MIRO_REDIRECT_URL env;
     _miro := None;
     _stored_access_token := PNone;
     _stored_refresh_token := PNone |}.

Definition __init__ (env : environ) : M cstate unit :=
  lift (validate_config env) ;;;
  set_self (new_client env) ;;;
  _load_tokens.

(** *** OAuth *)

Definition get_auth_url : M cstate pyval :=
  c <- get_self ;;
  h <- lift (Miro (client_id c) (client_secret c) (redirect_url c)) ;;
  set_miro (Some h) ;;;
  ret (auth_url h).

Definition exchange_code_for_token (code : pyval) : M cstate pyval :=
  c <- get_self ;;
  match _miro c with
  | None =>
      raise (ValueError
        "Miro instance not initialized. Please call get_auth_url() first to start the OAuth flow.")
  | Some h =>
      (fun st =>
         let '(r, (h', w)) := exchange_code_for_access_token code h (vendor st) in
         (r, {| self := {| client_id := client_id c; client_secret := client_secret c;
                           redirect_url := redirect_url c; _miro := Some h';
                           _stored_access_token := _stored_access_token c;
                           _stored_refresh_token := _stored_refresh_token c |};
                token_file := token_file st; vendor := w |})) ;;;
      _save_tokens ;;;
      ret (PDict [("success", PBool true);
                  ("message", PStr "Successfully authenticated with Miro")])
  end.

Definition is_authenticated (c : MiroClient) : res bool :=
  live <~ live_access_token c ;;
  Ok (match live with
      | Some _ => true
      | None => negb (is_None (_stored_access_token c))
      end).

Definition not_authenticated_message : string :=
  "Not authenticated. Please complete OAuth flow first. "
  ++ "Use get_auth_url() to get authorization URL, then exchange_code_for_token() with the code.".

Definition reauthentication_required_message : string :=
  "Miro API client requires tokens to be set through OAuth flow. "
  ++ "Please call get_auth_url() and exchange_code_for_token() to re-authenticate.".

Definition _ensure_authenticated : M cstate unit :=
  c <- get_self ;;
  authenticated <- lift (is_authenticated c) ;;
  if negb authenticated then raise (ValueError not_authenticated_message)
  else ret tt.

(** The result stands for self._miro.api: the handle the calls go through. *)
Definition _get_api : M cstate handle :=
  _ensure_authenticated ;;;
  c <- get_self ;;
  live <- lift (live_access_token c) ;;
  match live, _miro c with
  | Some _, Some h => ret h
  | _, _ =>
      if truthy (_stored_access_token c) then
        raise (ValueError reauthentication_required_message)
      else raise (ValueError "Not authenticated. Please complete OAuth flow first.")
  end.

(** *** Shapes *)

Definition format_style_entry (style_clean : list (string * pyval))
           (kv : string * pyval) : res (list (string * pyval)) :=
  let (key, value) := kv in
  if (key =? "fillColor")%string then
    let d := store "fill_color" value style_clean in
    Ok (match lookup "fill_opacity" d with
        | Some _ => d
        | None => store "fill_opacity" (PStr "1.0") d
        end)
  else if (key =? "borderColor")%string then
    let d := store "border_color" value style_clean in
    Ok (match lookup "border_opacity" d with
        | Some _ => d
        | None => store "border_opacity" (PStr "1.0") d
        end)
  else if (key =? "borderWidth")%string then
    n <~ py_float value ;;
    Ok (store "border_width" (PStr (float_repr n)) style_clean)
  else Ok (store key value style_clean).

Fixpoint format_style_loop (items style_clean : list (string * pyval))
  : res (list (string * pyval)) :=
  match items with
  | [] => Ok style_clean
  | kv :: rest =>
      d <~ format_style_entry style_clean kv ;;
      format_style_loop rest d
  end.

Definition _format_style (style : pyval) : res pyval :=
  items <~ py_items style ;;
  d <~ format_style_loop items [] ;;
  Ok (PDict d).

(** {'a': float(d['a']), 'b': float(d['b'])} *)
Definition float_pair (d : pyval) (a b : string) : res pyval :=
  va <~ py_getitem d a ;;
  na <~ py_float va ;;
  vb <~ py_getitem d b ;;
  nb <~ py_float vb ;;
  Ok (PDict [(a, PFloat na); (b, PFloat nb)]).

Definition _format_shape_data (shape_type position geometry style content : pyval)
  : res pyval :=
  pos <~ float_pair position "x" "y" ;;
  geo <~ float_pair geometry "width" "height" ;;
  let data := if truthy content
              then [("shape", shape_type); ("content", content)]
              else [("shape", shape_type)] in
  let shape_data := [("data", PDict data); ("position", pos); ("geometry", geo)] in
  if truthy style then
    st <~ _format_style style ;;
    Ok (PDict (store "style" st shape_data))
  else Ok (PDict shape_data).

Definition create_shape (board_id shape_type position geometry style content : pyval)
  : M cstate pyval :=
  h <- _get_api ;;
  shape_data <- lift (_format_shape_data shape_type position geometry style content) ;;
  result <- call_api h (create_shape_item board_id shape_data) ;;
  lift (Serializer.convert_to_dict result).

(** The position part of update_data. *)
Definition update_position (position : pyval) (update_data : list (string * pyval))
  : res (list (string * pyval)) :=
  if truthy position then
    has_x <~ py_contains position "x" ;;
    with_x <~ (if has_x : bool then
                 v <~ py_getitem position "x" ;;
                 n <~ py_float v ;;
                 Ok [("x", PFloat n)]
               else Ok []) ;;
    has_y <~ py_contains position "y" ;;
    position_update <~ (if has_y : bool then
                          v <~ py_getitem position "y" ;;
                          n <~ py_float v ;;
                          Ok (store "y" (PFloat n) with_x)
                        else Ok with_x) ;;
    Ok (match position_update with
        | [] => update_data
        | _ => store "position" (PDict position_update) update_data
        end)
  else Ok update_data.

(** The dict update_shape hands to the vendor. *)
Definition update_payload (position geometry style content : pyval) : res pyval :=
  d1 <~ update_position position [] ;;
  d2 <~ (if truthy geometry then
           geo <~ float_pair geometry "width" "height" ;;
           Ok (store "geometry" geo d1)
         else Ok d1) ;;
  let d3 := if negb (is_None content)
            then store "data" (PDict [("content", content)]) d2
            else d2 in
  if truthy style then
    st <~ _format_style style ;;
    Ok (PDict (store "style" st d3))
  else Ok (PDict d3).

Definition update_shape (board_id item_id position geometry style content : pyval)
  : M cstate pyval :=
  h <- _get_api ;;
  update_data <- lift (update_payload position geometry style content) ;;
  result <- call_api h (update_shape_item board_id item_id update_data) ;;
  lift (Serializer.convert_to_dict result).

Definition delete_shape (board_id item_id : pyval) : M cstate pyval :=
  h <- _get_api ;;
  call_api h (delete_shape_item board_id item_id) ;;;
  message <- lift (fmt "Shape " item_id " deleted successfully") ;;
  ret (PDict [("success", PBool true); ("message", PStr message)]).

(** The entry a supplied float makes, and none for one not supplied. *)
Definition present (key : string) (n : option float) : list (string * pyval) :=
  match n with Some f => [(key, PFloat f)] | None => [] end.

(** The position or geometry argument the update_shape handler passes: a
    dict of what was supplied, None when nothing was. *)
Definition optional_dict (entries : list (string * pyval)) : pyval :=
  match entries with [] => PNone | _ => PDict entries end.

(** The section of the update payload for such entries: none when empty. *)
Definition section_of (name : string) (entries : list (string * pyval))
  : list (string * pyval) :=
  match entries with [] => [] | _ => [(name, PDict entries)] end.

Definition both (a b : string) (wh : option (float * float))
  : list (string * pyval) :=
  match wh with Some (w, h) => [(a, PFloat w); (b, PFloat h)] | None => [] end.

(** The border width a tool call gives: none when the argument is None,
    else float() of it. *)
Definition border_width (v : pyval) : res (option float) :=
  if is_None v then Ok None else f <~ py_float v ;; Ok (Some f).

(** The style the vendor receives for the three style arguments of a tool
    call: the two colours, and the border width as a float when one was
    given. *)
Definition wire_style (fill border : pyval) (width : option float)
  : list (string * pyval) :=
  ((if truthy fill
    then [("fill_color", fill); ("fill_opacity", PStr "1.0")] else [])
   ++ (if truthy border
       then [("border_color", border); ("border_opacity", PStr "1.0")] else [])
   ++ match width with
      | Some f => [("border_width", PStr (float_repr f))]
      | None => []
      end)%list.

(** *** Boards *)

Definition with_vendor (st : cstate) (w : world) : cstate :=
  {| self := self st; token_file := token_file st; vendor := w |}.

Definition http_get (url : string) (headers : list (string * string))
  : M cstate http_response :=
  fun st => let (r, w) := requests_get url headers (vendor st) in
            (r, {| self := self st; token_file := token_file st; vendor := w |}).

Definition get_board (board_id : pyval) : M cstate pyval :=
  _ensure_authenticated ;;;
  url <- lift (fmt "https://api.miro.com/v2/boards/" board_id EmptyString) ;;
  c <- get_self ;;
  live <- lift (live_access_token c) ;;
  token <- match live with
           | Some t => ret t
           | None =>
               if truthy (_stored_access_token c) then ret (_stored_access_token c)
               else raise (ValueError "No access token available")
           end ;;
  bearer <- lift (fmt "Bearer " token EmptyString) ;;
  response <- http_get url [("Authorization", bearer);
                            ("Content-Type", "application/json")] ;;
  lift (raise_for_status response) ;;;
  body <- lift (json response) ;;
  lift (Serializer.convert_to_dict body).

(** *** Groups *)

(** str(type(v)) *)
Definition type_repr (v : pyval) : string :=
  match v with
  | PObj t _ _ _ _ => t
  | _ => "<class '" ++ type_name v ++ "'>"
  end.

Definition _extract_items_list (all_items_result : pyval) : res pyval :=
  all_items <~ Serializer.convert_to_dict all_items_result ;;
  match all_items with
  | PDict d =>
      match lookup "data" d with
      | Some data => Ok data
      | None => Raise (ValueError ("Unexpected response format from API: "
                                   ++ type_repr all_items_result))
      end
  | PList _ => Ok all_items
  | _ => Raise (ValueError ("Unexpected response format from API: "
                            ++ type_repr all_items_result))
  end.

(** str(item.get('id', '')) == wanted, for the items in turn. *)
Fixpoint find_by_id (items : list pyval) (wanted : res string) : res (option pyval) :=
  match items with
  | [] => Ok None
  | item :: rest =>
      id <~ py_get item "id" (PStr EmptyString) ;;
      id_str <~ py_str id ;;
      w <~ wanted ;;
      if (id_str =? w)%string then Ok (Some item) else find_by_id rest wanted
  end.

Definition _get_item_from_api (h : handle) (board_id item_id : pyval) : M cstate pyval :=
  try_except (call_api h (get_shape_item board_id item_id)) (fun _ =>
  try_except (call_api h (get_frame_item board_id item_id)) (fun _ =>
    all_items <- call_api h (get_items board_id) ;;
    items_list <- lift (_extract_items_list all_items) ;;
    item_id_str <- lift (py_str item_id) ;;
    items <- lift (py_iter items_list) ;;
    found <- lift (find_by_id items (Ok item_id_str)) ;;
    match found with
    | Some item => ret item
    | None =>
        message <- lift (a <~ fmt "Item " item_id " not found on board " ;;
                         fmt a board_id EmptyString) ;;
        raise (ValueError message)
    end)).

(** The first loop of group_shapes. *)
Fixpoint resolve_items (h : handle) (board_id : pyval) (item_ids : list pyval)
  : M cstate (list pyval) :=
  match item_ids with
  | [] => ret []
  | item_id :: rest =>
      item <- _get_item_from_api h board_id item_id ;;
      converted <- lift (Serializer.convert_to_dict item) ;;
      items <- resolve_items h board_id rest ;;
      ret (converted :: items)
  end.

(** The bounding box and the frame built from it. *)
Definition frame_data_of (items : list pyval) : res pyval :=
  positions <~ collect (fun item => py_getitem item "position") items ;;
  geometries <~ collect (fun item => py_getitem item "geometry") items ;;
  lo_x <~ py_min (map (fun pos => py_getitem pos "x") positions) ;;
  min_x <~ py_float lo_x ;;
  lo_y <~ py_min (map (fun pos => py_getitem pos "y") positions) ;;
  min_y <~ py_float lo_y ;;
  hi_x <~ py_max (map (fun pg => a <~ py_getitem (fst pg) "x" ;;
                                 b <~ py_getitem (snd pg) "width" ;;
                                 py_add a b)
                      (combine positions geometries)) ;;
  max_x <~ py_float hi_x ;;
  hi_y <~ py_max (map (fun pg => a <~ py_getitem (fst pg) "y" ;;
                                 b <~ py_getitem (snd pg) "height" ;;
                                 py_add a b)
                      (combine positions geometries)) ;;
  max_y <~ py_float hi_y ;;
  Ok (PDict [("data", PDict [("title", PStr "Group")]);
             ("position", PDict [("x", PFloat min_x); ("y", PFloat min_y)]);
             ("geometry", PDict [("width", PFloat (PrimFloat.sub max_x min_x));
                                 ("height", PFloat (PrimFloat.sub max_y min_y))])]).

(** An item's box: position x, y and geometry width, height, each an int or
    a float. *)
Record box : Type := {
  box_x : number;
  box_y : number;
  box_width : number;
  box_height : number
}.

(** The item record [item] carries the numbers of [b]. *)
Definition has_box (item : pyval) (b : box) : Prop :=
  exists d p g,
    item = PDict d
    /\ lookup "position" d = Some (PDict p)
    /\ lookup "geometry" d = Some (PDict g)
    /\ lookup "x" p = Some (of_number (box_x b))
    /\ lookup "y" p = Some (of_number (box_y b))
    /\ lookup "width" g = Some (of_number (box_width b))
    /\ lookup "height" g = Some (of_number (box_height b)).

(** The number a position or geometry dict gives under a key. *)
Definition gives (key : string) (proj : box -> number) (d : pyval) (b : box) : Prop :=
  py_getitem d key = Ok (of_number (proj b)).

(** pos['x'] + geom['width'] and pos['y'] + geom['height'] *)
Definition right_edge (b : box) : res number := num_add (box_x b) (box_width b).
Definition bottom_edge (b : box) : res number := num_add (box_y b) (box_height b).

(** float() converts the number. *)
Definition convertible (n : number) : bool := is_ok (number_float n).

(** [m] is a least (greatest) number of [l]: a member that no member is
    smaller (greater) than.  Where no nan is involved the order of numbers
    is total, and this is the minimum (maximum). *)
Definition is_minimum (m : number) (l : list number) : Prop :=
  In m l /\ forall z, In z l -> num_lt z m = false.

Definition is_maximum (m : number) (l : list number) : Prop :=
  In m l /\ forall z, In z l -> num_lt m z = false.

(** What min() and max() keep when they meet [z] while holding [a]. *)
Definition smaller (a z : number) : number := if num_lt z a then z else a.
Definition greater (a z : number) : number := if num_lt a z then z else a.

(** The frame_data dict for a box: the left and top edge, and the
    differences float(max_x - min_x) and float(max_y - min_y) of doubles. *)
Definition frame_data (left top right bottom : float) : pyval :=
  PDict [("data", PDict [("title", PStr "Group")]);
         ("position", PDict [("x", PFloat left); ("y", PFloat top)]);
         ("geometry", PDict [("width", PFloat (PrimFloat.sub right left));
                             ("height", PFloat (PrimFloat.sub bottom top))])].

(** The last loop of group_shapes. *)
Fixpoint reparent_all (h : handle) (board_id frame_id : pyval) (item_ids : list pyval)
  : M cstate unit :=
  match item_ids with
  | [] => ret tt
  | item_id :: rest =>
      call_api h (update_item_position_or_parent board_id item_id
                    (PDict [("parent", PDict [("id", frame_id)])])) ;;;
      reparent_all h board_id frame_id rest
  end.

(** group_shapes from the frame data on. *)
Definition create_frame_and_reparent (h : handle) (board_id frame_data : pyval)
           (item_ids : list pyval) : M cstate pyval :=
  frame_result <- call_api h (create_frame_item board_id frame_data) ;;
  frame <- lift (Serializer.convert_to_dict frame_result) ;;
  frame_id <- lift (py_getitem frame "id") ;;
  reparent_all h board_id frame_id item_ids ;;;
  ret frame.

Definition group_shapes (board_id item_ids : pyval) : M cstate pyval :=
  h <- _get_api ;;
  ids <- lift (py_iter item_ids) ;;
  items <- resolve_items h board_id ids ;;
  match items with
  | [] => raise (ValueError "No items found to group")
  | _ =>
      frame_data <- lift (frame_data_of items) ;;
      create_frame_and_reparent h board_id frame_data ids
  end.

(** item.get('parent') and item['parent']['id'] == group_id *)
Definition child_of (group_id item : pyval) : res bool :=
  parent <~ py_get item "parent" PNone ;;
  if truthy parent then
    parent' <~ py_getitem item "parent" ;;
    id <~ py_getitem parent' "id" ;;
    Ok (py_eqb id group_id)
  else Ok false.

Fixpoint children_of (group_id : pyval) (items : list pyval) : res (list pyval) :=
  match items with
  | [] => Ok []
  | item :: rest =>
      b <~ child_of group_id item ;;
      others <~ children_of group_id rest ;;
      Ok (if b : bool then item :: others else others)
  end.

Fixpoint unparent_all (h : handle) (board_id : pyval) (board_items : list pyval)
  : M cstate unit :=
  match board_items with
  | [] => ret tt
  | item :: rest =>
      item_id <- lift (py_getitem item "id") ;;
      call_api h (update_item_position_or_parent board_id item_id
                    (PDict [("parent", PNone)])) ;;;
      unparent_all h board_id rest
  end.

(** The id of the parent an item record names, when it names one: the
    value under 'id' of the dict under 'parent'. *)
Definition parent_id (item : pyval) : option pyval :=
  match item with
  | PDict d =>
      match lookup "parent" d with
      | Some (PDict parent) => lookup "id" parent
      | _ => None
      end
  | _ => None
  end.

(** The item record names a parent, and the parent's id equals [group_id]. *)
Definition in_group (group_id item : pyval) : bool :=
  match parent_id item with
  | Some id => py_eqb id group_id
  | None => false
  end.

(** An item record the selection can read: a dict whose 'parent', when
    there is one, is falsy or a dict that has an 'id'. *)
Definition parent_readable (item : pyval) : bool :=
  match item with
  | PDict d =>
      match lookup "parent" d with
      | None => true
      | Some (PDict parent) =>
          match parent with
          | [] => true
          | _ => match lookup "id" parent with Some _ => true | None => false end
          end
      | Some parent => negb (truthy parent)
      end
  | _ => false
  end.

(** str(item.get('id', '')) *)
Definition id_text (item : pyval) : res string :=
  id <~ py_get item "id" (PStr EmptyString) ;; py_str id.

Definition find_frame (h : handle) (board_id group_id : pyval) : M cstate pyval :=
  try_except (call_api h (get_frame_item board_id group_id)) (fun e =>
    if is_AttributeError e then
      all_items <- call_api h (get_items board_id) ;;
      items_list <- lift (_extract_items_list all_items) ;;
      items <- lift (py_iter items_list) ;;
      found <- lift (find_by_id items (py_str group_id)) ;;
      match found with
      | Some frame =>
          if truthy frame then ret frame
          else message <- lift (a <~ fmt "Frame " group_id " not found on board " ;;
                                fmt a board_id EmptyString) ;;
               raise (ValueError message)
      | None =>
          message <- lift (a <~ fmt "Frame " group_id " not found on board " ;;
                           fmt a board_id EmptyString) ;;
          raise (ValueError message)
      end
    else
      message <- lift (fmt "Frame " group_id (" not found: " ++ exn_str e)) ;;
      raise (ValueError message)).

Definition ungroup_shapes (board_id group_id : pyval) : M cstate pyval :=
  h <- _get_api ;;
  frame <- find_frame h board_id group_id ;;
  frame_dict <- lift (Serializer.convert_to_dict frame) ;;
  type <- lift (py_getitem frame_dict "type") ;;
  if negb (py_eqb type (PStr "frame")) then
    message <- lift (fmt "Item " group_id " is not a frame/group") ;;
    raise (ValueError message)
  else
    all_items <- call_api h (get_items board_id) ;;
    items_list <- lift (_extract_items_list all_items) ;;
    items <- lift (py_iter items_list) ;;
    board_items <- lift (children_of group_id items) ;;
    unparent_all h board_id board_items ;;;
    call_api h (delete_frame_item board_id group_id) ;;;
    ret (PDict [("success", PBool true);
                ("message",
                 PStr ("Ungrouped " ++ decimal (Z.of_nat (List.length board_items))
                       ++ " items"))]).

(** Each of the five board-mutating operations, whatever its arguments,
    raises [e] and leaves the client, the token file and the vendor as they
    were. *)
Definition mutations_refused (st : cstate) (e : exn) : Prop :=
  (forall b t p g s c, create_shape b t p g s c st = (Raise e, st))
  /\ (forall b i p g s c, update_shape b i p g s c st = (Raise e, st))
  /\ (forall b i, delete_shape b i st = (Raise e, st))
  /\ (forall b ids, group_shapes b ids st = (Raise e, st))
  /\ (forall b g, ungroup_shapes b g st = (Raise e, st)).

End MiroClient.
End Client.

(* ================================================================== *)
(** ** tools/: the handle_tool_call functions                         *)
(* ================================================================== *)
Module Tools.

(** The methods the handlers call on the miro_client object they are given;
    [C] is whatever state such an object lives in. *)
Class ClientInterface (C : Type) : Type := {
  cl_get_auth_url : M C pyval;
  cl_exchange_code_for_token : pyval -> M C pyval;
  cl_get_board : pyval -> M C pyval;
  cl_create_shape : pyval -> pyval -> pyval -> pyval -> pyval -> pyval -> M C pyval;
  cl_update_shape : pyval -> pyval -> pyval -> pyval -> pyval -> pyval -> M C pyval;
  cl_delete_shape : pyval -> pyval -> M C pyval;
  cl_group_shapes : pyval -> pyval -> M C pyval;
  cl_ungroup_shapes : pyval -> pyval -> M C pyval
}.

Section Common.
Context {C : Type}.

(** tool_name == 'literal' *)
Definition named (tool_name : pyval) (literal : string) : bool :=
  py_eqb tool_name (PStr literal).

(** except Exception as e: return {'error': str(e)} *)
Definition error_payload (message : string) : pyval :=
  PDict [("error", PStr message)].

Definition or_error (m : M C pyval) : M C pyval :=
  try_except m (fun e => ret (error_payload (exn_str e))).

End Common.

(** *** tools/shape_tools.py *)
Module shape_tools.
Section Handler.
Context {RT : PyRuntime} {C : Type} {CI : ClientInterface C}.

Definition _build_style_dict (arguments : pyval) : res pyval :=
  fill <~ py_get arguments "fillColor" PNone ;;
  s1 <~ (if truthy fill then
           v <~ py_getitem arguments "fillColor" ;; Ok [("fillColor", v)]
         else Ok []) ;;
  border <~ py_get arguments "borderColor" PNone ;;
  s2 <~ (if truthy border then
           v <~ py_getitem arguments "borderColor" ;; Ok (store "borderColor" v s1)
         else Ok s1) ;;
  width <~ py_get arguments "borderWidth" PNone ;;
  s3 <~ (if negb (is_None width) then
           v <~ py_getitem arguments "borderWidth" ;;
           n <~ py_float v ;;
           Ok (store "borderWidth" (PFloat n) s2)
         else Ok s2) ;;
  Ok (PDict s3).

(** _build_style_dict(arguments) or None *)
Definition style_or_None (arguments : pyval) : res pyval :=
  style <~ _build_style_dict arguments ;;
  Ok (if truthy style then style else PNone).

(** {'a': float(arguments['a'])} and/or 'b', for the ones that are not
    None; None when both are. *)
Definition optional_pair (arguments : pyval) (a b : string) : res pyval :=
  va <~ py_get arguments a PNone ;;
  vb <~ py_get arguments b PNone ;;
  if negb (is_None va) || negb (is_None vb) then
    d1 <~ (if negb (is_None va) then
             v <~ py_getitem arguments a ;; n <~ py_float v ;; Ok [(a, PFloat n)]
           else Ok []) ;;
    d2 <~ (if negb (is_None vb) then
             v <~ py_getitem arguments b ;; n <~ py_float v ;; Ok (store b (PFloat n) d1)
           else Ok d1) ;;
    Ok (PDict d2)
  else Ok PNone.

Definition create_shape_required_message : string :=
  "board_id, shape_type, x, y, width, and height are required".

Definition handle_tool_call (tool_name arguments : pyval) : M C pyval :=
  if named tool_name "create_shape" then
    board_id <- lift (py_get arguments "board_id" PNone) ;;
    shape_type <- lift (py_get arguments "shape_type" PNone) ;;
    x <- lift (py_get arguments "x" PNone) ;;
    y <- lift (py_get arguments "y" PNone) ;;
    width <- lift (py_get arguments "width" PNone) ;;
    height <- lift (py_get arguments "height" PNone) ;;
    if negb (truthy board_id && truthy shape_type && negb (is_None x)
             && negb (is_None y) && truthy width && truthy height) then
      ret (error_payload create_shape_required_message)
    else
      or_error (
        nx <- lift (py_float x) ;;
        ny <- lift (py_float y) ;;
        nw <- lift (py_float width) ;;
        nh <- lift (py_float height) ;;
        style <- lift (style_or_None arguments) ;;
        content <- lift (py_get arguments "content" PNone) ;;
        result <- cl_create_shape board_id shape_type
                    (PDict [("x", PFloat nx); ("y", PFloat ny)])
                    (PDict [("width", PFloat nw); ("height", PFloat nh)])
                    style content ;;
        ret (PDict [("success", PBool true); ("shape", result)]))
  else if named tool_name "update_shape" then
    board_id <- lift (py_get arguments "board_id" PNone) ;;
    item_id <- lift (py_get arguments "item_id" PNone) ;;
    if negb (truthy board_id) || negb (truthy item_id) then
      ret (error_payload "board_id and item_id are required")
    else
      position <- lift (optional_pair arguments "x" "y") ;;
      geometry <- lift (optional_pair arguments "width" "height") ;;
      or_error (
        style <- lift (style_or_None arguments) ;;
        content <- lift (py_get arguments "content" PNone) ;;
        result <- cl_update_shape board_id item_id position geometry style content ;;
        ret (PDict [("success", PBool true); ("shape", result)]))
  else if named tool_name "delete_shape" then
    board_id <- lift (py_get arguments "board_id" PNone) ;;
    item_id <- lift (py_get arguments "item_id" PNone) ;;
    if negb (truthy board_id) || negb (truthy item_id) then
      ret (error_payload "board_id and item_id are required")
    else
      or_error (
        cl_delete_shape board_id item_id ;;;
        ret (PDict [("success", PBool true);
                    ("message", PStr "Shape deleted successfully")]))
  else
    message <- lift (fmt "Unknown shape tool: " tool_name EmptyString) ;;
    ret (error_payload message).


End Handler.
End shape_tools.

(** *** tools/auth_tools.py *)
Module auth_tools.
Section Handler.
Context {RT : PyRuntime} {C : Type} {CI : ClientInterface C}.

Definition handle_tool_call (tool_name arguments : pyval) : M C pyval :=
  if named tool_name "get_auth_url" then
    or_error (
      url <- cl_get_auth_url ;;
      ret (PDict [("success", PBool true);
                  ("auth_url", url);
                  ("message", PStr ("Visit this URL to authorize the application, "
                     ++ "then use exchange_auth_code with the code from the callback"))]))
  else if named tool_name "exchange_auth_code" then
    code <- lift (py_get arguments "code" PNone) ;;
    if negb (truthy code) then ret (error_payload "code parameter is required")
    else or_error (cl_exchange_code_for_token code)
  else
    message <- lift (fmt "Unknown auth tool: " tool_name EmptyString) ;;
    ret (error_payload message).

End Handler.
End auth_tools.

(** *** tools/board_tools.py *)
Module board_tools.
Section Handler.
Context {RT : PyRuntime} {C : Type} {CI : ClientInterface C}.

Definition handle_tool_call (tool_name arguments : pyval) : M C pyval :=
  if named tool_name "get_board" then
    board_id <- lift (py_get arguments "board_id" PNone) ;;
    if negb (truthy board_id) then ret (error_payload "board_id is required")
    else
      or_error (
        result <- cl_get_board board_id ;;
        ret (PDict [("success", PBool true); ("board", result)]))
  else
    message <- lift (fmt "Unknown board tool: " tool_name EmptyString) ;;
    ret (error_payload message).

End Handler.
End board_tools.

(** *** tools/group_tools.py *)
Module group_tools.
Section Handler.
Context {RT : PyRuntime} {C : Type} {CI : ClientInterface C}.

(** not item_ids or not isinstance(item_ids, list) or len(item_ids) < 2 *)
Definition too_few_items (item_ids : pyval) : bool :=
  match item_ids with
  | PList l => (Z.of_nat (List.length l) <? 2)
  | _ => true
  end.

Definition handle_tool_call (tool_name arguments : pyval) : M C pyval :=
  if named tool_name "group_shapes" then
    board_id <- lift (py_get arguments "board_id" PNone) ;;
    item_ids <- lift (py_get arguments "item_ids" PNone) ;;
    if negb (truthy board_id) then ret (error_payload "board_id parameter is required")
    else if too_few_items item_ids then
      ret (error_payload "item_ids must be a list with at least 2 item IDs")
    else
      or_error (
        result <- cl_group_shapes board_id item_ids ;;
        n <- lift (py_len item_ids) ;;
        ret (PDict [("success", PBool true);
                    ("group", result);
                    ("message", PStr ("Successfully grouped " ++ decimal n ++ " shapes"))]))
  else if named tool_name "ungroup_shapes" then
    board_id <- lift (py_get arguments "board_id" PNone) ;;
    group_id <- lift (py_get arguments "group_id" PNone) ;;
    if negb (truthy board_id) || negb (truthy group_id) then
      ret (error_payload "board_id and group_id are required")
    else
      or_error (
        result <- cl_ungroup_shapes board_id group_id ;;
        message <- lift (py_get result "message" (PStr "Shapes ungrouped successfully")) ;;
        ret (PDict [("success", PBool true); ("message", message)]))
  else
    message <- lift (fmt "Unknown group tool: " tool_name EmptyString) ;;
    ret (error_payload message).

End Handler.
End group_tools.

(** The MiroClient class as such an object. *)
#[export] Instance miro_client_interface {RT : PyRuntime} {V : Client.Vendor}
  : ClientInterface Client.cstate := {
  cl_get_auth_url := Client.get_auth_url;
  cl_exchange_code_for_token := Client.exchange_code_for_token;
  cl_get_board := Client.get_board;
  cl_create_shape := Client.create_shape;
  cl_update_shape := Client.update_shape;
  cl_delete_shape := Client.delete_shape;
  cl_group_shapes := Client.group_shapes;
  cl_ungroup_shapes := Client.ungroup_shapes
}.

End Tools.

(* ================================================================== *)
(** ** server.py                                                      *)
(* ================================================================== *)
Module Server.
Import Client Tools.

(** A line of standard input after line.strip(): blank, or a text. *)
Inductive stdin_line : Type :=
| Blank
| Text (t : json_text).

Section Main.
Context {RT : PyRuntime} {V : Vendor}.
Variable env : environ.

(** The process: main's miro_client variable, the token file, the vendor,
    and what print() has sent to the two output streams; the tracebacks
    that traceback.print_exc adds on standard error are left out. *)
Record process : Type := {
  miro_client : option MiroClient;
  disk : option json_text;
  remote : world;
  stdout : list pyval;
  stderr : list string
}.

Definition print_stderr (message : string) : M process unit :=
  fun p => (Ok tt, {| miro_client := miro_client p; disk := disk p; remote := remote p;
                      stdout := stdout p; stderr := stderr p ++ [message] |}).

(** print(json.dumps(document)): the document joins the output once
    json.dumps has accepted it. *)
Definition print_json (document : pyval) : M process unit :=
  fun p =>
    match json_dumps document with
    | Ok _ =>
        (Ok tt, {| miro_client := miro_client p; disk := disk p; remote := remote p;
                   stdout := stdout p ++ [document]; stderr := stderr p |})
    | Raise e => (Raise e, p)
    end.

(** MiroClient() *)
Definition construct_client : M process MiroClient :=
  fun p =>
    let (r, cs) := __init__ env {| self := new_client env; token_file := disk p;
                                   vendor := remote p |} in
    let p' := {| miro_client := miro_client p; disk := token_file cs;
                 remote := vendor cs; stdout := stdout p; stderr := stderr p |} in
    match r with
    | Ok _ => (Ok (self cs), p')
    | Raise e => (Raise e, p')
    end.

Definition set_miro_client (c : MiroClient) : M process unit :=
  fun p => (Ok tt, {| miro_client := Some c; disk := disk p; remote := remote p;
                      stdout := stdout p; stderr := stderr p |}).

(** main.get_miro_client *)
Definition get_miro_client : M process MiroClient :=
  fun p =>
    match miro_client p with
    | Some c => (Ok c, p)
    | None =>
        try_except
          (c <- construct_client ;; set_miro_client c ;;; ret c)
          (fun e =>
             print_stderr ("Error initializing Miro client: " ++ exn_str e) ;;;
             raise e)
          p
    end.

(** A handler running on the client object: what it does to the object, the
    token file and the vendor stays done, also when it raises. *)
Definition on_client {A} (c : MiroClient) (m : M cstate A) : M process A :=
  fun p =>
    let (r, cs) := m {| self := c; token_file := disk p; vendor := remote p |} in
    (r, {| miro_client := Some (self cs); disk := token_file cs; remote := vendor cs;
           stdout := stdout p; stderr := stderr p |}).

Definition handle_initialize (params : pyval) : pyval :=
  PDict [("protocolVersion", PStr "2024-11-05");
         ("capabilities", PDict [("tools", PDict [])]);
         ("serverInfo", PDict [("name", PStr "miro-mcp-server");
                               ("version", PStr "1.0.0")])].

Definition handle_tools_list : pyval :=
  PDict [("tools", PList (map snd Registry.TOOLS))].

(** hash(v) raises on lists, dicts and sets, also inside a tuple. *)
Fixpoint hashable (v : pyval) : bool :=
  match v with
  | PList _ | PDict _ | PSet _ => false
  | PTuple l => forallb hashable l
  | _ => true
  end.

(** tool_name in TOOLS *)
Definition in_TOOLS (tool_name : pyval) : res bool :=
  if hashable tool_name then
    Ok (match tool_name with
        | PStr s => match lookup s Registry.TOOLS with Some _ => true | None => false end
        | _ => false
        end)
  else Raise (TypeError ("unhashable type: '" ++ type_name tool_name ++ "'")).

Definition text_content (text : string) : pyval :=
  PDict [("content", PList [PDict [("type", PStr "text"); ("text", PStr text)]])].

Definition error_content (text : string) : pyval :=
  PDict [("content", PList [PDict [("type", PStr "text"); ("text", PStr text)]]);
         ("isError", PBool true)].

(** tool_name in [...] and tool_name.startswith(...), on a name that is a
    key of TOOLS and therefore a string. *)
Definition name_in (tool_name : pyval) (names : list string) : bool :=
  existsb (named tool_name) names.

Definition name_startswith (tool_name : pyval) (p : string) : res bool :=
  match tool_name with
  | PStr s => Ok (String.prefix p s)
  | _ => Raise (no_attribute tool_name "startswith")
  end.

Definition handle_tools_call (tool_name arguments : pyval) : M process pyval :=
  known <- lift (in_TOOLS tool_name) ;;
  if negb known then
    text <- lift (fmt "Unknown tool: " tool_name EmptyString) ;;
    ret (error_content text)
  else
    try_except
      (c <- get_miro_client ;;
       if name_in tool_name ["create_shape"; "update_shape"; "delete_shape"] then
         result <- on_client c (shape_tools.handle_tool_call tool_name arguments) ;;
         text <- lift (json_dumps result) ;;
         ret (text_content text)
       else if name_in tool_name ["group_shapes"; "ungroup_shapes"] then
         result <- on_client c (group_tools.handle_tool_call tool_name arguments) ;;
         text <- lift (json_dumps result) ;;
         ret (text_content text)
       else
         a <- lift (name_startswith tool_name "get_auth") ;;
         b <- lift (if a : bool then Ok true
                    else name_startswith tool_name "exchange_auth") ;;
         if b : bool then
           result <- on_client c (auth_tools.handle_tool_call tool_name arguments) ;;
           text <- lift (json_dumps result) ;;
           ret (text_content text)
         else if named tool_name "get_board" then
           result <- on_client c (board_tools.handle_tool_call tool_name arguments) ;;
           text <- lift (json_dumps result) ;;
           ret (text_content text)
         else
           text <- lift (fmt "No handler for tool: " tool_name EmptyString) ;;
           ret (error_content text))
      (fun e =>
         text <- lift (fmt "Error executing tool " tool_name (": " ++ exn_str e)) ;;
         ret (error_content text)).

Definition rpc_result (request_id response : pyval) : pyval :=
  PDict [("jsonrpc", PStr "2.0"); ("id", request_id); ("result", response)].

Definition rpc_error (request_id : pyval) (code : Z) (message : string) : pyval :=
  PDict [("jsonrpc", PStr "2.0"); ("id", request_id);
         ("error", PDict [("code", PNum code); ("message", PStr message)])].

Definition process_request (request : pyval) : M process (option pyval) :=
  method <- lift (py_get request "method" PNone) ;;
  params <- lift (py_get request "params" (PDict [])) ;;
  request_id <- lift (py_get request "id" PNone) ;;
  let answer (response : pyval) : M process (option pyval) :=
      if negb (is_None request_id) then ret (Some (rpc_result request_id response))
      else ret None in
  if named method "initialize" then answer (handle_initialize params)
  else if named method "tools/list" then answer handle_tools_list
  else if named method "tools/call" then
    tool_name <- lift (py_get params "name" PNone) ;;
    arguments <- lift (py_get params "arguments" (PDict [])) ;;
    response <- handle_tools_call tool_name arguments ;;
    answer response
  else
    if negb (is_None request_id) then
      message <- lift (fmt "Method not found: " method EmptyString) ;;
      ret (Some (rpc_error request_id (-32601) message))
    else ret None.

(** The body of main's loop for one line. *)
Definition handle_line (line : stdin_line) : M process unit :=
  match line with
  | Blank => ret tt
  | Text t =>
      try_except
        (request <- lift (json_loads t) ;;
         response <- process_request request ;;
         match response with
         | Some r => if truthy r then print_json r else ret tt
         | None => ret tt
         end)
        (fun e =>
           if is_JSONDecodeError e then
             print_json (rpc_error PNone (-32700) ("Parse error: " ++ exn_str e))
           else
             print_stderr ("Error processing request: " ++ exn_str e) ;;;
             print_json (rpc_error PNone (-32603) ("Internal error: " ++ exn_str e)))
  end.

(** What the two except clauses of the loop print for an exception [e]. *)
Definition escaped_response (e : exn) : pyval :=
  if is_JSONDecodeError e
  then rpc_error PNone (-32700) ("Parse error: " ++ exn_str e)
  else rpc_error PNone (-32603) ("Internal error: " ++ exn_str e).

(** request.get('id'), None also when there is nothing to ask. *)
Definition request_id_of (request : pyval) : pyval :=
  match py_get request "id" PNone with
  | Ok id => id
  | Raise _ => PNone
  end.

(** A computation that prints nothing to standard output. *)
Definition keeps_stdout {A} (m : M process A) : Prop :=
  forall p, stdout (snd (m p)) = stdout p.

Definition printed (p : process) (document : pyval) : process :=
  {| miro_client := miro_client p; disk := disk p; remote := remote p;
     stdout := stdout p ++ [document]; stderr := stderr p |}.

(** The process after a message has gone to standard error. *)
Definition logged (p : process) (message : string) : process :=
  {| miro_client := miro_client p; disk := disk p; remote := remote p;
     stdout := stdout p; stderr := stderr p ++ [message] |}.

(** not MIRO_CLIENT_ID or not MIRO_CLIENT_SECRET *)
Definition configuration_missing : bool :=
  negb (truthy (MIRO_CLIENT_ID env)) || negb (truthy (MIRO_CLIENT_SECRET env)).

(** A tool result as handle_tools_call shapes it: one text block, with or
    without the isError flag. *)
Definition is_content (v : pyval) : Prop :=
  exists text, v = text_content text \/ v = error_content text.

(** A computation whose value, when it returns, satisfies [Q]. *)
Definition yields {A} (Q : A -> Prop) (m : M process A) : Prop :=
  forall p, match fst (m p) with Ok a => Q a | Raise _ => True end.

(** The lines the loop does not skip. *)
Definition texts (lines : list stdin_line) : list stdin_line :=
  filter (fun line => match line with Blank => false | Text _ => true end) lines.

(** for line in sys.stdin: an exception leaving the body ends the process. *)
Fixpoint serve (lines : list stdin_line) : M process unit :=
  match lines with
  | [] => ret tt
  | line :: rest => handle_line line ;;; serve rest
  end.

(** The process as it starts: importing config and the tool modules
    validates nothing and constructs no client. *)
Definition start (file : option json_text) (w : world) : process :=
  {| miro_client := None; disk := file; remote := w; stdout := []; stderr := [] |}.

Definition main (file : option json_text) (w : world) (lines : list stdin_line)
  : res unit * process :=
  serve lines (start file w).

End Main.
End Server.

(* ================================================================== *)
(** ** A concrete runtime and a concrete vendor                       *)
(* ================================================================== *)
Module Example.
Import Client.

Definition quoted (s : string) : string :=
  String (ascii_of_nat 34) s ++ String (ascii_of_nat 34) EmptyString.

Fixpoint zeros (n : nat) : string :=
  match n with
  | O => EmptyString
  | S n' => String "0" (zeros n')
  end.

(** The decimal digits of [n], padded with zeros on the left to [k]. *)
Definition padded (k : Z) (n : Z) : string :=
  zeros (Z.to_nat k - String.length (decimal n)) ++ decimal n.

(** str(f) for the floats whose decimal expansion is short: an integer
    below 2**53, or a fraction with at most 15 significant digits that is
    not below 1e-4.  There the expansion is the shortest text that reads
    back as [f], which is what the interpreter prints.  For the other
    floats this runtime has no text. *)
Definition float_text (f : float) : string :=
  match Prim2SF f with
  | S754_zero s => if s then "-0.0" else "0.0"
  | S754_infinity s => if s then "-inf" else "inf"
  | S754_nan => "nan"
  | S754_finite s m e =>
      let sign := if s then "-" else EmptyString in
      let g := Z.gcd (Z.pos m) (2 ^ (- e)) in
      if 0 <=? e then
        (if Z.pos m * 2 ^ e <? 2 ^ 53
         then sign ++ decimal (Z.pos m * 2 ^ e) ++ ".0" else "<float>")
      else
        let numerator := Z.pos m / g in
        let denominator := 2 ^ (- e) / g in
        let k := Z.log2 denominator in
        let whole := numerator / denominator in
        let digits := (numerator mod denominator) * 5 ^ k in
        if k =? 0 then
          (if numerator <? 2 ^ 53 then sign ++ decimal numerator ++ ".0"
           else "<float>")
        else if ((if whole =? 0 then Z.of_nat (String.length (decimal digits))
                  else Z.of_nat (String.length (decimal whole)) + k) <=? 15)
                && ((negb (whole =? 0)) || (10 ^ (k - 4) <=? digits))
        then sign ++ decimal whole ++ "." ++ padded k digits
        else "<float>"
  end.

(** A compact JSON writer (no escapes, no indentation). *)
Fixpoint write_json (v : pyval) : string :=
  match v with
  | PNone => "null"
  | PBool true => "true"
  | PBool false => "false"
  | PNum n => decimal n
  | PFloat f => float_text f
  | PStr s => quoted s
  | PList l | PTuple l => "[" ++ String.concat ", " (map write_json l) ++ "]"
  | PDict d =>
      "{" ++ String.concat ", "
               (map (fun kv => quoted (fst kv) ++ ": " ++ write_json (snd kv)) d)
      ++ "}"
  | _ => EmptyString
  end.

(** The runtime of the examples.  float() reads no string here: the only
    strings the examples hand to it spell no number. *)
#[export] Instance plain_runtime : PyRuntime := {
  render := fun v => Ok (write_json v);
  float_of_str := fun _ => None;
  float_repr := float_text;
  json_dumps_text := write_json
}.

(** The SDK object: its two token attributes. *)
Record sdk : Type := {
  sdk_access_token : pyval;
  sdk_refresh_token : pyval
}.

Definition shape (id : string) (x y w h : Z) : pyval :=
  PDict [("id", PStr id); ("type", PStr "shape");
         ("position", PDict [("x", PNum x); ("y", PNum y)]);
         ("geometry", PDict [("width", PNum w); ("height", PNum h)])].

(** A board with two shapes; the vendor's state is the list of the requests
    it has received, the latest first. *)
Definition answer (req : api_request) : res pyval :=
  match req with
  | get_shape_item _ (PStr "a") => Ok (shape "a" 0 0 10 10)
  | get_shape_item _ (PStr "b") => Ok (shape "b" 20 5 10 10)
  | get_shape_item _ _ => Raise (VendorError "(404) Not Found")
  | get_frame_item _ _ => Raise (VendorError "(404) Not Found")
  | get_items _ => Ok (PDict [("data", PList [shape "a" 0 0 10 10; shape "b" 20 5 10 10])])
  | create_frame_item _ data =>
      Ok (match data with
          | PDict d => PDict (("id", PStr "f") :: ("type", PStr "frame") :: d)
          | _ => data
          end)
  | create_shape_item _ data | update_shape_item _ _ data => Ok data
  | update_item_position_or_parent _ _ data => Ok data
  | delete_shape_item _ _ | delete_frame_item _ _ => Ok PNone
  end.

#[export] Instance two_shape_vendor : Vendor := {
  world := list api_request;
  handle := sdk;
  Miro := fun _ _ _ => Ok {| sdk_access_token := PNone; sdk_refresh_token := PNone |};
  auth_url := fun _ => PStr "https://miro.com/oauth/authorize";
  access_token := fun h => Value (sdk_access_token h);
  refresh_token := fun h => Value (sdk_refresh_token h);
  exchange_code_for_access_token := fun code h w =>
    (Ok tt, ({| sdk_access_token := PStr "access-1";
                sdk_refresh_token := PStr "refresh-1" |}, w));
  api := fun req _ w => (answer req, req :: w);
  requests_get := fun url headers w =>
    (Ok {| raise_for_status := Ok tt;
           json := Ok (PDict [("id", PStr "board-1"); ("name", PStr "Plans")]) |}, w)
}.

(** The process before its first line, with no token file. *)
Definition fresh_process : Server.process :=
  Server.start None [].

(** The process after the notification with numeric params. *)
Definition after_malformed_notification : Server.process :=
  {| Server.miro_client := None; Server.disk := None; Server.remote := [];
     Server.stdout := [Server.rpc_error PNone (-32603)
                         "Internal error: 'int' object has no attribute 'get'"];
     Server.stderr := ["Error processing request: "
                       ++ "'int' object has no attribute 'get'"] |}.

(** What json.loads raises on a line of 100000 opening brackets. *)
Definition too_deep : exn :=
  RecursionError
    "maximum recursion depth exceeded while decoding a JSON array from a unicode string".

(** The process after that line. *)
Definition after_deep_line : Server.process :=
  {| Server.miro_client := None; Server.disk := None; Server.remote := [];
     Server.stdout := [Server.rpc_error PNone (-32603)
                         ("Internal error: " ++ exn_str too_deep)];
     Server.stderr := ["Error processing request: " ++ exn_str too_deep] |}.

(** A Pydantic v1 style model: no model_dump, and a dict method that
    returns its fields as Python values, a datetime among them. *)
Definition legacy_model : pyval :=
  PObj "<class 'miro_api.models.board.Board'>" None
       (Some (Ok (PDict [("id", PStr "board-1");
                         ("created_at", PDatetime "2024-01-01T00:00:00")])))
       None (Ok "Board(id='board-1')").

(** An instance of a class from a module named after typing whose __str__
    raises. *)
Definition silent_marker : pyval :=
  PObj "<class 'app.typing_helpers.Lazy'>" None None None
       (Raise (ValueError "not resolved")).

(** An instance with attributes whose model_dump raises both ways. *)
Definition broken_dump_model : pyval :=
  PObj "<class 'miro_api.models.shape.Shape'>"
       (Some (Raise (TypeError "unexpected keyword argument 'mode'"),
              Raise (ValueError "cannot dump")))
       None
       (Some [("id", PStr "1"); ("_secret", PSet [PNum 2]); ("tags", PSet [PStr "x"])])
       (Ok "Shape(id='1')").

Definition environment : environ :=
  {| env_MIRO_CLIENT_ID := Some "client"; env_MIRO_CLIENT_SECRET := Some "secret";
     env_MIRO_REDIRECT_URL := None |}.

Definition empty_environment : environ :=
  {| env_MIRO_CLIENT_ID := None; env_MIRO_CLIENT_SECRET := None;
     env_MIRO_REDIRECT_URL := None |}.

(** A client that has completed the OAuth exchange. *)
Definition live_client : MiroClient :=
  {| client_id := PStr "client"; client_secret := PStr "secret";
     redirect_url := PStr "http://localhost:8080/callback";
     _miro := Some {| sdk_access_token := PStr "access-1";
                      sdk_refresh_token := PStr "refresh-1" |};
     _stored_access_token := PStr "access-1";
     _stored_refresh_token := PStr "refresh-1" |}.

(** A client that only holds what it read from the token file. *)
Definition cached_client : MiroClient :=
  {| client_id := PStr "client"; client_secret := PStr "secret";
     redirect_url := PStr "http://localhost:8080/callback";
     _miro := None;
     _stored_access_token := PStr "access-0";
     _stored_refresh_token := PNone |}.

Definition session (c : MiroClient) (file : option json_text) : cstate :=
  {| self := c; token_file := file; vendor := [] |}.

(** A client whose handle came back from the exchange with an empty access
    token. *)
Definition empty_token_client : MiroClient :=
  {| client_id := PStr "client"; client_secret := PStr "secret";
     redirect_url := PStr "http://localhost:8080/callback";
     _miro := Some {| sdk_access_token := PStr EmptyString;
                      sdk_refresh_token := PStr "refresh-1" |};
     _stored_access_token := PNone;
     _stored_refresh_token := PNone |}.

Definition cached_session : cstate := session cached_client None.
Definition live_session : cstate := session live_client None.
Definition empty_token_session : cstate := session empty_token_client None.

(** The cached client next to a token file that holds an empty array. *)
Definition array_file_session : cstate :=
  session cached_client (Some (Document (PList []))).

Definition live_handle : sdk :=
  {| sdk_access_token := PStr "access-1"; sdk_refresh_token := PStr "refresh-1" |}.

Definition two_ids : list pyval := [PStr "a"; PStr "b"].

Definition two_items : list pyval := [shape "a" 0 0 10 10; shape "b" 20 5 10 10].

(** The live session after the two shapes have been fetched. *)
Definition resolved_session : cstate :=
  with_vendor live_session [get_shape_item (PStr "board-1") (PStr "b");
                            get_shape_item (PStr "board-1") (PStr "a")].

Definition empty_pair : TokenPair :=
  {| accessToken := EmptyString; refreshToken := Some "refresh-1" |}.

Definition fresh_client : MiroClient := new_client environment.


Definition width_only_arguments : pyval :=
  PDict [("board_id", PStr "board-1"); ("item_id", PStr "item-1"); ("width", PNum 5)].

(** None, a mapping that holds a set, and the instance whose dump raises. *)
Definition mixed_value : pyval :=
  PList [PNone; PDict [("ids", PSet [PNum 1; PNum 2])]; broken_dump_model].

Definition board_body : pyval :=
  PDict [("id", PStr "board-1"); ("name", PStr "Plans")].

Definition two_boxes : list box :=
  [{| box_x := Int 0; box_y := Int 0; box_width := Int 10; box_height := Int 10 |};
   {| box_x := Int 20; box_y := Int 5; box_width := Int 10; box_height := Int 10 |}].

(** Two items as the API reports them, with floats, fractions among them:
    (0.5, -2.25, 10.0, 10.0) and (20.0, 5.0, 10.25, 10.0). *)
Definition float_shape (id : string) (x y w h : float) : pyval :=
  PDict [("id", PStr id); ("type", PStr "shape");
         ("position", PDict [("x", PFloat x); ("y", PFloat y)]);
         ("geometry", PDict [("width", PFloat w); ("height", PFloat h)])].

Definition float_items : list pyval :=
  [float_shape "a" 0.5%float (-2.25)%float 10%float 10%float;
   float_shape "b" 20%float 5%float 10.25%float 10%float].

Definition float_boxes : list box :=
  [{| box_x := Float 0.5%float; box_y := Float (-2.25)%float;
      box_width := Float 10%float; box_height := Float 10%float |};
   {| box_x := Float 20%float; box_y := Float 5%float;
      box_width := Float 10.25%float; box_height := Float 10%float |}].

Definition initialize_request : pyval :=
  PDict [("jsonrpc", PStr "2.0"); ("id", PNum 1); ("method", PStr "initialize")].

Definition get_auth_url_request : pyval :=
  PDict [("jsonrpc", PStr "2.0"); ("id", PNum 2); ("method", PStr "tools/call");
         ("params", PDict [("name", PStr "get_auth_url")])].

(** A tools/call notification whose params are a number. *)
Definition malformed_notification : pyval :=
  PDict [("jsonrpc", PStr "2.0"); ("method", PStr "tools/call"); ("params", PNum 5)].

(** A session with no credentials at all. *)
Definition anonymous_session : cstate := session fresh_client None.

(** The cached client next to a token file json cannot decode. *)
Definition garbled_file_session : cstate :=
  session cached_client (Some (Unparsable "Expecting value: line 1 column 1 (char 0)")).

(** The cached client next to a token file of 100000 opening brackets. *)
Definition deep_file_session : cstate :=
  session cached_client
          (Some (Rejected too_deep)).

Definition sticky_note : pyval :=
  PDict [("id", PStr "s"); ("type", PStr "sticky_note")].

(** An item with a numeric id that sits in the frame "f". *)
Definition text_item : pyval :=
  PDict [("id", PNum 7); ("type", PStr "text"); ("parent", PDict [("id", PStr "f")])].

(** A second vendor: one shape, a sticky note behind the frame endpoint, a
    bare list as listing, and no code it would accept.  Its state counts the
    calls. *)
Definition sticky_answer (req : api_request) : res pyval :=
  match req with
  | get_shape_item _ (PStr "a") => Ok (shape "a" 0 0 10 10)
  | get_shape_item _ _ => Raise (VendorError "(404) Not Found")
  | get_frame_item _ (PStr "s") => Ok sticky_note
  | get_frame_item _ _ => Raise (VendorError "(404) Not Found")
  | get_items _ => Ok (PList [text_item])
  | _ => Ok PNone
  end.

Definition sticky_vendor : Vendor :=
  {| world := nat;
     handle := sdk;
     Miro := fun _ _ _ => Ok {| sdk_access_token := PNone; sdk_refresh_token := PNone |};
     auth_url := fun _ => PStr "https://miro.com/oauth/authorize";
     access_token := fun h => Value (sdk_access_token h);
     refresh_token := fun h => Value (sdk_refresh_token h);
     exchange_code_for_access_token := fun code h w =>
       (Raise (VendorError "invalid_grant"), (h, S w));
     api := fun req _ w => (sticky_answer req, S w);
     requests_get := fun url headers w => (Raise (VendorError "connection refused"), w) |}.

Definition sticky_client : @MiroClient sticky_vendor :=
  @Build_MiroClient sticky_vendor (PStr "client") (PStr "secret")
    (PStr "http://localhost:8080/callback") (Some live_handle)
    (PStr "access-1") (PStr "refresh-1").

Definition sticky_session : @cstate sticky_vendor :=
  @Build_cstate sticky_vendor sticky_client None 0%nat.

(** The sticky session after [n] calls. *)
Definition sticky_after (n : nat) : @cstate sticky_vendor :=
  @Build_cstate sticky_vendor sticky_client None n.

(** A third vendor, shaped like the SDK object as the client probes it: the
    handle keeps the access token it was given, reading access_token before
    there is one raises, and there is no refresh_token attribute.  Its board
    holds the two shapes with fractional coordinates. *)
Definition no_token_stored : exn := VendorError "No access token stored".

Definition float_answer (req : api_request) : res pyval :=
  match req with
  | get_shape_item _ (PStr "a") =>
      Ok (float_shape "a" 0.5%float (-2.25)%float 10%float 10%float)
  | get_shape_item _ (PStr "b") =>
      Ok (float_shape "b" 20%float 5%float 10.25%float 10%float)
  | _ => answer req
  end.

Definition bare_vendor : Vendor :=
  {| world := list api_request;
     handle := option string;
     Miro := fun _ _ _ => Ok None;
     auth_url := fun _ => PStr "https://miro.com/oauth/authorize";
     access_token := fun h => match h with
                              | Some t => Value (PStr t)
                              | None => Failing no_token_stored
                              end;
     refresh_token := fun _ => Missing;
     exchange_code_for_access_token := fun code h w => (Ok tt, (Some "access-1", w));
     api := fun req _ w => (float_answer req, req :: w);
     requests_get := fun url headers w => (Raise (VendorError "connection refused"), w) |}.

(** A client of that vendor: without a handle, with a handle that has no
    token yet, or with one that has. *)
Definition bare_client (h : option (option string)) : @MiroClient bare_vendor :=
  @Build_MiroClient bare_vendor (PStr "client") (PStr "secret")
    (PStr "http://localhost:8080/callback") h PNone PNone.

Definition bare_session (h : option (option string)) : @cstate bare_vendor :=
  @Build_cstate bare_vendor (bare_client h) None [].

(** The session of that vendor after the exchange, before and after the two
    shapes have been fetched. *)
Definition bare_live_session : @cstate bare_vendor :=
  bare_session (Some (Some "access-1")).

Definition bare_resolved_session : @cstate bare_vendor :=
  @Build_cstate bare_vendor (bare_client (Some (Some "access-1"))) None
    [get_shape_item (PStr "board-1") (PStr "b");
     get_shape_item (PStr "board-1") (PStr "a")].

(** The pair such a handle holds after the exchange. *)
Definition access_only_pair : TokenPair :=
  {| accessToken := "access-1"; refreshToken := None |}.

(** Parameters in which one specification is a string, not a dict. *)
Definition misdeclared_parameters : list (string * pyval) :=
  [("board_id", Registry.field "string" "The ID of the board");
   ("limit", PStr "number")].

Definition styled_arguments : list (string * pyval) :=
  [("board_id", PStr "board-1"); ("item_id", PStr "item-1");
   ("fillColor", PStr "#FF0000"); ("borderColor", PStr EmptyString);
   ("borderWidth", PNum 0)].

Definition thick_arguments : list (string * pyval) :=
  [("board_id", PStr "board-1"); ("item_id", PStr "item-1");
   ("borderWidth", PStr "thick")].

Definition translucent_style : list (string * pyval) :=
  [("fillColor", PStr "#FF0000"); ("fill_opacity", PStr "0.5")].

Definition one_id_arguments : list (string * pyval) :=
  [("board_id", PStr "board-1"); ("item_ids", PList [PStr "a"])].

Definition no_board_arguments : list (string * pyval) :=
  [("item_id", PStr "item-1"); ("group_id", PStr "f"); ("item_ids", PList [PStr "a"])].

Definition delete_arguments : list (string * pyval) :=
  [("board_id", PStr "board-1"); ("item_id", PStr "item-1")].

Definition wide_arguments : list (string * pyval) :=
  [("board_id", PStr "board-1"); ("shape_type", PStr "rectangle");
   ("item_id", PStr "item-1"); ("x", PNum 1); ("y", PNum 2);
   ("width", PStr "wide"); ("height", PNum 10)].

Definition far_arguments : list (string * pyval) :=
  [("board_id", PStr "board-1"); ("item_id", PStr "item-1"); ("x", PStr "wide")].

Definition ping_request : list (string * pyval) :=
  [("jsonrpc", PStr "2.0"); ("id", PNum 7); ("method", PStr "ping")].

Definition ping_notification : list (string * pyval) :=
  [("jsonrpc", PStr "2.0"); ("method", PStr "ping")].

(** A process whose client holds nothing but was constructed. *)
Definition anonymous_process : Server.process :=
  {| Server.miro_client := Some fresh_client; Server.disk := None;
     Server.remote := []; Server.stdout := []; Server.stderr := [] |}.

End Example.

(* ================================================================== *)
(** ** Properties                                                     *)
(* ================================================================== *)
Import Registry Serializer Client Tools Server.

(** *** The monad, step by step *)

Lemma bind_ok {S A B} (m : M S A) (f : A -> M S B) (s s' : S) (a : A) :
  m s = (Ok a, s') -> bind m f s = f a s'.
Proof. unfold bind; intros ->; reflexivity. Qed.

Lemma bind_raise {S A B} (m : M S A) (f : A -> M S B) (s s' : S) (e : exn) :
  m s = (Raise e, s') -> bind m f s = (Raise e, s').
Proof. unfold bind; intros ->; reflexivity. Qed.

Lemma bind_lift_ok {S A B} (a : A) (f : A -> M S B) :
  bind (lift (Ok a)) f = f a.
Proof. reflexivity. Qed.

Lemma try_except_raise {S A} (m : M S A) (h : exn -> M S A) (s s' : S) (e : exn) :
  m s = (Raise e, s') -> try_except m h s = h e s'.
Proof. unfold try_except; intros ->; reflexivity. Qed.

Lemma py_get_arg d k : py_get (PDict d) k PNone = Ok (arg d k).
Proof. reflexivity. Qed.

(** *** Tool registry *)

(** Only a property that carries a true required flag is listed. *)
Lemma required_of_marked (parameters : list (string * pyval)) (ks : list string)
      (k : string) :
  required_of parameters = Ok ks ->
  In k ks ->
  exists spec, In (k, spec) parameters /\ marked_required spec = Ok true.
Proof.
  revert ks. induction parameters as [|[k' spec] parameters IH]; simpl; intros ks.
  - intros [= <-] [].
  - destruct (marked_required spec) as [marked|] eqn:Em; [|discriminate].
    cbn [rbind]. destruct (required_of parameters) as [others|]; [|discriminate].
    cbn [rbind]. intros [= <-] Hin.
    destruct marked.
    + destruct Hin as [<-|Hin]; [eauto|].
      destruct (IH others eq_refl Hin) as [spec' [H1 H2]]. eauto.
    + destruct (IH others eq_refl Hin) as [spec' [H1 H2]]. eauto.
Qed.

(** The registrations of the tools modules all go through. *)
Lemma registrations_succeed : register_all registrations [] = (Ok tt, TOOLS).
Proof. reflexivity. Qed.

(** No registration carries a true flag: every required list is empty. *)
Lemma registered_required_lists_empty :
  Forall (fun r => required_of (snd r) = Ok []) registrations.
Proof. repeat constructor. Qed.

(** C1 (tool_registry.register_tool, on the registration of create_shape in
    tools/shape_tools.py).  The descriptor's inputSchema.required is the
    empty list: register_tool reads the flag with v.get('required', False),
    so a property without a flag is left out.  The derivation the
    specification words (a missing flag counts as true) lists board_id,
    shape_type, x, y, width and height on the same parameters. *)
Theorem create_shape_required_is_empty :
  schema_required "create_shape" = Some (PList [])
  /\ required_of create_shape_parameters = Ok []
  /\ spec_required_of create_shape_parameters
     = ["board_id"; "shape_type"; "x"; "y"; "width"; "height"].
Proof. repeat split; reflexivity. Qed.

(** *** Serializer *)
Section SerializerProperties.
Context {RT : PyRuntime}.

Lemma store_serializable (k : string) (v : pyval) (d : list (string * pyval)) :
  json_serializable v = true ->
  forallb (fun kv => json_serializable (snd kv)) d = true ->
  forallb (fun kv => json_serializable (snd kv)) (store k v d) = true.
Proof.
  intros Hv. induction d as [|[k' v'] d IH]; simpl.
  - rewrite Hv. reflexivity.
  - intros H. apply andb_prop in H. destruct H as [H1 H2].
    destruct (k =? k')%string; simpl.
    + rewrite Hv, H2. reflexivity.
    + rewrite H1, (IH H2). reflexivity.
Qed.

Lemma collect_items_well (l : list pyval) :
  Forall converts_well l ->
  (forallb markers_printable l = true -> exists l', collect convert_to_dict l = Ok l')
  /\ (forall l', collect convert_to_dict l = Ok l' -> forallb dumps_clean l = true ->
                 forallb json_serializable l' = true).
Proof.
  induction 1 as [|x l [Hx1 Hx2] _ [IH1 IH2]]; simpl.
  - split; [eauto|]. intros l' [= <-] _. reflexivity.
  - split.
    + intros H. apply andb_prop in H. destruct H as [Ha Hb].
      destruct (Hx1 Ha) as [j ->]. destruct (IH1 Hb) as [l' ->]. eauto.
    + intros l'. destruct (convert_to_dict x) as [j|] eqn:Ej; [|discriminate].
      destruct (collect convert_to_dict l) as [js|]; [|discriminate].
      intros [= <-] H. apply andb_prop in H. destruct H as [Ha Hb]. simpl.
      rewrite (Hx2 j eq_refl Ha), (IH2 js eq_refl Hb). reflexivity.
Qed.

Lemma collect_entries_well (d : list (string * pyval)) :
  Forall (fun kv => converts_well (snd kv)) d ->
  (forallb (fun kv => markers_printable (snd kv)) d = true ->
   exists d', collect (convert_entry convert_to_dict) d = Ok d')
  /\ (forall d', collect (convert_entry convert_to_dict) d = Ok d' ->
                 forallb (fun kv => dumps_clean (snd kv)) d = true ->
                 forallb (fun kv => json_serializable (snd kv)) d' = true).
Proof.
  induction 1 as [|[k v] d [Hx1 Hx2] _ [IH1 IH2]]; simpl.
  - split; [eauto|]. intros d' [= <-] _. reflexivity.
  - cbn [snd fst] in Hx1, Hx2. unfold convert_entry at 1 3. cbn [snd fst]. split.
    + intros H. apply andb_prop in H. destruct H as [Ha Hb].
      destruct (Hx1 Ha) as [j ->]. destruct (IH1 Hb) as [d' ->]. eauto.
    + intros d'. destruct (convert_to_dict v) as [j|] eqn:Ej; [|discriminate].
      destruct (collect (convert_entry convert_to_dict) d) as [js|]; [|discriminate].
      intros [= <-] H. apply andb_prop in H. destruct H as [Ha Hb]. simpl.
      rewrite (Hx2 j eq_refl Ha), (IH2 js eq_refl Hb). reflexivity.
Qed.

Lemma convert_vars_well (d : list (string * pyval)) :
  Forall (fun kv => converts_well (snd kv)) d ->
  forall result,
    forallb (fun kv => json_serializable (snd kv)) result = true ->
    forallb (fun kv => negb (public_attribute (fst kv)) || dumps_clean (snd kv)) d = true ->
    forallb (fun kv => json_serializable (snd kv))
            (convert_vars convert_to_dict d result) = true.
Proof.
  induction 1 as [|[k v] d [_ Hx2] _ IH]; simpl; intros result Hr Hd; [exact Hr|].
  cbn [snd fst] in Hx2. apply andb_prop in Hd. destruct Hd as [Ha Hb].
  destruct (public_attribute k); simpl in Ha.
  - destruct (convert_to_dict v) as [j|] eqn:Ej.
    + apply IH; [|exact Hb]. apply store_serializable; auto.
    + destruct (py_str v); [|auto]. apply IH; [|exact Hb].
      apply store_serializable; auto.
  - auto.
Qed.

Lemma convert_to_dict_well (v : pyval) : converts_well v.
Proof.
  induction v using pyval_nested_ind; unfold converts_well.
  - split; [intros _; eexists; reflexivity|]. intros j [= <-] _. reflexivity.
  - split; [intros _; eexists; reflexivity|]. intros j [= <-] _. reflexivity.
  - split; [intros _; eexists; reflexivity|]. intros j [= <-] _. reflexivity.
  - split; [intros _; eexists; reflexivity|]. intros j [= <-] _. reflexivity.
  - split; [intros _; eexists; reflexivity|]. intros j [= <-] _. reflexivity.
  - split; [intros _; eexists; reflexivity|]. intros j [= <-] _. reflexivity.
  - destruct (collect_items_well H) as [H1 H2].
    change (convert_to_dict (PList l))
      with (match collect convert_to_dict l with
            | Ok l' => Ok (PList l') | Raise e => Raise e end).
    change (markers_printable (PList l)) with (forallb markers_printable l).
    change (dumps_clean (PList l)) with (forallb dumps_clean l).
    split.
    + intros Hm. destruct (H1 Hm) as [l' ->]. eauto.
    + intros j. destruct (collect convert_to_dict l) as [l'|]; [|discriminate].
      intros [= <-] Hd. exact (H2 l' eq_refl Hd).
  - destruct (collect_items_well H) as [H1 H2].
    change (convert_to_dict (PTuple l))
      with (match collect convert_to_dict l with
            | Ok l' => Ok (PList l') | Raise e => Raise e end).
    change (markers_printable (PTuple l)) with (forallb markers_printable l).
    change (dumps_clean (PTuple l)) with (forallb dumps_clean l).
    split.
    + intros Hm. destruct (H1 Hm) as [l' ->]. eauto.
    + intros j. destruct (collect convert_to_dict l) as [l'|]; [|discriminate].
      intros [= <-] Hd. exact (H2 l' eq_refl Hd).
  - destruct (collect_items_well H) as [H1 H2].
    change (convert_to_dict (PSet l))
      with (match collect convert_to_dict l with
            | Ok l' => Ok (PList l') | Raise e => Raise e end).
    change (markers_printable (PSet l)) with (forallb markers_printable l).
    change (dumps_clean (PSet l)) with (forallb dumps_clean l).
    split.
    + intros Hm. destruct (H1 Hm) as [l' ->]. eauto.
    + intros j. destruct (collect convert_to_dict l) as [l'|]; [|discriminate].
      intros [= <-] Hd. exact (H2 l' eq_refl Hd).
  - destruct (collect_entries_well H) as [H1 H2].
    change (convert_to_dict (PDict d))
      with (match collect (convert_entry convert_to_dict) d with
            | Ok d' => Ok (PDict d') | Raise e => Raise e end).
    change (markers_printable (PDict d))
      with (forallb (fun kv => markers_printable (snd kv)) d).
    change (dumps_clean (PDict d)) with (forallb (fun kv => dumps_clean (snd kv)) d).
    split.
    + intros Hm. destruct (H1 Hm) as [d' ->]. eauto.
    + intros j. destruct (collect (convert_entry convert_to_dict) d) as [d'|];
        [|discriminate].
      intros [= <-] Hd. exact (H2 d' eq_refl Hd).
  - simpl. destruct (is_typing_marker t).
    + split.
      * destruct sr; [eauto|discriminate].
      * destruct sr; [|discriminate]. intros j [= <-] _. reflexivity.
    + destruct (try_model_dump md) as [dumped|].
      * split; [eauto|]. intros j [= <-] Hd. exact Hd.
      * destruct (try_dict dm) as [dumped|].
        -- split; [eauto|]. intros j [= <-] Hd. exact Hd.
        -- split; [destruct sr; eauto|].
           destruct sr; intros j [= <-] _; reflexivity.
  - change (convert_to_dict (PObj t md dm (Some d) sr))
      with (if is_typing_marker t then
              match sr with Ok s => Ok (PStr s) | Raise e => Raise e end
            else match try_model_dump md with
                 | Some dumped => Ok dumped
                 | None => match try_dict dm with
                           | Some dumped => Ok dumped
                           | None => Ok (PDict (convert_vars convert_to_dict d []))
                           end
                 end).
    change (dumps_clean (PObj t md dm (Some d) sr))
      with (if is_typing_marker t then true
            else match try_model_dump md with
                 | Some dumped => json_serializable dumped
                 | None => match try_dict dm with
                           | Some dumped => json_serializable dumped
                           | None =>
                               forallb (fun kv => negb (public_attribute (fst kv))
                                                  || dumps_clean (snd kv)) d
                           end
                 end).
    simpl markers_printable. destruct (is_typing_marker t).
    + split.
      * destruct sr; [eauto|discriminate].
      * destruct sr; [|discriminate]. intros j [= <-] _. reflexivity.
    + destruct (try_model_dump md) as [dumped|].
      * split; [eauto|]. intros j [= <-] Hd. exact Hd.
      * destruct (try_dict dm) as [dumped|].
        -- split; [eauto|]. intros j [= <-] Hd. exact Hd.
        -- split; [eauto|]. intros j [= <-] Hd.
           change (json_serializable (PDict (convert_vars convert_to_dict d [])))
             with (forallb (fun kv => json_serializable (snd kv))
                           (convert_vars convert_to_dict d [])).
           apply convert_vars_well; auto.
Qed.

(** Where the serializer does keep its promise.  On every value in which the
    typing markers answer str(), convert_to_dict returns a value and raises
    nothing; the value is one json.dumps accepts when the dumps it took over
    from model_dump() or dict() are. *)
Theorem convert_to_dict_returns (v : pyval) :
  markers_printable v = true ->
  exists j, convert_to_dict v = Ok j
            /\ (dumps_clean v = true -> json_serializable j = true).
Proof.
  intros Hm. destruct (convert_to_dict_well v) as [H1 H2].
  destruct (H1 Hm) as [j Hj]. exists j. split; [exact Hj|]. apply H2. exact Hj.
Qed.

End SerializerProperties.

(** *** Tool handlers *)
Section HandlerProperties.
Context {RT : PyRuntime} {C : Type} {CI : ClientInterface C}.


End HandlerProperties.

(** *** The client *)
Section ClientProperties.
Context {RT : PyRuntime} {V : Vendor}.

Lemma live_token_handle (c : MiroClient) (t : pyval) :
  live_access_token c = Ok (Some t) ->
  exists h, _miro c = Some h /\ access_token h = Value t /\ truthy t = true.
Proof.
  unfold live_access_token. destruct (_miro c) as [h|]; [|discriminate].
  destruct (access_token h) as [|e|t'] eqn:Ea;
    [discriminate|destruct (is_AttributeError e); discriminate|].
  destruct (truthy t') eqn:E; [|discriminate].
  intros [= <-]. exists h. auto.
Qed.

Lemma get_api_live (st : cstate) (t : pyval) :
  live_access_token (self st) = Ok (Some t) ->
  exists h, _miro (self st) = Some h /\ _get_api st = (Ok h, st).
Proof.
  intros H. destruct (live_token_handle _ H) as [h [Hm _]].
  exists h. split; [exact Hm|].
  unfold _get_api, _ensure_authenticated, is_authenticated, bind, get_self, ret, lift.
  simpl. rewrite H. simpl. rewrite Hm, H. reflexivity.
Qed.

Lemma truthy_not_None (v : pyval) : truthy v = true -> is_None v = false.
Proof. destruct v; simpl; congruence. Qed.

Lemma get_api_cached (st : cstate) :
  live_access_token (self st) = Ok None ->
  truthy (_stored_access_token (self st)) = true ->
  _get_api st = (Raise (ValueError reauthentication_required_message), st).
Proof.
  intros Hl Hs.
  unfold _get_api, _ensure_authenticated, is_authenticated, bind, get_self, ret, raise,
    lift.
  simpl. rewrite Hl. simpl. rewrite (truthy_not_None _ Hs). simpl. rewrite Hs, Hl.
  reflexivity.
Qed.

(** **** Token store *)

Lemma load_tokens_absent (st : cstate) :
  token_file st = None -> _load_tokens st = (Ok tt, st).
Proof. unfold _load_tokens. intros ->. reflexivity. Qed.

Lemma load_tokens_unparsable (st : cstate) (err : string) :
  token_file st = Some (Unparsable err) -> _load_tokens st = (Ok tt, reset_store st).
Proof. unfold _load_tokens. intros ->. reflexivity. Qed.

Lemma load_tokens_missing_access_token (st : cstate) (d : list (string * pyval)) :
  token_file st = Some (Document (PDict d)) -> lookup "access_token" d = None ->
  _load_tokens st = (Ok tt, reset_store st).
Proof.
  unfold _load_tokens. intros -> H.
  unfold try_except, bind, lift. simpl. rewrite H. reflexivity.
Qed.

(** C5 (MiroClient._load_tokens).  A token file that holds a JSON document
    other than an object (an array, a string, a number, true, false, null)
    is neither a decoding error nor a KeyError: tokens['access_token'] raises
    TypeError, the except clause does not match, the exception leaves
    _load_tokens and the file stays where it is. *)
Theorem load_tokens_non_object_escapes (st : cstate) (v : pyval) :
  token_file st = Some (Document v) ->
  is_dict v = false ->
  exists message, _load_tokens st = (Raise (TypeError message), st).
Proof.
  unfold _load_tokens. intros -> Hv.
  destruct v; try discriminate Hv; eexists; reflexivity.
Qed.

(** **** Sessions without a live handle *)

(** A client constructed next to a token file that holds an object with an
    access token starts without a handle and with that token cached. *)
Lemma init_caches_the_stored_token (env : environ) (st : cstate)
      (d : list (string * pyval)) (a : pyval) :
  validate_config env = Ok tt ->
  token_file st = Some (Document (PDict d)) ->
  lookup "access_token" d = Some a ->
  exists st', __init__ env st = (Ok tt, st')
              /\ live_access_token (self st') = Ok None
              /\ _stored_access_token (self st') = a
              /\ token_file st' = token_file st.
Proof.
  intros Hv Hf Ha. unfold __init__. rewrite Hv, bind_lift_ok.
  unfold bind at 1, set_self, _load_tokens. simpl. rewrite Hf.
  unfold try_except, bind, lift. simpl. rewrite Ha. simpl.
  eexists. repeat split.
Qed.

(** C4 (MiroClient._get_api, MiroClient.get_board).  In a session with no
    live token and a cached token that is truthy, the five mutating
    operations raise the re-authentication error, which names get_auth_url()
    and exchange_code_for_token(), and leave the session as it is; get_board
    sends the GET with the cached token as bearer and returns the normalized
    body when the endpoint answers. *)
Theorem cached_session_writes_refused_board_served (st : cstate) :
  live_access_token (self st) = Ok None ->
  truthy (_stored_access_token (self st)) = true ->
  (forall b t p g s c,
      create_shape b t p g s c st
      = (Raise (ValueError reauthentication_required_message), st))
  /\ (forall b i p g s c,
         update_shape b i p g s c st
         = (Raise (ValueError reauthentication_required_message), st))
  /\ (forall b i,
         delete_shape b i st
         = (Raise (ValueError reauthentication_required_message), st))
  /\ (forall b ids,
         group_shapes b ids st
         = (Raise (ValueError reauthentication_required_message), st))
  /\ (forall b g,
         ungroup_shapes b g st
         = (Raise (ValueError reauthentication_required_message), st))
  /\ substring_of "get_auth_url()" reauthentication_required_message = true
  /\ substring_of "exchange_code_for_token()" reauthentication_required_message = true
  /\ (forall board_id url bearer response w body normalized,
         fmt "https://api.miro.com/v2/boards/" board_id EmptyString = Ok url ->
         fmt "Bearer " (_stored_access_token (self st)) EmptyString = Ok bearer ->
         requests_get url [("Authorization", bearer);
                           ("Content-Type", "application/json")] (vendor st)
         = (Ok response, w) ->
         raise_for_status response = Ok tt ->
         json response = Ok body ->
         convert_to_dict body = Ok normalized ->
         get_board board_id st = (Ok normalized, with_vendor st w)).
Proof.
  intros Hl Hs. pose proof (get_api_cached st Hl Hs) as Hapi.
  repeat split; intros;
    try (unfold create_shape, update_shape, delete_shape, group_shapes, ungroup_shapes;
         apply bind_raise; exact Hapi).
  unfold get_board, _ensure_authenticated, is_authenticated, bind, get_self, ret,
    lift, http_get. simpl.
  rewrite Hl, (truthy_not_None _ Hs). simpl.
  rewrite H. rewrite Hl, Hs. simpl. rewrite H0, H1. simpl.
  rewrite H2, H3, H4. reflexivity.
Qed.

(** **** Partial updates *)

(** C7 (shape_tools.handle_tool_call and MiroClient.update_shape).  With a
    live session, an update that supplies a width float() accepts and no
    height sends nothing to the vendor: update_shape reads
    geometry['height'], the KeyError is caught by the handler and comes
    back as the error payload. *)
Theorem update_shape_width_only (st : cstate) (t b i w : pyval) (fw : float) :
  live_access_token (self st) = Ok (Some t) ->
  truthy b = true -> truthy i = true ->
  is_None w = false -> py_float w = Ok fw ->
  shape_tools.handle_tool_call (CI := miro_client_interface) (PStr "update_shape")
    (PDict [("board_id", b); ("item_id", i); ("width", w)]) st
  = (Ok (error_payload "'height'"), st).
Proof.
  intros Hl Hb Hi Hw Hfw. destruct (get_api_live st Hl) as [h [_ Hapi]].
  set (d := [("board_id", b); ("item_id", i); ("width", w)]).
  assert (Hg : shape_tools.optional_pair (PDict d) "width" "height"
               = Ok (PDict [("width", PFloat fw)])).
  { unfold shape_tools.optional_pair. rewrite !py_get_arg.
    change (arg d "width") with w. change (arg d "height") with PNone.
    cbn [rbind]. rewrite Hw. cbn [negb orb is_None].
    change (py_getitem (PDict d) "width") with (Ok w). cbn [rbind].
    rewrite Hfw. reflexivity. }
  unfold shape_tools.handle_tool_call.
  change (named (PStr "update_shape") "create_shape") with false.
  change (named (PStr "update_shape") "update_shape") with true. cbv iota.
  rewrite !py_get_arg, !bind_lift_ok.
  change (arg d "board_id") with b. change (arg d "item_id") with i.
  change (arg d "content") with PNone.
  rewrite Hb, Hi. cbv beta iota delta [negb orb].
  change (shape_tools.optional_pair (PDict d) "x" "y") with (Ok PNone).
  rewrite Hg.
  change (shape_tools.style_or_None (PDict d)) with (Ok PNone).
  rewrite !bind_lift_ok.
  unfold or_error.
  apply try_except_raise with (e := KeyError "height") (s' := st).
  apply bind_raise.
  change (cl_update_shape b i PNone (PDict [("width", PFloat fw)]) PNone PNone)
    with (update_shape b i PNone (PDict [("width", PFloat fw)]) PNone PNone).
  unfold update_shape. erewrite bind_ok by exact Hapi. reflexivity.
Qed.

(** **** Saving and loading *)

Lemma truthy_nonempty (a : string) : a <> EmptyString -> truthy (PStr a) = true.
Proof.
  intros Hne. simpl. destruct (String.eqb_spec a EmptyString); [contradiction|reflexivity].
Qed.

(** The pair _save_tokens picks on a client that holds [p]. *)
Lemma tokens_of_pair (c : MiroClient) (p : TokenPair) :
  holds_pair c p ->
  accessToken p <> EmptyString ->
  tokens_to_save c = Ok (PStr (accessToken p), refresh_value p).
Proof.
  intros H Hne. pose proof (truthy_nonempty Hne) as Ht.
  unfold tokens_to_save.
  destruct H as [[h [Hm [Ha Hr]]]|[Hl [Hs Hr]]].
  - unfold live_access_token. rewrite Hm, Ha, Ht. cbn [rbind].
    rewrite Hr. reflexivity.
  - rewrite Hl. cbn [rbind]. rewrite Hs, Ht, Hr. reflexivity.
Qed.

(** What _save_tokens leaves behind on a client that holds [p]. *)
Lemma save_pair (st : cstate) (p : TokenPair) :
  holds_pair (self st) p ->
  accessToken p <> EmptyString ->
  _save_tokens st
  = (Ok tt,
     {| self := {| client_id := client_id (self st);
                   client_secret := client_secret (self st);
                   redirect_url := redirect_url (self st);
                   _miro := _miro (self st);
                   _stored_access_token := PStr (accessToken p);
                   _stored_refresh_token := refresh_value p |};
        token_file := Some (Document (token_document (PStr (accessToken p))
                                                     (refresh_value p)));
        vendor := vendor st |}).
Proof.
  intros H Hne. pose proof (truthy_nonempty Hne) as Ht.
  unfold _save_tokens, bind at 1, get_self.
  rewrite (tokens_of_pair H Hne), bind_lift_ok, Ht.
  unfold refresh_value. destruct (refreshToken p); reflexivity.
Qed.

(** C9 (MiroClient._save_tokens, MiroClient._load_tokens), for the pairs
    _save_tokens writes.  When the client holds a pair whose access token is
    not the empty string (on its live handle, with or without a
    refresh_token attribute, or in its cache), _save_tokens writes it, and a
    client constructed afterwards loads the same access token and the same
    optional refresh token, the file staying as written. *)
Theorem save_then_load_round_trip (st : cstate) (p : TokenPair) (c0 : MiroClient) :
  holds_pair (self st) p ->
  accessToken p <> EmptyString ->
  exists st1 st2,
    _save_tokens st = (Ok tt, st1)
    /\ _load_tokens (restarted c0 st1) = (Ok tt, st2)
    /\ _stored_access_token (self st2) = PStr (accessToken p)
    /\ _stored_refresh_token (self st2) = refresh_value p
    /\ token_file st2 = token_file st1.
Proof.
  intros H Hne. rewrite (save_pair st H Hne). unfold refresh_value.
  destruct (refreshToken p) as [r|];
    (eexists; eexists; split; [reflexivity|]);
    unfold _load_tokens; simpl; repeat split; reflexivity.
Qed.

(** **** The order of numbers *)

Lemma exact_lt_irrefl (a : exact) : exact_lt a a = false.
Proof.
  destruct a as [|[]|q]; try reflexivity. simpl.
  assert (H : Qle_bool q q = true) by (apply Qle_bool_iff; apply Qle_refl).
  rewrite H. reflexivity.
Qed.

Lemma exact_lt_trans (a b c : exact) :
  exact_lt a b = true -> exact_lt b c = true -> exact_lt a c = true.
Proof.
  destruct a as [|[]|p], b as [|[]|q], c as [|[]|r]; simpl;
    try discriminate; try reflexivity.
  intros H1 H2. apply negb_true_iff in H1, H2. apply negb_true_iff.
  destruct (Qle_bool r p) eqn:E; [|reflexivity]. exfalso.
  apply Qle_bool_iff in E.
  assert (Hpq : (p < q)%Q).
  { apply Qnot_le_lt. intros H. apply Qle_bool_iff in H. congruence. }
  assert (Hqr : (q < r)%Q).
  { apply Qnot_le_lt. intros H. apply Qle_bool_iff in H. congruence. }
  exact (Qlt_not_le _ _ (Qlt_trans _ _ _ Hpq Hqr) E).
Qed.

(** On ints the order is the order of the integers. *)
Lemma num_lt_ints (x y : Z) : num_lt (Int x) (Int y) = (x <? y).
Proof.
  unfold num_lt. simpl. unfold Qle_bool. simpl. rewrite !Z.mul_1_r.
  rewrite Z.ltb_antisym. reflexivity.
Qed.

(** What min() and max() return: a member that none is better than, for
    any comparison that is irreflexive and transitive. *)
Section Extremes.
Variable X : Type.
Variable lt : X -> X -> bool.
Hypothesis lt_irrefl : forall a, lt a a = false.
Hypothesis lt_trans : forall a b c, lt a b = true -> lt b c = true -> lt a c = true.

Lemma lt_asym (a b : X) : lt a b = true -> lt b a = false.
Proof.
  intros H. destruct (lt b a) eqn:E; [|reflexivity].
  rewrite <- (lt_irrefl a). symmetry. exact (lt_trans H E).
Qed.

Lemma fold_extreme (l : list X) (a : X) :
  In (fold_left (fun a z => if lt z a then z else a) l a) (a :: l)
  /\ (forall y, In y (a :: l) ->
                lt y (fold_left (fun a z => if lt z a then z else a) l a) = false)
  /\ (fold_left (fun a z => if lt z a then z else a) l a = a
      \/ lt (fold_left (fun a z => if lt z a then z else a) l a) a = true).
Proof.
  revert a. induction l as [|z l IH]; intros a; cbn [fold_left].
  - split; [left; reflexivity|]. split; [|left; reflexivity].
    intros y [<-|[]]. apply lt_irrefl.
  - destruct (IH (if lt z a then z else a)) as [Hin [Hle Hrel]].
    set (m := fold_left (fun a z => if lt z a then z else a) l
                        (if lt z a then z else a)) in *.
    destruct (lt z a) eqn:Eza.
    + split; [destruct Hin as [Hm|Hin]; [right; left; exact Hm|right; right; exact Hin]|].
      split.
      * intros y [<-|[<-|Hy]].
        -- destruct Hrel as [Hm|Hm].
           ++ rewrite Hm. exact (lt_asym Eza).
           ++ destruct (lt a m) eqn:E; [|reflexivity].
              pose proof (lt_trans E Hm) as Hyz.
              rewrite (lt_asym Eza) in Hyz. discriminate.
        -- apply Hle. left; reflexivity.
        -- apply Hle. right; exact Hy.
      * right. destruct Hrel as [Hm|Hm]; [rewrite Hm; exact Eza|].
        exact (lt_trans Hm Eza).
    + split; [destruct Hin as [Hm|Hin]; [left; exact Hm|right; right; exact Hin]|].
      split; [|exact Hrel].
      intros y [<-|[<-|Hy]].
      * apply Hle. left; reflexivity.
      * destruct Hrel as [Hm|Hm]; [rewrite Hm; exact Eza|].
        destruct (lt z m) eqn:E; [|reflexivity].
        rewrite (lt_trans E Hm) in Eza. discriminate.
      * apply Hle. right; exact Hy.
Qed.
End Extremes.

Lemma num_lt_irrefl (a : number) : num_lt a a = false.
Proof. apply exact_lt_irrefl. Qed.

Lemma num_lt_trans (a b c : number) :
  num_lt a b = true -> num_lt b c = true -> num_lt a c = true.
Proof. apply exact_lt_trans. Qed.

Lemma fold_smaller_is_minimum (a : number) (l : list number) :
  is_minimum (fold_left smaller l a) (a :: l).
Proof.
  destruct (fold_extreme num_lt num_lt_irrefl num_lt_trans l a) as [Hin [Hle _]].
  split; [exact Hin|exact Hle].
Qed.

Lemma fold_greater_is_maximum (a : number) (l : list number) :
  is_maximum (fold_left greater l a) (a :: l).
Proof.
  destruct (fold_extreme (fun x y => num_lt y x) num_lt_irrefl
              (fun a b c H1 H2 => num_lt_trans c b a H2 H1) l a) as [Hin [Hle _]].
  split; [exact Hin|exact Hle].
Qed.

(** **** The bounding box of group_shapes *)

Lemma as_number_of_number (n : number) : as_number (of_number n) = Some n.
Proof. destruct n; reflexivity. Qed.

Lemma py_float_of_number (n : number) : py_float (of_number n) = number_float n.
Proof. destruct n; reflexivity. Qed.

Lemma best_of_lt (a : number) (l : list number) :
  best_of py_lt (of_number a) (map (fun z => Ok (of_number z)) l)
  = Ok (of_number (fold_left smaller l a)).
Proof.
  revert a. induction l as [|z l IH]; intros a; cbn [map best_of fold_left];
    [reflexivity|].
  unfold py_lt. rewrite !as_number_of_number.
  replace (if num_lt z a then of_number z else of_number a)
    with (of_number (smaller a z)) by (unfold smaller; destruct (num_lt z a); reflexivity).
  apply IH.
Qed.

Lemma best_of_gt (a : number) (l : list number) :
  best_of py_gt (of_number a) (map (fun z => Ok (of_number z)) l)
  = Ok (of_number (fold_left greater l a)).
Proof.
  revert a. induction l as [|z l IH]; intros a; cbn [map best_of fold_left];
    [reflexivity|].
  unfold py_gt. rewrite !as_number_of_number.
  replace (if num_lt a z then of_number z else of_number a)
    with (of_number (greater a z)) by (unfold greater; destruct (num_lt a z); reflexivity).
  apply IH.
Qed.

(** min(...) over computed numbers *)
Lemma py_min_numbers (proj : box -> number) (b : box) (boxes : list box) :
  py_min (map (fun b => Ok (of_number (proj b))) (b :: boxes))
  = Ok (of_number (fold_left smaller (map proj boxes) (proj b))).
Proof.
  simpl. rewrite <- best_of_lt. f_equal. rewrite map_map. reflexivity.
Qed.

Lemma collect_boxes (items : list pyval) (boxes : list box) :
  Forall2 has_box items boxes ->
  exists positions geometries,
    collect (fun item => py_getitem item "position") items = Ok positions
    /\ collect (fun item => py_getitem item "geometry") items = Ok geometries
    /\ Forall2 (gives "x" box_x) positions boxes
    /\ Forall2 (gives "y" box_y) positions boxes
    /\ Forall2 (gives "width" box_width) geometries boxes
    /\ Forall2 (gives "height" box_height) geometries boxes.
Proof.
  induction 1 as [|item b items boxes Hb _ IH].
  - exists [], []. repeat split; constructor.
  - destruct IH as [ps [gs [Hp [Hg [Hx [Hy [Hw Hh]]]]]]].
    destruct Hb as [d [p [g [-> [Hdp [Hdg [Hpx [Hpy [Hgw Hgh]]]]]]]]].
    exists (PDict p :: ps), (PDict g :: gs). simpl.
    rewrite Hdp, Hdg, Hp, Hg.
    repeat split; constructor; trivial; unfold gives; simpl;
      rewrite ?Hpx, ?Hpy, ?Hgw, ?Hgh; reflexivity.
Qed.

Lemma map_gives (key : string) (proj : box -> number) (ds : list pyval)
      (boxes : list box) :
  Forall2 (gives key proj) ds boxes ->
  map (fun d => py_getitem d key) ds = map (fun b => Ok (of_number (proj b))) boxes.
Proof.
  induction 1 as [|d b ds boxes Hd _ IH]; simpl; [reflexivity|].
  rewrite Hd, IH. reflexivity.
Qed.

(** The generator of max(): the edges, when every sum is computed. *)
Lemma map_gives_sum (k1 k2 : string) (p1 p2 : box -> number)
      (ps gs : list pyval) (boxes : list box) (edges : list number) :
  Forall2 (gives k1 p1) ps boxes -> Forall2 (gives k2 p2) gs boxes ->
  collect (fun b => num_add (p1 b) (p2 b)) boxes = Ok edges ->
  map (fun pg => a <~ py_getitem (fst pg) k1 ;;
                 b <~ py_getitem (snd pg) k2 ;;
                 py_add a b) (combine ps gs)
  = map (fun r => Ok (of_number r)) edges.
Proof.
  intros H1. revert gs edges. induction H1 as [|p b ps boxes Hp _ IH]; intros gs edges H2.
  - inversion H2. intros [= <-]. reflexivity.
  - inversion H2 as [|g b' gs' boxes' Hg Hrest]; subst. cbn [collect].
    destruct (num_add (p1 b) (p2 b)) as [r|] eqn:Er; [|discriminate].
    destruct (collect (fun b => num_add (p1 b) (p2 b)) boxes) as [rs|] eqn:Ers;
      [|discriminate].
    intros [= <-]. cbn [combine map fst snd].
    rewrite Hp, Hg. cbn [rbind]. unfold py_add at 1.
    rewrite !as_number_of_number, Er. f_equal. exact (IH gs' rs Hrest eq_refl).
Qed.

Lemma frame_data_of_boxes (items : list pyval) (b : box) (boxes : list box)
      (r bt : number) (rights bottoms : list number) (fl ft fr fb : float) :
  Forall2 has_box items (b :: boxes) ->
  collect right_edge (b :: boxes) = Ok (r :: rights) ->
  collect bottom_edge (b :: boxes) = Ok (bt :: bottoms) ->
  number_float (fold_left smaller (map box_x boxes) (box_x b)) = Ok fl ->
  number_float (fold_left smaller (map box_y boxes) (box_y b)) = Ok ft ->
  number_float (fold_left greater rights r) = Ok fr ->
  number_float (fold_left greater bottoms bt) = Ok fb ->
  frame_data_of items = Ok (frame_data fl ft fr fb).
Proof.
  intros H Hr Hb Hfl Hft Hfr Hfb.
  destruct (collect_boxes H) as [ps [gs [Hp [Hg [Hx [Hy [Hw Hh]]]]]]].
  unfold frame_data_of. rewrite Hp. unfold rbind at 1.
  rewrite Hg. unfold rbind at 1.
  rewrite (map_gives Hx), (map_gives Hy).
  rewrite (map_gives_sum Hx Hw Hr), (map_gives_sum Hy Hh Hb).
  rewrite (py_min_numbers box_x), (py_min_numbers box_y).
  cbn [map py_max]. rewrite !best_of_gt. cbn [rbind].
  rewrite !py_float_of_number, Hfl, Hft, Hfr, Hfb. reflexivity.
Qed.

(** C6 (MiroClient.group_shapes).  With a live session, when the item ids
    resolve to records carrying the boxes [b :: boxes], whose coordinates
    are ints or floats, and every number involved is one float() converts,
    group_shapes creates the frame whose position is the least x and the
    least y of the items and whose size reaches from there to the greatest
    x + width and the greatest y + height, each taken as a double, and goes
    on to reparent the items under it; the two items (0, 0, 10, 10) and
    (20, 5, 10, 10) give the frame (0, 0, 30, 15), as doubles. *)
Theorem group_shapes_bounding_box
        (st st1 : cstate) (t board_id item_ids : pyval) (h : handle)
        (ids items : list pyval) (b : box) (boxes : list box)
        (rights bottoms : list number) :
  live_access_token (self st) = Ok (Some t) ->
  _miro (self st) = Some h ->
  py_iter item_ids = Ok ids ->
  resolve_items h board_id ids st = (Ok items, st1) ->
  Forall2 has_box items (b :: boxes) ->
  collect right_edge (b :: boxes) = Ok rights ->
  collect bottom_edge (b :: boxes) = Ok bottoms ->
  forallb convertible (map box_x (b :: boxes) ++ map box_y (b :: boxes)
                       ++ rights ++ bottoms) = true ->
  (exists left top right bottom fl ft fr fb,
      is_minimum left (map box_x (b :: boxes))
      /\ is_minimum top (map box_y (b :: boxes))
      /\ is_maximum right rights
      /\ is_maximum bottom bottoms
      /\ number_float left = Ok fl
      /\ number_float top = Ok ft
      /\ number_float right = Ok fr
      /\ number_float bottom = Ok fb
      /\ frame_data_of items = Ok (frame_data fl ft fr fb)
      /\ group_shapes board_id item_ids st
         = create_frame_and_reparent h board_id (frame_data fl ft fr fb) ids st1)
  /\ frame_data_of
       [PDict [("position", PDict [("x", PNum 0); ("y", PNum 0)]);
               ("geometry", PDict [("width", PNum 10); ("height", PNum 10)])];
        PDict [("position", PDict [("x", PNum 20); ("y", PNum 5)]);
               ("geometry", PDict [("width", PNum 10); ("height", PNum 10)])]]
     = Ok (PDict [("data", PDict [("title", PStr "Group")]);
                  ("position", PDict [("x", PFloat 0%float); ("y", PFloat 0%float)]);
                  ("geometry", PDict [("width", PFloat 30%float);
                                      ("height", PFloat 15%float)])]).
Proof.
  intros Hl Hm Hids Hres Hbox Hr Hb Hfits. split; [|reflexivity].
  assert (Hconv : forall n,
             In n (map box_x (b :: boxes) ++ map box_y (b :: boxes)
                   ++ rights ++ bottoms) ->
             exists f, number_float n = Ok f).
  { intros n Hn. pose proof (proj1 (forallb_forall _ _) Hfits n Hn) as Hc.
    unfold convertible in Hc. destruct (number_float n) as [f|]; [eauto|discriminate]. }
  destruct rights as [|r rights];
    [cbn [collect] in Hr; destruct (right_edge b); [|discriminate];
     destruct (collect right_edge boxes); discriminate|].
  destruct bottoms as [|bt bottoms];
    [cbn [collect] in Hb; destruct (bottom_edge b); [|discriminate];
     destruct (collect bottom_edge boxes); discriminate|].
  pose proof (fold_smaller_is_minimum (box_x b) (map box_x boxes)) as Hleft.
  pose proof (fold_smaller_is_minimum (box_y b) (map box_y boxes)) as Htop.
  pose proof (fold_greater_is_maximum r rights) as Hright.
  pose proof (fold_greater_is_maximum bt bottoms) as Hbottom.
  destruct (Hconv _ (in_or_app _ _ _ (or_introl (proj1 Hleft)))) as [fl Hfl].
  destruct (Hconv _ (in_or_app _ _ _ (or_intror
                       (in_or_app _ _ _ (or_introl (proj1 Htop)))))) as [ft Hft].
  destruct (Hconv _ (in_or_app _ _ _ (or_intror
                       (in_or_app _ _ _ (or_intror
                          (in_or_app _ _ _ (or_introl (proj1 Hright)))))))) as [fr Hfr].
  destruct (Hconv _ (in_or_app _ _ _ (or_intror
                       (in_or_app _ _ _ (or_intror
                          (in_or_app _ _ _ (or_intror (proj1 Hbottom)))))))) as [fb Hfb].
  pose proof (frame_data_of_boxes Hbox Hr Hb Hfl Hft Hfr Hfb) as Hframe.
  exists (fold_left smaller (map box_x boxes) (box_x b)),
         (fold_left smaller (map box_y boxes) (box_y b)),
         (fold_left greater rights r),
         (fold_left greater bottoms bt), fl, ft, fr, fb.
  repeat (split; [assumption|]).
  destruct (get_api_live st Hl) as [h' [Hm' Hapi]].
  rewrite Hm in Hm'. injection Hm' as <-.
  unfold group_shapes. erewrite bind_ok by exact Hapi.
  rewrite Hids, bind_lift_ok. erewrite bind_ok by exact Hres.
  inversion Hbox; subst.
  rewrite Hframe, bind_lift_ok. reflexivity.
Qed.


End ClientProperties.

(** *** The server *)
Section ServerProperties.
Context {RT : PyRuntime} {V : Vendor}.
Variable env : environ.

Lemma print_json_error (code : Z) (message : string) (p : process) :
  print_json (rpc_error PNone code message) p
  = (Ok tt, printed p (rpc_error PNone code message)).
Proof. reflexivity. Qed.

Lemma handle_line_returns (line : stdin_line) (p : process) :
  exists p', handle_line env line p = (Ok tt, p').
Proof.
  destruct line as [|t]; simpl; [eexists; reflexivity|].
  unfold try_except.
  match goal with |- context [match ?m p with _ => _ end] =>
    destruct (m p) as [[[]|e] p1] end.
  - eauto.
  - destruct (is_JSONDecodeError e).
    + rewrite print_json_error. eauto.
    + unfold bind, print_stderr. rewrite print_json_error. eauto.
Qed.

Lemma serve_returns (lines : list stdin_line) (p : process) :
  fst (serve env lines p) = Ok tt.
Proof.
  revert p. induction lines as [|line lines IH]; intros p; simpl; [reflexivity|].
  unfold bind. destruct (handle_line_returns line p) as [p' ->]. apply IH.
Qed.

(** **** Standard output is written by the loop only *)

Lemma keeps_ret {A} (a : A) : keeps_stdout (ret a).
Proof. intros p. reflexivity. Qed.

Lemma keeps_raise {A} (e : exn) : keeps_stdout (@raise process A e).
Proof. intros p. reflexivity. Qed.

Lemma keeps_lift {A} (r : res A) : keeps_stdout (lift r).
Proof. intros p. reflexivity. Qed.

Lemma keeps_bind {A B} (m : M process A) (f : A -> M process B) :
  keeps_stdout m -> (forall a, keeps_stdout (f a)) -> keeps_stdout (bind m f).
Proof.
  intros Hm Hf p. unfold bind. specialize (Hm p).
  destruct (m p) as [[a|e] p1]; simpl in *; [|exact Hm].
  rewrite (Hf a p1). exact Hm.
Qed.

Lemma keeps_try_except {A} (m : M process A) (h : exn -> M process A) :
  keeps_stdout m -> (forall e, keeps_stdout (h e)) -> keeps_stdout (try_except m h).
Proof.
  intros Hm Hh p. unfold try_except. specialize (Hm p).
  destruct (m p) as [[a|e] p1]; simpl in *; [exact Hm|].
  rewrite (Hh e p1). exact Hm.
Qed.

Lemma keeps_print_stderr (message : string) : keeps_stdout (print_stderr message).
Proof. intros p. reflexivity. Qed.

Lemma keeps_on_client {A} (c : MiroClient) (m : M cstate A) :
  keeps_stdout (on_client c m).
Proof.
  intros p. unfold on_client.
  destruct (m {| self := c; token_file := disk p; vendor := remote p |}).
  reflexivity.
Qed.

Lemma keeps_get_miro_client : keeps_stdout (get_miro_client env).
Proof.
  intros p. unfold get_miro_client. destruct (miro_client p); [reflexivity|].
  revert p. apply keeps_try_except.
  - apply keeps_bind.
    + intros p. unfold construct_client.
      destruct (__init__ env _) as [[|] cs]; reflexivity.
    + intros c. apply keeps_bind; [intros p; reflexivity|]. intros _. apply keeps_ret.
  - intros e. apply keeps_bind; [apply keeps_print_stderr|]. intros _. apply keeps_raise.
Qed.

Ltac keeps_step :=
  first [ apply keeps_ret | apply keeps_raise | apply keeps_lift
        | apply keeps_print_stderr | apply keeps_on_client
        | apply keeps_get_miro_client
        | apply keeps_bind; [|intros ?]
        | apply keeps_try_except; [|intros ?]
        | match goal with
          | |- keeps_stdout (if ?b then _ else _) => destruct b
          end ].

Lemma keeps_handle_tools_call (tool_name arguments : pyval) :
  keeps_stdout (handle_tools_call env tool_name arguments).
Proof. unfold handle_tools_call. repeat keeps_step. Qed.

Lemma keeps_process_request (request : pyval) :
  keeps_stdout (process_request env request).
Proof.
  unfold process_request.
  repeat first [ apply keeps_handle_tools_call | keeps_step ].
Qed.

(** A request that gets an answer from process_request carries an id. *)
Lemma process_request_answers_ids (request response : pyval) (p p' : process) :
  process_request env request p = (Ok (Some response), p') ->
  is_None (request_id_of request) = false.
Proof.
  unfold process_request, request_id_of.
  destruct (py_get request "method" PNone) as [method|]; [|discriminate].
  destruct (py_get request "params" (PDict [])) as [params|]; [|discriminate].
  destruct (py_get request "id" PNone) as [id|]; [|discriminate].
  rewrite !bind_lift_ok.
  destruct (is_None id); [|reflexivity]. simpl.
  repeat match goal with
         | |- context [if ?b then _ else _] => destruct b
         end; try discriminate.
  unfold bind.
  destruct (lift (py_get params "name" PNone) p) as [[?|?] ?]; [|discriminate].
  match goal with |- context [match ?m with _ => _ end] => destruct m as [[?|?] ?] end;
    [|discriminate].
  match goal with |- context [match ?m with _ => _ end] => destruct m as [[?|?] ?] end;
    discriminate.
Qed.

(** **** Configuration *)

Lemma validate_config_missing :
  configuration_missing env = true ->
  exists message,
    validate_config env = Raise (ValueError message)
    /\ (message = "MIRO_CLIENT_ID environment variable is required"
        \/ message = "MIRO_CLIENT_SECRET environment variable is required").
Proof.
  unfold configuration_missing, validate_config.
  destruct (truthy (MIRO_CLIENT_ID env)); simpl.
  - destruct (truthy (MIRO_CLIENT_SECRET env)); simpl; [discriminate|]. eauto.
  - eauto.
Qed.

Lemma tools_call_without_configuration (e : exn) (name : string)
      (arguments : pyval) (p : process) :
  validate_config env = Raise e ->
  lookup name TOOLS <> None ->
  miro_client p = None ->
  exists p',
    handle_tools_call env (PStr name) arguments p
    = (Ok (error_content ("Error executing tool " ++ name ++ ": " ++ exn_str e)), p')
    /\ miro_client p' = None /\ stdout p' = stdout p /\ disk p' = disk p.
Proof.
  intros Hv Hn Hc. unfold handle_tools_call, in_TOOLS. simpl hashable. cbv iota.
  destruct (lookup name TOOLS); [|contradiction]. rewrite bind_lift_ok.
  change (negb true) with false. cbv iota.
  assert (Hg : get_miro_client env p
               = (Raise e,
                  {| miro_client := None; disk := disk p; remote := remote p;
                     stdout := stdout p;
                     stderr := stderr p ++ ["Error initializing Miro client: "
                                            ++ exn_str e] |})).
  { unfold get_miro_client. rewrite Hc.
    unfold try_except, bind at 1, construct_client, __init__.
    unfold bind at 1. unfold lift at 1. rewrite Hv. simpl. rewrite Hc. reflexivity. }
  erewrite try_except_raise by (apply bind_raise; exact Hg).
  eexists. split; [reflexivity|]. repeat split.
Qed.

(** C2 (config.validate_config, server.main), as the code has it.  Nothing
    is validated when the process starts, and the loop never ends by an
    exception, whatever the environment, the token file and the lines.  When
    the client identifier or the client secret is missing, validate_config
    raises an error that names the variable; it does so when a call of a
    registered tool constructs the client, and the call is answered with
    that message as an isError result, the client staying unconstructed. *)
Theorem configuration_failure_reported_not_fatal :
  (forall file w lines, fst (main env file w lines) = Ok tt)
  /\ (configuration_missing env = true ->
      exists message,
        validate_config env = Raise (ValueError message)
        /\ (message = "MIRO_CLIENT_ID environment variable is required"
            \/ message = "MIRO_CLIENT_SECRET environment variable is required")
        /\ forall name arguments p,
            lookup name TOOLS <> None -> miro_client p = None ->
            exists p',
              handle_tools_call env (PStr name) arguments p
              = (Ok (error_content ("Error executing tool " ++ name ++ ": " ++ message)),
                 p')
              /\ miro_client p' = None /\ stdout p' = stdout p).
Proof.
  split.
  - intros file w lines. apply serve_returns.
  - intros Hm. destruct (validate_config_missing Hm) as [message [Hv Hmsg]].
    exists message. split; [exact Hv|]. split; [exact Hmsg|].
    intros name arguments p Hn Hc.
    destruct (@tools_call_without_configuration _ name arguments p Hv Hn Hc)
      as [p' [H1 [H2 [H3 _]]]].
    exists p'. auto.
Qed.

(** C8 (server.main), as the code has it.  A line on which json.loads raises
    JSONDecodeError is answered with the error -32700 under a null id, and
    nothing else happens.  A line on which json.loads raises another
    exception (RecursionError on deep nesting, the ValueError of the integer
    digit limit) is not answered with -32700: the second except clause
    reports it on standard error and answers -32603, under a null id too.
    A line that parses to a request without an id is answered only when an
    exception leaves process_request, and then with the error response of
    the except clause, again under a null id. *)
Theorem parse_failure_and_null_id_responses :
  (forall err p,
      handle_line env (Text (Unparsable err)) p
      = (Ok tt, printed p (rpc_error PNone (-32700) ("Parse error: " ++ err))))
  /\ (forall e p,
         is_JSONDecodeError e = false ->
         handle_line env (Text (Rejected e)) p
         = (Ok tt,
            printed (logged p ("Error processing request: " ++ exn_str e))
                    (rpc_error PNone (-32603) ("Internal error: " ++ exn_str e))))
  /\ (forall request p r p',
         handle_line env (Text (Document request)) p = (r, p') ->
         request_id_of request = PNone ->
         stdout p' = stdout p
         \/ exists e p1,
             process_request env request p = (Raise e, p1)
             /\ stdout p' = (stdout p ++ [escaped_response e])%list).
Proof.
  split; [|split].
  - intros err p. reflexivity.
  - intros e p He. unfold handle_line, try_except, bind, lift. simpl json_loads.
    cbv iota. rewrite He. reflexivity.
  - intros request p r p' H Hid. unfold handle_line in H. simpl json_loads in H.
    rewrite bind_lift_ok in H. unfold try_except, bind in H.
    pose proof (keeps_process_request request p) as Hk.
    destruct (process_request env request p) as [[[response|]|e] p1] eqn:E;
      simpl in Hk.
    + apply process_request_answers_ids in E. rewrite Hid in E. discriminate.
    + injection H as _ <-. left. exact Hk.
    + right. exists e, p1. split; [reflexivity|].
      unfold escaped_response. destruct (is_JSONDecodeError e).
      * rewrite print_json_error in H. injection H as _ <-. simpl. congruence.
      * unfold print_stderr in H. rewrite print_json_error in H.
        injection H as _ <-. simpl. congruence.
Qed.

End ServerProperties.

(* ================================================================== *)
(** ** Further properties of the code                                 *)
(* ================================================================== *)

(** *** Strings and dictionaries *)

Lemma append_empty_r (s : string) : s ++ EmptyString = s.
Proof. induction s as [|c s IH]; simpl; [reflexivity|]. rewrite IH. reflexivity. Qed.

Lemma lookup_store_same (k : string) (v : pyval) (d : list (string * pyval)) :
  lookup k (store k v d) = Some v.
Proof.
  induction d as [|[k' v'] d IH]; simpl.
  - rewrite String.eqb_refl. reflexivity.
  - destruct (k =? k')%string eqn:E; simpl.
    + rewrite String.eqb_refl. reflexivity.
    + rewrite E. exact IH.
Qed.

Lemma lookup_store_other (k k' : string) (v : pyval) (d : list (string * pyval)) :
  k <> k' -> lookup k' (store k v d) = lookup k' d.
Proof.
  intros Hne. induction d as [|[k0 v0] d IH]; simpl.
  - destruct (String.eqb_spec k' k); [congruence|reflexivity].
  - destruct (String.eqb_spec k k0) as [->|Hk]; simpl.
    + destruct (String.eqb_spec k' k0); [congruence|reflexivity].
    + destruct (k' =? k0)%string; [reflexivity|exact IH].
Qed.

Lemma lookup_None_not_In (k : string) (d : list (string * pyval)) :
  lookup k d = None -> ~ In k (map fst d).
Proof.
  induction d as [|[k' v'] d IH]; simpl; [tauto|].
  destruct (String.eqb_spec k k'); [discriminate|].
  intros H [Hk|Hin]; [congruence|]. exact (IH H Hin).
Qed.

Lemma keys_store_present (k : string) (v : pyval) (d : list (string * pyval)) :
  lookup k d <> None -> map fst (store k v d) = map fst d.
Proof.
  induction d as [|[k' v'] d IH]; simpl; [congruence|].
  destruct (String.eqb_spec k k') as [->|Hk]; simpl; [reflexivity|].
  intros H. rewrite (IH H). reflexivity.
Qed.

Lemma keys_store_absent (k : string) (v : pyval) (d : list (string * pyval)) :
  lookup k d = None -> map fst (store k v d) = (map fst d ++ [k])%list.
Proof.
  induction d as [|[k' v'] d IH]; simpl; [reflexivity|].
  destruct (String.eqb_spec k k') as [->|Hk]; simpl; [discriminate|].
  intros H. rewrite (IH H). reflexivity.
Qed.

(** *** Tool registry *)

Lemma required_of_dicts (parameters : list (string * pyval)) :
  Forall (fun kv => is_dict (snd kv) = true) parameters ->
  exists required, required_of parameters = Ok required.
Proof.
  induction 1 as [|[k v] parameters Hv _ [others IH]]; simpl; [eauto|].
  cbn [snd] in Hv. destruct v; try discriminate Hv.
  unfold marked_required. cbn [py_get rbind]. rewrite IH. cbn [rbind]. eauto.
Qed.

Lemma required_of_not_a_dict (parameters : list (string * pyval)) (k : string)
      (v : pyval) :
  In (k, v) parameters -> is_dict v = false ->
  exists e, required_of parameters = Raise e.
Proof.
  induction parameters as [|[k' v'] parameters IH]; simpl; [intros []|].
  intros Hin Hv. cbn [snd fst].
  destruct (marked_required v') as [marked|e] eqn:Em; cbn [rbind]; [|eauto].
  destruct Hin as [[= -> ->]|Hin].
  - unfold marked_required in Em. destruct v; try discriminate Hv; discriminate Em.
  - destruct (IH Hin Hv) as [e ->]. cbn [rbind]. eauto.
Qed.

Lemma register_tool_stores (name description : string)
      (parameters : list (string * pyval)) (required : list string) (tools : registry) :
  required_of parameters = Ok required ->
  register_tool name description parameters tools
  = (Ok tt, store name (descriptor name description parameters required) tools).
Proof. intros H. unfold register_tool. rewrite H, bind_lift_ok. reflexivity. Qed.

(** X1 (tool_registry.register_tool).  When every parameter specification
    is a dict, registering a tool makes its new descriptor the one found
    under its name, whatever was registered there before, and changes what
    is found under no other name.  A specification that is no dict makes
    register_tool raise before TOOLS is touched. *)
Theorem register_tool_last_writer_wins
        (name description : string) (parameters : list (string * pyval))
        (tools : registry) :
  (Forall (fun kv => is_dict (snd kv) = true) parameters ->
   exists required tools',
     required_of parameters = Ok required
     /\ register_tool name description parameters tools = (Ok tt, tools')
     /\ lookup name tools' = Some (descriptor name description parameters required)
     /\ forall other, other <> name -> lookup other tools' = lookup other tools)
  /\ (forall k v,
         In (k, v) parameters -> is_dict v = false ->
         exists e, register_tool name description parameters tools = (Raise e, tools)).
Proof.
  split.
  - intros Hd. destruct (required_of_dicts Hd) as [required Hr].
    exists required. eexists. split; [exact Hr|].
    split; [exact (register_tool_stores name description parameters tools Hr)|].
    split; [apply lookup_store_same|].
    intros other Hne. apply lookup_store_other. congruence.
  - intros k v Hin Hv. destruct (@required_of_not_a_dict parameters k v Hin Hv) as [e He].
    exists e. unfold register_tool. rewrite He. reflexivity.
Qed.

(** X2 (tool_registry.register_tool).  When every parameter specification
    is a dict, the listing order is the order of first registration: a name
    registered again keeps its place, a new name goes to the end, and no
    name is ever listed twice. *)
Theorem register_tool_listing_order
        (name description : string) (parameters : list (string * pyval))
        (tools : registry) :
  Forall (fun kv => is_dict (snd kv) = true) parameters ->
  NoDup (map fst tools) ->
  exists tools',
    register_tool name description parameters tools = (Ok tt, tools')
    /\ NoDup (map fst tools')
    /\ (lookup name tools <> None -> map fst tools' = map fst tools)
    /\ (lookup name tools = None -> map fst tools' = (map fst tools ++ [name])%list).
Proof.
  intros Hd Hnd. destruct (required_of_dicts Hd) as [required Hr].
  eexists. split; [exact (register_tool_stores name description parameters tools Hr)|].
  assert (H1 : lookup name tools <> None ->
               map fst (store name (descriptor name description parameters required)
                              tools)
               = map fst tools) by apply keys_store_present.
  assert (H2 : lookup name tools = None ->
               map fst (store name (descriptor name description parameters required)
                              tools)
               = (map fst tools ++ [name])%list) by apply keys_store_absent.
  split; [|split; assumption].
  destruct (lookup name tools) eqn:E.
  - rewrite H1 by congruence. exact Hnd.
  - rewrite (H2 eq_refl). apply NoDup_app; [exact Hnd|repeat constructor; tauto|].
    intros x Hx [<-|[]]. exact (lookup_None_not_In _ _ E Hx).
Qed.

(** *** Configuration *)

(** X3 (config.validate_config).  The configuration is accepted exactly when
    the client identifier and the client secret are both set and not empty;
    an empty value counts as a missing one. *)
Theorem validate_config_accepts (env : environ) :
  validate_config env = Ok tt
  <-> (exists id secret,
          env_MIRO_CLIENT_ID env = Some id /\ id <> EmptyString
          /\ env_MIRO_CLIENT_SECRET env = Some secret /\ secret <> EmptyString).
Proof.
  unfold validate_config, MIRO_CLIENT_ID, MIRO_CLIENT_SECRET, getenv.
  destruct (env_MIRO_CLIENT_ID env) as [id|], (env_MIRO_CLIENT_SECRET env) as [secret|];
    simpl; split;
    try (intros H; discriminate H);
    try (intros [i [s [H1 [_ [H2 _]]]]]; discriminate).
  - destruct (String.eqb_spec id EmptyString); simpl; [discriminate|].
    destruct (String.eqb_spec secret EmptyString); simpl; [discriminate|].
    intros _. exists id, secret. auto.
  - intros [i [s [[= <-] [Hi [[= <-] Hs]]]]].
    destruct (String.eqb_spec id EmptyString); [contradiction|].
    destruct (String.eqb_spec secret EmptyString); [contradiction|]. reflexivity.
  - destruct (String.eqb_spec id EmptyString); simpl; discriminate.
Qed.

(** *** Serializer *)
Section MoreSerializerProperties.
Context {RT : PyRuntime}.

Lemma collect_plain_items (l : list pyval) :
  Forall (fun v => plain v = true -> convert_to_dict v = Ok v) l ->
  forallb plain l = true -> collect convert_to_dict l = Ok l.
Proof.
  induction 1 as [|x l Hx _ IH]; simpl; [reflexivity|].
  intros H. apply andb_prop in H. destruct H as [Ha Hb].
  rewrite (Hx Ha), (IH Hb). reflexivity.
Qed.

Lemma collect_plain_entries (d : list (string * pyval)) :
  Forall (fun kv => plain (snd kv) = true -> convert_to_dict (snd kv) = Ok (snd kv)) d ->
  forallb (fun kv => plain (snd kv)) d = true ->
  collect (convert_entry convert_to_dict) d = Ok d.
Proof.
  induction 1 as [|[k v] d Hx _ IH]; simpl; [reflexivity|].
  intros H. apply andb_prop in H. destruct H as [Ha Hb].
  unfold convert_entry at 1. cbn [fst snd] in *.
  rewrite (Hx Ha), (IH Hb). reflexivity.
Qed.

Lemma convert_plain_value (v : pyval) :
  plain v = true -> convert_to_dict v = Ok v.
Proof.
  induction v using pyval_nested_ind; try reflexivity; try discriminate.
  - change (plain (PList l)) with (forallb plain l).
    change (convert_to_dict (PList l))
      with (match collect convert_to_dict l with
            | Ok l' => Ok (PList l') | Raise e => Raise e end).
    intros Hp. rewrite (collect_plain_items H Hp). reflexivity.
  - change (plain (PDict d)) with (forallb (fun kv => plain (snd kv)) d).
    change (convert_to_dict (PDict d))
      with (match collect (convert_entry convert_to_dict) d with
            | Ok d' => Ok (PDict d') | Raise e => Raise e end).
    intros Hp. rewrite (collect_plain_entries H Hp). reflexivity.
Qed.

(** X4 (convert_to_dict).  A value made of None, booleans, numbers,
    strings, lists and string-keyed dicts, such as a parsed JSON response,
    comes back from convert_to_dict unchanged. *)
Theorem convert_to_dict_plain (v : pyval) :
  plain v = true -> convert_to_dict v = Ok v.
Proof. exact (convert_plain_value v). Qed.

Lemma collect_length {A B} (f : A -> res B) (l : list A) (l' : list B) :
  collect f l = Ok l' -> List.length l' = List.length l.
Proof.
  revert l'. induction l as [|x l IH]; simpl; intros l'.
  - intros [= <-]. reflexivity.
  - destruct (f x); [|discriminate]. destruct (collect f l); [|discriminate].
    intros [= <-]. simpl. f_equal. apply IH. reflexivity.
Qed.

Lemma collect_entries_keys (f : pyval -> res pyval) (d d' : list (string * pyval)) :
  collect (convert_entry f) d = Ok d' -> map fst d' = map fst d.
Proof.
  revert d'. induction d as [|[k v] d IH]; simpl; intros d'.
  - intros [= <-]. reflexivity.
  - unfold convert_entry at 1. cbn [fst snd].
    destruct (f v); [|discriminate].
    destruct (collect (convert_entry f) d); [|discriminate].
    intros [= <-]. simpl. f_equal. apply IH. reflexivity.
Qed.

(** X5 (convert_to_dict).  What a mapping converts to is a mapping with the
    same keys in the same order; what a list, a tuple or a set converts to
    is a list of the same length. *)
Theorem convert_to_dict_keeps_shape (v j : pyval) :
  convert_to_dict v = Ok j ->
  (forall d, v = PDict d -> exists d', j = PDict d' /\ map fst d' = map fst d)
  /\ (forall l, v = PList l \/ v = PTuple l \/ v = PSet l ->
                exists l', j = PList l' /\ List.length l' = List.length l).
Proof.
  intros H. split.
  - intros d ->.
    change (convert_to_dict (PDict d))
      with (match collect (convert_entry convert_to_dict) d with
            | Ok d' => Ok (PDict d') | Raise e => Raise e end) in H.
    destruct (collect (convert_entry convert_to_dict) d) as [d'|] eqn:E;
      [|discriminate].
    injection H as <-. exists d'. split; [reflexivity|].
    exact (collect_entries_keys _ _ E).
  - intros l Hv.
    assert (Hc : match collect convert_to_dict l with
                 | Ok l' => Ok (PList l') | Raise e => Raise e end = Ok j).
    { destruct Hv as [->|[->| ->]]; exact H. }
    destruct (collect convert_to_dict l) as [l'|] eqn:E; [|discriminate].
    injection Hc as <-. exists l'. split; [reflexivity|].
    exact (collect_length _ _ E).
Qed.

Lemma store_keys_In (k k' : string) (v : pyval) (d : list (string * pyval)) :
  In k (map fst (store k' v d)) -> k = k' \/ In k (map fst d).
Proof.
  induction d as [|[k0 v0] d IH]; simpl.
  - intros [<-|[]]. left; reflexivity.
  - destruct (k' =? k0)%string eqn:E; simpl.
    + intros [<-|Hin]; [left; reflexivity|right; right; exact Hin].
    + intros [<-|Hin]; [right; left; reflexivity|].
      destruct (IH Hin) as [->|Hd]; [left; reflexivity|right; right; exact Hd].
Qed.

Lemma convert_vars_keys (f : pyval -> res pyval) (d result : list (string * pyval))
      (k : string) :
  In k (map fst (convert_vars f d result)) ->
  In k (map fst result) \/ (In k (map fst d) /\ public_attribute k = true).
Proof.
  revert result. induction d as [|[k0 v0] d IH]; simpl; intros result H; [left; exact H|].
  assert (Hstep : forall y,
             In k (map fst (convert_vars f d (store k0 y result))) ->
             public_attribute k0 = true ->
             In k (map fst result)
             \/ ((k0 = k \/ In k (map fst d)) /\ public_attribute k = true)).
  { intros y Hy Hp. destruct (IH _ Hy) as [Hr|[Hd Hpub]].
    - destruct (store_keys_In _ _ _ _ Hr) as [->|Hr']; [|left; exact Hr'].
      right. split; [left; reflexivity|exact Hp].
    - right. split; [right; exact Hd|exact Hpub]. }
  destruct (public_attribute k0) eqn:Ep.
  - destruct (f v0).
    + apply (Hstep _ H eq_refl).
    + destruct (py_str v0); [apply (Hstep _ H eq_refl)|].
      destruct (IH _ H) as [Hr|[Hd Hpub]]; [left; exact Hr|].
      right. split; [right; exact Hd|exact Hpub].
  - destruct (IH _ H) as [Hr|[Hd Hpub]]; [left; exact Hr|].
    right. split; [right; exact Hd|exact Hpub].
Qed.

(** X6 (convert_to_dict).  An instance that is no typing marker and offers
    no working model_dump or dict method always converts, whatever its
    attributes hold, to a mapping whose keys are attributes of the instance
    that do not start with an underscore (or are __class__). *)
Theorem convert_to_dict_attributes
        (type_str : string) (md : option (res pyval * res pyval))
        (dm : option (res pyval)) (d : list (string * pyval)) (sr : res string) :
  is_typing_marker type_str = false ->
  try_model_dump md = None ->
  try_dict dm = None ->
  exists d',
    convert_to_dict (PObj type_str md dm (Some d) sr) = Ok (PDict d')
    /\ forall k, In k (map fst d') ->
                 In k (map fst d) /\ public_attribute k = true.
Proof.
  intros Hm Hmd Hdm.
  exists (convert_vars convert_to_dict d []). split.
  - change (convert_to_dict (PObj type_str md dm (Some d) sr))
      with (if is_typing_marker type_str then
              match sr with Ok s => Ok (PStr s) | Raise e => Raise e end
            else match try_model_dump md with
                 | Some dumped => Ok dumped
                 | None => match try_dict dm with
                           | Some dumped => Ok dumped
                           | None => Ok (PDict (convert_vars convert_to_dict d []))
                           end
                 end).
    rewrite Hm, Hmd, Hdm. reflexivity.
  - intros k Hk. destruct (convert_vars_keys _ _ _ _ Hk) as [[]|H]. exact H.
Qed.

End MoreSerializerProperties.

(** *** Token store and OAuth *)
Section MoreClientProperties.
Context {RT : PyRuntime} {V : Vendor}.

(** X7 (MiroClient._load_tokens).  A token file on which json.load raises
    JSONDecodeError, or that holds an object without the access_token key,
    is removed; both cached tokens are None afterwards, and the handle and
    the vendor are left alone.  Any other exception of json.load
    (RecursionError, the ValueError of the digit limit, UnicodeDecodeError)
    is not caught: it leaves _load_tokens, and file and cache stay. *)
Theorem corrupt_store_is_reset (st : cstate) (t : json_text) :
  token_file st = Some t ->
  (corrupt_store t = true -> _load_tokens st = (Ok tt, reset_store st))
  /\ (forall e, t = Rejected e ->
                is_JSONDecodeError e = false -> is_KeyError e = false ->
                _load_tokens st = (Raise e, st)).
Proof.
  intros Hf. split.
  - intros Hc. destruct t as [e|v].
    + destruct e; try discriminate Hc. exact (load_tokens_unparsable st Hf).
    + destruct v; try discriminate Hc. simpl in Hc.
      destruct (lookup "access_token" entries) eqn:E; [discriminate|].
      exact (load_tokens_missing_access_token st Hf E).
  - intros e -> Hj Hk. unfold _load_tokens. rewrite Hf.
    unfold try_except, bind, lift. simpl. rewrite Hj, Hk. reflexivity.
Qed.

(** With no live token and no cached token
    there is nothing to save: the token file, whatever it holds, and the
    session stay as they are. *)
Lemma save_without_token_writes_nothing (st : cstate) :
  live_access_token (self st) = Ok None ->
  truthy (_stored_access_token (self st)) = false ->
  _save_tokens st = (Ok tt, st).
Proof.
  intros Hl Hs. unfold _save_tokens, bind, get_self, tokens_to_save.
  rewrite Hl, Hs. reflexivity.
Qed.

(** X8 (MiroClient.exchange_code_for_token).  Before get_auth_url has
    created a handle, exchanging a code raises the not-initialized error and
    reaches neither the vendor nor the token file. *)
Theorem exchange_needs_a_handle (st : cstate) (code : pyval) :
  _miro (self st) = None ->
  exchange_code_for_token code st
  = (Raise (ValueError ("Miro instance not initialized. "
                        ++ "Please call get_auth_url() first to start the OAuth flow.")),
     st).
Proof.
  intros Hm. unfold exchange_code_for_token, bind, get_self. rewrite Hm. reflexivity.
Qed.

(** X9 (MiroClient.get_auth_url, exchange_code_for_token, _save_tokens,
    _get_api).  When the vendor creates a handle and accepts the code,
    leaving a non-empty access token on the handle and a refresh token json
    can encode (None when the handle has no such attribute), get_auth_url
    followed by the exchange writes the two to the token file, caches them,
    and leaves a session whose _get_api hands out the handle. *)
Theorem oauth_flow_authenticates
        (st : cstate) (code : pyval) (h h' : handle) (w : world)
        (a : string) (r : pyval) :
  Miro (client_id (self st)) (client_secret (self st)) (redirect_url (self st)) = Ok h ->
  exchange_code_for_access_token code h (vendor st) = (Ok tt, (h', w)) ->
  access_token h' = Value (PStr a) ->
  a <> EmptyString ->
  getattr_or_None (refresh_token h') = Ok r ->
  json_serializable r = true ->
  exists st1 st2,
    get_auth_url st = (Ok (auth_url h), st1)
    /\ exchange_code_for_token code st1
       = (Ok (PDict [("success", PBool true);
                     ("message", PStr "Successfully authenticated with Miro")]), st2)
    /\ token_file st2 = Some (Document (as_json (token_document (PStr a) r)))
    /\ _stored_access_token (self st2) = PStr a
    /\ _stored_refresh_token (self st2) = r
    /\ vendor st2 = w
    /\ _get_api st2 = (Ok h', st2).
Proof.
  intros Hnew Hex Ha Hne Hr Hser.
  pose proof (truthy_nonempty Hne) as Ht.
  set (exchanged :=
         {| self := {| client_id := client_id (self st);
                       client_secret := client_secret (self st);
                       redirect_url := redirect_url (self st);
                       _miro := Some h';
                       _stored_access_token := _stored_access_token (self st);
                       _stored_refresh_token := _stored_refresh_token (self st) |};
            token_file := token_file st; vendor := w |}).
  assert (Hsave :
            _save_tokens exchanged
            = (Ok tt,
               {| self := {| client_id := client_id (self st);
                             client_secret := client_secret (self st);
                             redirect_url := redirect_url (self st);
                             _miro := Some h';
                             _stored_access_token := PStr a;
                             _stored_refresh_token := r |};
                  token_file := Some (Document (as_json (token_document (PStr a) r)));
                  vendor := w |})).
  { assert (Hp : tokens_to_save (self exchanged) = Ok (PStr a, r)).
    { unfold tokens_to_save, live_access_token. cbn [self _miro exchanged].
      rewrite Ha, Ht. cbn [rbind]. rewrite Hr. reflexivity. }
    assert (Hs : json_serializable (token_document (PStr a) r) = true)
      by (simpl; rewrite Hser; reflexivity).
    unfold _save_tokens, bind at 1, get_self. rewrite Hp, bind_lift_ok, Ht.
    unfold write_token_file, json_dumps. rewrite Hs. reflexivity. }
  eexists. eexists. split.
  { unfold get_auth_url, bind, get_self, lift. rewrite Hnew. reflexivity. }
  split.
  { unfold exchange_code_for_token. unfold bind at 1, get_self at 1.
    cbn [_miro self]. unfold bind at 1.
    cbn [vendor self client_id client_secret redirect_url token_file
         _stored_access_token _stored_refresh_token].
    rewrite Hex. cbn iota beta. fold exchanged.
    unfold bind at 1. rewrite Hsave. reflexivity. }
  cbn [token_file self _stored_access_token _stored_refresh_token vendor].
  repeat split.
  unfold _get_api, _ensure_authenticated, is_authenticated, live_access_token,
    bind, get_self, ret, lift. cbn. rewrite Ha, Ht. cbn. rewrite Ha, Ht. reflexivity.
Qed.

(** X10 (MiroClient.exchange_code_for_token).  When the vendor rejects the
    code, its exception reaches the caller as it is, and neither the token
    file nor the cached tokens change. *)
Theorem rejected_code_saves_nothing
        (st : cstate) (code : pyval) (h h' : handle) (w : world) (e : exn) :
  _miro (self st) = Some h ->
  exchange_code_for_access_token code h (vendor st) = (Raise e, (h', w)) ->
  exists st',
    exchange_code_for_token code st = (Raise e, st')
    /\ token_file st' = token_file st
    /\ _stored_access_token (self st') = _stored_access_token (self st)
    /\ _stored_refresh_token (self st') = _stored_refresh_token (self st).
Proof.
  intros Hm Hex. unfold exchange_code_for_token, bind, get_self.
  rewrite Hm, Hex. eexists. repeat split.
Qed.

Lemma get_api_without_live_token (st : cstate) :
  live_access_token (self st) = Ok None ->
  exists message, _get_api st = (Raise (ValueError message), st).
Proof.
  intros Hl. unfold _get_api, _ensure_authenticated, is_authenticated, bind,
    get_self, ret, raise, lift. simpl. rewrite Hl. simpl.
  destruct (is_None (_stored_access_token (self st))); simpl; [eauto|].
  rewrite Hl. destruct (truthy (_stored_access_token (self st))); eauto.
Qed.

Lemma get_api_failing_token (st : cstate) (e : exn) :
  live_access_token (self st) = Raise e -> _get_api st = (Raise e, st).
Proof.
  intros Hl. unfold _get_api, _ensure_authenticated, is_authenticated, bind,
    get_self, ret, raise, lift. simpl. rewrite Hl. reflexivity.
Qed.

Lemma refused_by_get_api (st : cstate) (e : exn) :
  _get_api st = (Raise e, st) -> mutations_refused st e.
Proof.
  intros Hapi. repeat split; intros;
    unfold create_shape, update_shape, delete_shape, group_shapes, ungroup_shapes;
    apply bind_raise; exact Hapi.
Qed.

(** X11 (MiroClient._get_api and the five mutating operations).  When the
    client has no handle, or its handle has no access_token attribute or a
    falsy one, every mutating operation raises a ValueError, whatever is
    cached; when reading the attribute raises, as a property may, every
    mutating operation raises that exception.  Either way nothing reaches
    the vendor, and the client and the token file stay as they were. *)
Theorem mutations_need_a_live_token (st : cstate) :
  (live_access_token (self st) = Ok None ->
   exists message, mutations_refused st (ValueError message))
  /\ (forall e, live_access_token (self st) = Raise e -> mutations_refused st e).
Proof.
  split.
  - intros Hl. destruct (get_api_without_live_token st Hl) as [message Hapi].
    exists message. exact (refused_by_get_api Hapi).
  - intros e Hl. exact (refused_by_get_api (get_api_failing_token st Hl)).
Qed.

(** X12 (MiroClient.get_board).  Without a live token and without a cached
    token that is truthy, get_board raises before any request is sent. *)
Theorem get_board_needs_a_token (st : cstate) (board_id : pyval) :
  live_access_token (self st) = Ok None ->
  truthy (_stored_access_token (self st)) = false ->
  exists e, get_board board_id st = (Raise e, st).
Proof.
  intros Hl Hs. unfold get_board, _ensure_authenticated, is_authenticated, bind,
    get_self, ret, raise, lift. simpl. rewrite Hl.
  destruct (is_None (_stored_access_token (self st))); simpl; [eauto|].
  destruct (fmt "https://api.miro.com/v2/boards/" board_id EmptyString); [|eauto].
  rewrite Hl, Hs. eauto.
Qed.

End MoreClientProperties.

(** *** Payloads *)
Section PayloadProperties.
Context {RT : PyRuntime}.

Lemma py_getitem_present (d : list (string * pyval)) (k : string) :
  is_None (arg d k) = false -> py_getitem (PDict d) k = Ok (arg d k).
Proof.
  unfold arg, py_getitem. destruct (lookup k d); [reflexivity|discriminate].
Qed.

(** X13 (MiroClient.update_shape).  For a position holding any of x and y,
    as floats, the way the handler passes them, a geometry holding width and
    height together, and a content, the update
    payload has a position section with exactly the coordinates supplied, a
    geometry section and a data section exactly when supplied, and nothing
    else; with nothing supplied it is empty. *)
Theorem update_payload_exact
        (x y : option float) (wh : option (float * float)) (content : pyval) :
  update_payload (optional_dict (present "x" x ++ present "y" y))
                 (optional_dict (both "width" "height" wh)) PNone content
  = Ok (PDict (section_of "position" (present "x" x ++ present "y" y)
               ++ section_of "geometry" (both "width" "height" wh)
               ++ (if is_None content then []
                   else [("data", PDict [("content", content)])]))).
Proof.
  destruct x, y, wh as [[w h]|], content; reflexivity.
Qed.

(** X14 (shape_tools._build_style_dict, MiroClient._format_style).  The
    style arguments of a tool call reach the vendor under its own names: a
    fill or border colour that is truthy comes with an opacity of "1.0", a
    border width that is not None, 0 included, as str() of its float;
    arguments that are missing or empty leave no trace, and with none of the
    three there is no style at all.  A border width float() raises on makes
    _build_style_dict raise the same. *)
Theorem handler_style_on_the_wire (d : list (string * pyval)) :
  (forall w,
      border_width (arg d "borderWidth") = Ok w ->
      exists style,
        shape_tools._build_style_dict (PDict d) = Ok style
        /\ ((truthy style = false
             /\ wire_style (arg d "fillColor") (arg d "borderColor") w = [])
            \/ (truthy style = true
                /\ _format_style style
                   = Ok (PDict (wire_style (arg d "fillColor") (arg d "borderColor")
                                           w)))))
  /\ (forall e,
         border_width (arg d "borderWidth") = Raise e ->
         shape_tools._build_style_dict (PDict d) = Raise e).
Proof.
  split.
  - intros w Hw. unfold border_width in Hw.
    unfold shape_tools._build_style_dict, wire_style.
    rewrite !py_get_arg. cbn [rbind].
    destruct (truthy (arg d "fillColor")) eqn:Ef;
      [rewrite (py_getitem_present d "fillColor" (truthy_not_None _ Ef))|];
      cbn [rbind];
      (destruct (truthy (arg d "borderColor")) eqn:Eb;
       [rewrite (py_getitem_present d "borderColor" (truthy_not_None _ Eb))|]);
      cbn [rbind];
      (destruct (is_None (arg d "borderWidth")) eqn:En; cbn [negb];
       [injection Hw as <-
       |rewrite (py_getitem_present d "borderWidth" En); cbn [rbind];
        destruct (py_float (arg d "borderWidth")) as [f|]; [|discriminate];
        cbn [rbind] in Hw |- *; injection Hw as <-]);
      cbn; eexists; (split; [reflexivity|]);
      first [ left; split; reflexivity | right; split; reflexivity ].
  - intros e He. unfold border_width in He.
    destruct (is_None (arg d "borderWidth")) eqn:En; [discriminate|].
    destruct (py_float (arg d "borderWidth")) as [f|e'] eqn:Ef; [discriminate|].
    cbn [rbind] in He. injection He as <-.
    unfold shape_tools._build_style_dict. rewrite !py_get_arg. cbn [rbind].
    destruct (truthy (arg d "fillColor")) eqn:Efill;
      [rewrite (py_getitem_present d "fillColor" (truthy_not_None _ Efill))|];
      cbn [rbind];
      (destruct (truthy (arg d "borderColor")) eqn:Eb;
       [rewrite (py_getitem_present d "borderColor" (truthy_not_None _ Eb))|]);
      cbn [rbind]; rewrite En; cbn [negb];
      rewrite (py_getitem_present d "borderWidth" En); cbn [rbind];
      rewrite Ef; reflexivity.
Qed.

Lemma format_style_entry_keeps (k : string) (v : pyval) (kv : string * pyval)
      (acc acc' : list (string * pyval)) :
  k = "fill_opacity" \/ k = "border_opacity" ->
  fst kv <> k ->
  lookup k acc = Some v ->
  format_style_entry acc kv = Ok acc' ->
  lookup k acc' = Some v.
Proof.
  intros Hk Hne Hl. destruct kv as [key value]. cbn [fst] in Hne.
  unfold format_style_entry.
  destruct (key =? "fillColor")%string.
  { intros [= <-].
    assert (H1 : lookup k (store "fill_color" value acc) = Some v).
    { rewrite lookup_store_other; [exact Hl|]. destruct Hk as [-> | ->]; discriminate. }
    destruct (lookup "fill_opacity" (store "fill_color" value acc)) eqn:E; [exact H1|].
    rewrite lookup_store_other; [exact H1|].
    intros <-. rewrite E in H1. discriminate. }
  destruct (key =? "borderColor")%string.
  { intros [= <-].
    assert (H1 : lookup k (store "border_color" value acc) = Some v).
    { rewrite lookup_store_other; [exact Hl|]. destruct Hk as [-> | ->]; discriminate. }
    destruct (lookup "border_opacity" (store "border_color" value acc)) eqn:E; [exact H1|].
    rewrite lookup_store_other; [exact H1|].
    intros <-. rewrite E in H1. discriminate. }
  destruct (key =? "borderWidth")%string.
  { destruct (py_float value); [|discriminate]. intros [= <-].
    rewrite lookup_store_other; [exact Hl|]. destruct Hk as [-> | ->]; discriminate. }
  intros [= <-]. rewrite lookup_store_other; [exact Hl|exact Hne].
Qed.

Lemma format_style_loop_keeps (k : string) (v : pyval)
      (items acc d : list (string * pyval)) :
  k = "fill_opacity" \/ k = "border_opacity" ->
  ~ In k (map fst items) ->
  lookup k acc = Some v ->
  format_style_loop items acc = Ok d ->
  lookup k d = Some v.
Proof.
  intros Hk. revert acc. induction items as [|kv items IH]; simpl; intros acc Hn Hl.
  - intros [= <-]. exact Hl.
  - destruct (format_style_entry acc kv) as [acc'|] eqn:E; [|discriminate].
    cbn [rbind]. apply IH; [tauto|].
    apply (format_style_entry_keeps kv acc Hk); [tauto|exact Hl|exact E].
Qed.

(** X15 (MiroClient._format_style).  An opacity given in the style dict is
    the one sent, wherever it stands relative to the colour: the default
    "1.0" is only written when none is given before the colour, and an
    opacity given after it overwrites the default. *)
Theorem explicit_opacity_is_kept (k : string) (v : pyval)
        (items acc d : list (string * pyval)) :
  k = "fill_opacity" \/ k = "border_opacity" ->
  NoDup (map fst items) ->
  In (k, v) items ->
  format_style_loop items acc = Ok d ->
  lookup k d = Some v.
Proof.
  intros Hk. revert acc. induction items as [|kv items IH]; simpl; intros acc Hnd Hin;
    [contradiction|].
  inversion Hnd as [|k0 ks Hnot Hrest]; subst.
  destruct (format_style_entry acc kv) as [acc'|] eqn:E; [|discriminate].
  cbn [rbind]. destruct Hin as [->|Hin].
  - cbn [fst] in Hnot. apply (format_style_loop_keeps items acc' Hk Hnot).
    unfold format_style_entry in E.
    destruct Hk as [-> | ->]; cbn in E; injection E as <-; apply lookup_store_same.
  - apply IH; assumption.
Qed.

End PayloadProperties.

(** *** Items, groups and frames *)
Section GroupProperties.
Context {RT : PyRuntime} {V : Vendor}.

(** X16 (MiroClient._get_item_from_api, the scan of the listing).  The scan
    returns the first item of the listing whose id, as text, is the wanted
    one: the item it returns is in the listing and has that id, every item
    before it has another id, and when it returns none no item of the
    listing has the id. *)
Theorem find_by_id_first_match (items : list pyval) (wanted : string)
        (found : option pyval) :
  find_by_id items (Ok wanted) = Ok found ->
  match found with
  | Some item =>
      exists before after,
        items = (before ++ item :: after)%list
        /\ id_text item = Ok wanted
        /\ forall other, In other before ->
                         exists s, id_text other = Ok s /\ s <> wanted
  | None =>
      forall other, In other items -> exists s, id_text other = Ok s /\ s <> wanted
  end.
Proof.
  revert found. induction items as [|item items IH]; simpl; intros found.
  - intros [= <-]. intros other [].
  - unfold id_text in *.
    destruct (py_get item "id" (PStr EmptyString)) as [id|] eqn:Eid; [|discriminate].
    cbn [rbind]. destruct (py_str id) as [s|] eqn:Es; [|discriminate].
    cbn [rbind]. destruct (String.eqb_spec s wanted) as [->|Hne].
    + intros [= <-]. exists [], items. split; [reflexivity|].
      split; [rewrite Eid; cbn [rbind]; exact Es|]. intros other [].
    + intros H. specialize (IH found H). destruct found as [hit|].
      * destruct IH as [before [after [-> [Hid Hbefore]]]].
        exists (item :: before), after. split; [reflexivity|]. split; [exact Hid|].
        intros other [<-|Hin]; [|exact (Hbefore other Hin)].
        exists s. rewrite Eid. cbn [rbind]. auto.
      * intros other [<-|Hin]; [|exact (IH other Hin)].
        exists s. rewrite Eid. cbn [rbind]. auto.
Qed.

Lemma child_of_in_group (group_id item : pyval) (b : bool) :
  child_of group_id item = Ok b -> b = in_group group_id item.
Proof.
  unfold child_of, in_group, parent_id.
  destruct item; try discriminate. cbn [py_get py_getitem rbind].
  destruct (lookup "parent" entries) as [parent|]; [|intros [= <-]; reflexivity].
  destruct (truthy parent) eqn:Et.
  - cbn [rbind]. destruct parent; try discriminate.
    cbn [py_getitem]. destruct (lookup "id" entries0); [|discriminate].
    cbn [rbind]. intros [= <-]. reflexivity.
  - intros [= <-]. destruct parent; try reflexivity.
    destruct entries0; [reflexivity|discriminate Et].
Qed.

Lemma child_of_readable (group_id item : pyval) :
  parent_readable item = true ->
  child_of group_id item = Ok (in_group group_id item).
Proof.
  intros Hr. destruct (child_of group_id item) as [b|e] eqn:E.
  - rewrite (child_of_in_group _ _ E). reflexivity.
  - exfalso. revert E. unfold child_of, parent_readable in *.
    destruct item; try discriminate Hr. cbn [py_get py_getitem rbind].
    destruct (lookup "parent" entries) as [parent|]; [|discriminate].
    destruct (truthy parent) eqn:Et; [|discriminate].
    cbn [rbind]. destruct parent; try discriminate Hr.
    destruct entries0 as [|kv rest]; [discriminate Et|].
    cbn [py_getitem]. destruct (lookup "id" (kv :: rest)); discriminate.
Qed.

(** X17 (MiroClient.ungroup_shapes, the selection of the children).  The
    items to unparent are exactly the items of the listing that name a
    parent whose id equals the group's id, in the order of the listing:
    whenever the comprehension goes through, and it goes through when every
    item is a dict whose 'parent' is absent, falsy or a dict with an
    'id'. *)
Theorem children_of_selects (group_id : pyval) (items : list pyval) :
  (forall selected,
      children_of group_id items = Ok selected ->
      selected = filter (in_group group_id) items)
  /\ (forallb parent_readable items = true ->
      children_of group_id items = Ok (filter (in_group group_id) items)).
Proof.
  split.
  - induction items as [|item items IH]; simpl; intros selected.
    + intros [= <-]. reflexivity.
    + destruct (child_of group_id item) as [b|] eqn:E; [|discriminate].
      cbn [rbind]. destruct (children_of group_id items) as [others|]; [|discriminate].
      cbn [rbind]. intros [= <-]. rewrite (IH others eq_refl).
      rewrite <- (child_of_in_group _ _ E). reflexivity.
  - induction items as [|item items IH]; simpl; [reflexivity|].
    intros H. apply andb_prop in H. destruct H as [Hi Hrest].
    rewrite (child_of_readable group_id item Hi). cbn [rbind].
    rewrite (IH Hrest). reflexivity.
Qed.

(** X18 (MiroClient.group_shapes).  With a live session and an empty
    collection of ids, group_shapes raises "No items found to group" and
    creates no frame: the vendor is not called at all. *)
Theorem group_shapes_nothing_to_group (st : cstate) (t board_id item_ids : pyval) :
  live_access_token (self st) = Ok (Some t) ->
  py_iter item_ids = Ok [] ->
  group_shapes board_id item_ids st
  = (Raise (ValueError "No items found to group"), st).
Proof.
  intros Hl Hids. destruct (get_api_live st Hl) as [h [_ Hapi]].
  unfold group_shapes. erewrite bind_ok by exact Hapi.
  rewrite Hids, bind_lift_ok. reflexivity.
Qed.

(** X19 (MiroClient.ungroup_shapes).  When the id resolves to an item whose
    type is not 'frame', ungroup_shapes raises "Item ... is not a
    frame/group" after that one read: nothing is unparented and nothing is
    deleted. *)
Theorem ungroup_refuses_what_is_no_frame
        (st : cstate) (h : handle) (t board_id group_id item type : pyval) (w : world)
        (d : list (string * pyval)) (message : string) :
  live_access_token (self st) = Ok (Some t) ->
  _miro (self st) = Some h ->
  api (get_frame_item board_id group_id) h (vendor st) = (Ok item, w) ->
  convert_to_dict item = Ok (PDict d) ->
  lookup "type" d = Some type ->
  py_eqb type (PStr "frame") = false ->
  fmt "Item " group_id " is not a frame/group" = Ok message ->
  ungroup_shapes board_id group_id st
  = (Raise (ValueError message), with_vendor st w).
Proof.
  intros Hl Hm Hframe Hconv Htype Hne Hfmt.
  destruct (get_api_live st Hl) as [h' [Hm' Hapi]].
  rewrite Hm in Hm'. injection Hm' as <-.
  unfold ungroup_shapes. erewrite bind_ok by exact Hapi.
  assert (Hfind : find_frame h board_id group_id st = (Ok item, with_vendor st w)).
  { unfold find_frame, try_except, call_api. rewrite Hframe. reflexivity. }
  erewrite bind_ok by exact Hfind.
  rewrite Hconv, bind_lift_ok. cbn [py_getitem]. rewrite Htype, bind_lift_ok.
  rewrite Hne. cbn [negb]. rewrite Hfmt, bind_lift_ok. reflexivity.
Qed.

(** X20 (MiroClient._get_item_from_api).  The lookup tries the shape
    endpoint, then the frame endpoint, then the listing, and the first hit
    wins: a shape is returned after one call; when the shape call raises,
    whatever it raises, a frame is returned after two; when both raise, the
    item the scan of the listing finds is returned. *)
Theorem item_lookup_tiers (st : cstate) (h : handle) (board_id item_id : pyval) :
  (forall item w,
      api (get_shape_item board_id item_id) h (vendor st) = (Ok item, w) ->
      _get_item_from_api h board_id item_id st = (Ok item, with_vendor st w))
  /\ (forall e w item w',
         api (get_shape_item board_id item_id) h (vendor st) = (Raise e, w) ->
         api (get_frame_item board_id item_id) h w = (Ok item, w') ->
         _get_item_from_api h board_id item_id st = (Ok item, with_vendor st w'))
  /\ (forall e w e' w' listing w'' items_list wanted items item,
         api (get_shape_item board_id item_id) h (vendor st) = (Raise e, w) ->
         api (get_frame_item board_id item_id) h w = (Raise e', w') ->
         api (get_items board_id) h w' = (Ok listing, w'') ->
         _extract_items_list listing = Ok items_list ->
         py_str item_id = Ok wanted ->
         py_iter items_list = Ok items ->
         find_by_id items (Ok wanted) = Ok (Some item) ->
         _get_item_from_api h board_id item_id st = (Ok item, with_vendor st w'')).
Proof.
  repeat split.
  - intros item w H. unfold _get_item_from_api, try_except, call_api.
    rewrite H. reflexivity.
  - intros e w item w' H1 H2. unfold _get_item_from_api, try_except, call_api.
    rewrite H1. cbn [vendor self token_file]. rewrite H2. reflexivity.
  - intros e w e' w' listing w'' items_list wanted items item H1 H2 H3 H4 H5 H6 H7.
    unfold _get_item_from_api, try_except, call_api.
    rewrite H1. cbn [vendor self token_file]. rewrite H2.
    cbn [vendor self token_file]. unfold bind at 1. cbn [vendor self token_file].
    rewrite H3. rewrite H4, bind_lift_ok, H5, bind_lift_ok, H6, bind_lift_ok.
    rewrite H7, bind_lift_ok. reflexivity.
Qed.

(** X21 (MiroClient._extract_items_list).  Of a parsed JSON response, the
    items are the value under 'data' when the response is an object that has
    one, the response itself when it is an array, and anything else is
    refused with a ValueError. *)
Theorem extract_items_list_formats (response : pyval) :
  plain response = true ->
  match response with
  | PDict d =>
      match lookup "data" d with
      | Some data => _extract_items_list response = Ok data
      | None => exists message, _extract_items_list response = Raise (ValueError message)
      end
  | PList _ => _extract_items_list response = Ok response
  | _ => exists message, _extract_items_list response = Raise (ValueError message)
  end.
Proof.
  intros Hp. unfold _extract_items_list. rewrite (convert_plain_value response Hp).
  cbn [rbind].
  destruct response; try discriminate Hp;
    try solve [reflexivity | eexists; reflexivity].
  destruct (lookup "data" entries); [reflexivity|eexists; reflexivity].
Qed.

End GroupProperties.

(** *** Tool handlers *)
Section MoreHandlerProperties.
Context {RT : PyRuntime} {C : Type} {CI : ClientInterface C}.

(** X22 (group_tools.handle_tool_call, group_shapes).  Whatever the client
    object is, a group_shapes call without a board id, or whose item_ids are
    not a list of at least two ids, is answered with the matching error and
    never reaches the client. *)
Theorem group_shapes_validation (d : list (string * pyval)) (c : C) :
  (truthy (arg d "board_id") = false ->
   group_tools.handle_tool_call (PStr "group_shapes") (PDict d) c
   = (Ok (error_payload "board_id parameter is required"), c))
  /\ (truthy (arg d "board_id") = true ->
      (forall l, arg d "item_ids" = PList l -> (List.length l < 2)%nat) ->
      group_tools.handle_tool_call (PStr "group_shapes") (PDict d) c
      = (Ok (error_payload "item_ids must be a list with at least 2 item IDs"), c)).
Proof.
  unfold group_tools.handle_tool_call.
  change (named (PStr "group_shapes") "group_shapes") with true. cbv iota.
  rewrite !py_get_arg, !bind_lift_ok. split.
  - intros ->. reflexivity.
  - intros -> Hfew. cbn [negb].
    assert (Ht : group_tools.too_few_items (arg d "item_ids") = true).
    { unfold group_tools.too_few_items.
      destruct (arg d "item_ids") eqn:E; try reflexivity.
      specialize (Hfew items eq_refl). apply Z.ltb_lt. lia. }
    rewrite Ht. reflexivity.
Qed.

(** X23 (the handlers of update_shape, delete_shape, ungroup_shapes,
    get_board and exchange_auth_code).  Whatever the client object is, a
    call in which a required identifier is missing or empty is answered with
    the handler's own error and never reaches the client. *)
Theorem identifiers_are_required (d : list (string * pyval)) (c : C) :
  (truthy (arg d "board_id") = false \/ truthy (arg d "item_id") = false ->
   shape_tools.handle_tool_call (PStr "update_shape") (PDict d) c
   = (Ok (error_payload "board_id and item_id are required"), c)
   /\ shape_tools.handle_tool_call (PStr "delete_shape") (PDict d) c
      = (Ok (error_payload "board_id and item_id are required"), c))
  /\ (truthy (arg d "board_id") = false \/ truthy (arg d "group_id") = false ->
      group_tools.handle_tool_call (PStr "ungroup_shapes") (PDict d) c
      = (Ok (error_payload "board_id and group_id are required"), c))
  /\ (truthy (arg d "board_id") = false ->
      board_tools.handle_tool_call (PStr "get_board") (PDict d) c
      = (Ok (error_payload "board_id is required"), c))
  /\ (truthy (arg d "code") = false ->
      auth_tools.handle_tool_call (PStr "exchange_auth_code") (PDict d) c
      = (Ok (error_payload "code parameter is required"), c)).
Proof.
  repeat split.
  - unfold shape_tools.handle_tool_call.
    change (named (PStr "update_shape") "create_shape") with false.
    change (named (PStr "update_shape") "update_shape") with true. cbv iota.
    rewrite !py_get_arg, !bind_lift_ok.
    destruct H as [-> | ->]; [|rewrite orb_true_r]; reflexivity.
  - unfold shape_tools.handle_tool_call.
    change (named (PStr "delete_shape") "create_shape") with false.
    change (named (PStr "delete_shape") "update_shape") with false.
    change (named (PStr "delete_shape") "delete_shape") with true. cbv iota.
    rewrite !py_get_arg, !bind_lift_ok.
    destruct H as [-> | ->]; [|rewrite orb_true_r]; reflexivity.
  - intros H. unfold group_tools.handle_tool_call.
    change (named (PStr "ungroup_shapes") "group_shapes") with false.
    change (named (PStr "ungroup_shapes") "ungroup_shapes") with true. cbv iota.
    rewrite !py_get_arg, !bind_lift_ok.
    destruct H as [-> | ->]; [|rewrite orb_true_r]; reflexivity.
  - intros H. unfold board_tools.handle_tool_call.
    change (named (PStr "get_board") "get_board") with true. cbv iota.
    rewrite !py_get_arg, !bind_lift_ok, H. reflexivity.
  - intros H. unfold auth_tools.handle_tool_call.
    change (named (PStr "exchange_auth_code") "get_auth_url") with false.
    change (named (PStr "exchange_auth_code") "exchange_auth_code") with true.
    cbv iota. rewrite !py_get_arg, !bind_lift_ok, H. reflexivity.
Qed.

(** X24 (shape_tools.handle_tool_call).  When float() raises on the width of
    a create_shape call, the conversion being inside the handler's try
    block, the exception is reported as an error payload and the client is
    not called; update_shape converts x outside its try block, so there the
    exception of float() leaves the handler. *)
Theorem unreadable_numbers (d : list (string * pyval)) (c : C) (e : exn) (x y : float) :
  truthy (arg d "board_id") = true ->
  (truthy (arg d "shape_type") = true ->
   is_None (arg d "x") = false -> py_float (arg d "x") = Ok x ->
   is_None (arg d "y") = false -> py_float (arg d "y") = Ok y ->
   truthy (arg d "width") = true -> truthy (arg d "height") = true ->
   py_float (arg d "width") = Raise e ->
   shape_tools.handle_tool_call (PStr "create_shape") (PDict d) c
   = (Ok (error_payload (exn_str e)), c))
  /\ (truthy (arg d "item_id") = true ->
      is_None (arg d "x") = false ->
      py_float (arg d "x") = Raise e ->
      shape_tools.handle_tool_call (PStr "update_shape") (PDict d) c
      = (Raise e, c)).
Proof.
  intros Hb. split.
  - intros Ht Hx Hfx Hy Hfy Hw Hh Hf. unfold shape_tools.handle_tool_call.
    change (named (PStr "create_shape") "create_shape") with true. cbv iota.
    rewrite !py_get_arg, !bind_lift_ok. rewrite Hb, Ht, Hw, Hh, Hx, Hy.
    cbn [negb andb]. cbv iota. unfold or_error.
    rewrite Hfx, Hfy, Hf. rewrite !bind_lift_ok. reflexivity.
  - intros Hi Hx Hf. unfold shape_tools.handle_tool_call.
    change (named (PStr "update_shape") "create_shape") with false.
    change (named (PStr "update_shape") "update_shape") with true. cbv iota.
    rewrite !py_get_arg, !bind_lift_ok. rewrite Hb, Hi. cbn [negb orb].
    unfold shape_tools.optional_pair at 1. rewrite !py_get_arg. cbn [rbind].
    rewrite Hx. cbn [negb orb].
    rewrite (py_getitem_present d "x" Hx).
    cbn [rbind]. rewrite Hf. reflexivity.
Qed.

(** X25 (shape_tools.handle_tool_call, delete_shape; board_tools).  With
    the identifiers present, the handler always returns a payload: the fixed
    success message (the board under 'board') when the client method
    returns, and {'error': str(e)} when it raises e; the client is left as
    the method left it. *)
Theorem client_errors_become_payloads (d : list (string * pyval)) (c c' : C) :
  truthy (arg d "board_id") = true ->
  (forall r, truthy (arg d "item_id") = true ->
             cl_delete_shape (arg d "board_id") (arg d "item_id") c = (r, c') ->
             shape_tools.handle_tool_call (PStr "delete_shape") (PDict d) c
             = (Ok (match r with
                    | Ok _ => PDict [("success", PBool true);
                                     ("message", PStr "Shape deleted successfully")]
                    | Raise e => error_payload (exn_str e)
                    end), c'))
  /\ (forall r, cl_get_board (arg d "board_id") c = (r, c') ->
                board_tools.handle_tool_call (PStr "get_board") (PDict d) c
                = (Ok (match r with
                       | Ok board => PDict [("success", PBool true); ("board", board)]
                       | Raise e => error_payload (exn_str e)
                       end), c')).
Proof.
  intros Hb. split.
  - intros r Hi Hcall. unfold shape_tools.handle_tool_call.
    change (named (PStr "delete_shape") "create_shape") with false.
    change (named (PStr "delete_shape") "update_shape") with false.
    change (named (PStr "delete_shape") "delete_shape") with true. cbv iota.
    rewrite !py_get_arg, !bind_lift_ok. rewrite Hb, Hi. cbn [negb orb].
    unfold or_error, try_except, bind. rewrite Hcall. destruct r; reflexivity.
  - intros r Hcall. unfold board_tools.handle_tool_call.
    change (named (PStr "get_board") "get_board") with true. cbv iota.
    rewrite !py_get_arg, !bind_lift_ok. rewrite Hb. cbn [negb].
    unfold or_error, try_except, bind. rewrite Hcall. destruct r; reflexivity.
Qed.

End MoreHandlerProperties.

(** *** Dispatch and the protocol loop *)
Section MoreServerProperties.
Context {RT : PyRuntime} {V : Vendor}.
Variable env : environ.

(** X26 (server.handle_tools_call).  A tool name that is not registered is
    answered with the isError content "Unknown tool: <name>"; no client is
    constructed for it, and token file, vendor and output streams are not
    touched. *)
Theorem unknown_tool_is_a_tool_error (name : string) (arguments : pyval) (p : process) :
  lookup name TOOLS = None ->
  handle_tools_call env (PStr name) arguments p
  = (Ok (error_content ("Unknown tool: " ++ name)), p).
Proof.
  intros Hn. unfold handle_tools_call, in_TOOLS. cbn [hashable]. rewrite Hn.
  rewrite bind_lift_ok. change (negb false) with true. cbv iota.
  unfold fmt. cbn [py_str]. rewrite bind_lift_ok, append_empty_r. reflexivity.
Qed.

Lemma yields_ret {A} (Q : A -> Prop) (a : A) : Q a -> yields Q (ret a).
Proof. intros H p. exact H. Qed.

Lemma yields_bind {A B} (Q : B -> Prop) (m : M process A) (f : A -> M process B) :
  (forall a, yields Q (f a)) -> yields Q (bind m f).
Proof.
  intros Hf p. unfold bind. destruct (m p) as [[a|e] p1]; [apply Hf|exact I].
Qed.

Ltac yields_step :=
  first [ apply yields_ret; eexists; solve [left; reflexivity | right; reflexivity]
        | apply yields_bind; intros ?
        | match goal with
          | |- yields _ (if ?b then _ else _) => destruct b
          end ].

(** X27 (server.handle_tools_call).  A call under a tool name that is a
    string never raises, whatever the arguments, the configuration, the
    token file and the vendor do: the answer is always one text content
    block, flagged isError or not. *)
Theorem tool_calls_always_answer (name : string) (arguments : pyval) (p : process) :
  exists content p',
    handle_tools_call env (PStr name) arguments p = (Ok content, p')
    /\ is_content content.
Proof.
  unfold handle_tools_call, in_TOOLS. cbn [hashable]. rewrite bind_lift_ok.
  destruct (lookup name TOOLS).
  - cbn [negb]. unfold try_except.
    match goal with
    | |- context [match ?body p with _ => _ end] =>
        assert (Hbody : yields is_content body) by (repeat yields_step);
        specialize (Hbody p); destruct (body p) as [[content|e] p1]
    end.
    + exists content, p1. split; [reflexivity|exact Hbody].
    + eexists. eexists. split; [reflexivity|]. eexists. right. reflexivity.
  - eexists. eexists. split; [reflexivity|]. eexists. right. reflexivity.
Qed.

(** X28 (server.process_request).  A request whose method is none of
    initialize, tools/list and tools/call is answered with the error -32601
    "Method not found: <method>" under its id, and is dropped without an
    answer when it has no id; nothing else happens either way. *)
Theorem unknown_method (d : list (string * pyval)) (p : process) :
  named (arg d "method") "initialize" = false ->
  named (arg d "method") "tools/list" = false ->
  named (arg d "method") "tools/call" = false ->
  (is_None (arg d "id") = true ->
   process_request env (PDict d) p = (Ok None, p))
  /\ (forall message,
         is_None (arg d "id") = false ->
         fmt "Method not found: " (arg d "method") EmptyString = Ok message ->
         process_request env (PDict d) p
         = (Ok (Some (rpc_error (arg d "id") (-32601) message)), p)).
Proof.
  intros H1 H2 H3. unfold process_request.
  rewrite py_get_arg. cbn [py_get]. fold (arg d "id"). rewrite !bind_lift_ok.
  rewrite H1, H2, H3. split.
  - intros ->. reflexivity.
  - intros message -> Hfmt. cbn [negb]. rewrite Hfmt, bind_lift_ok. reflexivity.
Qed.

Lemma json_dumps_accepts (v : pyval) (text : string) :
  json_dumps v = Ok text -> json_serializable v = true.
Proof. unfold json_dumps. destruct (json_serializable v); [reflexivity|discriminate]. Qed.

(** One line prints at most one document, after what was printed before. *)
Lemma handle_line_output (line : stdin_line) (p : process) :
  exists out,
    stdout (snd (handle_line env line p)) = (stdout p ++ out)%list
    /\ (List.length out <= List.length (texts [line]))%nat
    /\ Forall (fun document => json_serializable document = true) out.
Proof.
  assert (Hescaped : forall e p1,
             stdout p1 = stdout p ->
             exists out,
               stdout (snd ((if is_JSONDecodeError e
                             then print_json (rpc_error PNone (-32700)
                                                ("Parse error: " ++ exn_str e))
                             else print_stderr ("Error processing request: "
                                                ++ exn_str e) ;;;
                                  print_json (rpc_error PNone (-32603)
                                                ("Internal error: " ++ exn_str e))) p1))
               = (stdout p ++ out)%list
               /\ (List.length out <= 1)%nat
               /\ Forall (fun document => json_serializable document = true) out).
  { intros e p1 H. destruct (is_JSONDecodeError e).
    - rewrite print_json_error. eexists. cbn [snd printed stdout]. rewrite H.
      split; [reflexivity|]. split; [simpl; lia|]. repeat constructor.
    - unfold bind, print_stderr. rewrite print_json_error.
      eexists. cbn [snd printed stdout]. rewrite H.
      split; [reflexivity|]. split; [simpl; lia|]. repeat constructor. }
  destruct line as [|t].
  - exists []. simpl. rewrite app_nil_r. repeat split; [lia|constructor].
  - cbn [texts filter List.length]. unfold handle_line, try_except.
    destruct t as [err|request]; cbn [json_loads].
    + exact (Hescaped err p eq_refl).
    + rewrite bind_lift_ok. unfold bind at 1.
      pose proof (keeps_process_request env request p) as Hk.
      destruct (process_request env request p) as [[[r|]|e] p1]; cbn [snd] in Hk.
      * destruct (truthy r).
        -- unfold print_json. destruct (json_dumps r) as [text|e] eqn:Ej.
           ++ exists [r]. cbn [snd stdout]. rewrite Hk.
              split; [reflexivity|]. split; [simpl; lia|].
              repeat constructor. exact (json_dumps_accepts r Ej).
           ++ exact (Hescaped e p1 Hk).
        -- exists []. cbn [snd ret]. rewrite app_nil_r.
           split; [exact Hk|]. split; [simpl; lia|constructor].
      * exists []. cbn [snd ret]. rewrite app_nil_r.
        split; [exact Hk|]. split; [simpl; lia|constructor].
      * exact (Hescaped e p1 Hk).
Qed.

(** X29 (server.main).  The loop only ever appends to standard output: what
    was printed stays, each line that is not blank adds at most one
    document, blank lines add none, and every document printed is one
    json.dumps accepted. *)
Theorem serve_appends_one_document_per_line (lines : list stdin_line) (p : process) :
  exists out,
    stdout (snd (serve env lines p)) = (stdout p ++ out)%list
    /\ (List.length out <= List.length (texts lines))%nat
    /\ Forall (fun document => json_serializable document = true) out.
Proof.
  revert p. induction lines as [|line lines IH]; intros p.
  - exists []. simpl. rewrite app_nil_r. repeat split; [lia|constructor].
  - destruct (handle_line_output line p) as [out1 [H1 [L1 F1]]].
    cbn [serve]. unfold bind.
    destruct (handle_line_returns env line p) as [p1 Hp1]. rewrite Hp1 in *.
    cbn [snd] in H1. destruct (IH p1) as [out2 [H2 [L2 F2]]].
    exists (out1 ++ out2)%list. rewrite H2, H1, app_assoc. split; [reflexivity|].
    split.
    + rewrite length_app. unfold texts in *.
      destruct line; cbn [filter List.length] in *; lia.
    + apply Forall_app. split; assumption.
Qed.

(** X30 (server.handle_tools_call, shape_tools.handle_tool_call,
    MiroClient.delete_shape).  A delete_shape call on a client without a
    live token is answered as an ordinary text content, not flagged isError,
    whose text is the JSON of {'error': <message of the ValueError>}; the
    client, the token file, the vendor and the output are left as they
    were. *)
Theorem refused_call_is_answered_as_content
        (d : list (string * pyval)) (p : process) (c : MiroClient) :
  miro_client p = Some c ->
  live_access_token c = Ok None ->
  truthy (arg d "board_id") = true ->
  truthy (arg d "item_id") = true ->
  exists message p',
    handle_tools_call env (PStr "delete_shape") (PDict d) p
    = (Ok (text_content (json_dumps_text (error_payload message))), p')
    /\ miro_client p' = Some c /\ disk p' = disk p /\ remote p' = remote p
    /\ stdout p' = stdout p /\ stderr p' = stderr p.
Proof.
  intros Hc Hl Hb Hi.
  set (cs := {| self := c; token_file := disk p; vendor := remote p |}).
  destruct (get_api_without_live_token cs Hl) as [message Hapi].
  assert (Hhandler :
            shape_tools.handle_tool_call (CI := miro_client_interface)
              (PStr "delete_shape") (PDict d) cs
            = (Ok (error_payload message), cs)).
  { unfold shape_tools.handle_tool_call.
    change (named (PStr "delete_shape") "create_shape") with false.
    change (named (PStr "delete_shape") "update_shape") with false.
    change (named (PStr "delete_shape") "delete_shape") with true. cbv iota.
    rewrite !py_get_arg, !bind_lift_ok. rewrite Hb, Hi. cbn [negb orb].
    unfold or_error.
    apply try_except_raise with (e := ValueError message) (s' := cs).
    apply bind_raise.
    change (cl_delete_shape (arg d "board_id") (arg d "item_id"))
      with (delete_shape (arg d "board_id") (arg d "item_id")).
    unfold delete_shape. apply bind_raise. exact Hapi. }
  exists message. eexists. split.
  - unfold handle_tools_call.
    change (in_TOOLS (PStr "delete_shape")) with (@Ok bool true).
    rewrite bind_lift_ok. change (negb true) with false. cbv iota.
    unfold try_except, bind at 1, get_miro_client. rewrite Hc.
    change (name_in (PStr "delete_shape")
                    ["create_shape"; "update_shape"; "delete_shape"]) with true.
    cbv iota. unfold bind at 1, on_client. fold cs. rewrite Hhandler.
    reflexivity.
  - cbn. auto.
Qed.

End MoreServerProperties.

(* ================================================================== *)
(** ** The properties at concrete inputs                              *)
(* ================================================================== *)
Section Concrete.
#[local] Existing Instance Example.plain_runtime.
#[local] Existing Instance Example.two_shape_vendor.


(** C4 on the client that only holds a cached token: delete_shape is
    refused and get_board is served by the endpoint. *)
Lemma cached_session_witness :
  live_access_token (self Example.cached_session) = Ok None
  /\ truthy (_stored_access_token (self Example.cached_session)) = true
  /\ delete_shape (PStr "board-1") (PStr "item-1") Example.cached_session
     = (Raise (ValueError reauthentication_required_message), Example.cached_session)
  /\ get_board (PStr "board-1") Example.cached_session
     = (Ok Example.board_body, with_vendor Example.cached_session []).
Proof.
  destruct (cached_session_writes_refused_board_served
              Example.cached_session eq_refl eq_refl)
    as [_ [_ [Hdelete [_ [_ [_ [_ Hboard]]]]]]].
  split; [reflexivity|]. split; [reflexivity|]. split; [apply Hdelete|].
  apply Hboard with
    (url := "https://api.miro.com/v2/boards/board-1") (bearer := "Bearer access-0")
    (response := {| raise_for_status := Ok tt; json := Ok Example.board_body |})
    (body := Example.board_body);
    reflexivity.
Defined.

(** C5 on a token file holding an empty array. *)
Lemma load_tokens_non_object_witness :
  token_file Example.array_file_session = Some (Document (PList []))
  /\ is_dict (PList []) = false
  /\ exists message,
      _load_tokens Example.array_file_session
      = (Raise (TypeError message), Example.array_file_session).
Proof.
  split; [reflexivity|]. split; [reflexivity|].
  apply (load_tokens_non_object_escapes Example.array_file_session (v := PList []));
    reflexivity.
Defined.

(** C6 on the two-shape board, with integer coordinates and with
    fractional ones. *)
Lemma group_shapes_witness :
  live_access_token (self Example.live_session) = Ok (Some (PStr "access-1"))
  /\ resolve_items Example.live_handle (PStr "board-1") Example.two_ids
       Example.live_session
     = (Ok Example.two_items, Example.resolved_session)
  /\ Forall2 has_box Example.two_items Example.two_boxes
  /\ collect right_edge Example.two_boxes = Ok [Int 10; Int 30]
  /\ collect bottom_edge Example.two_boxes = Ok [Int 10; Int 15]
  /\ (exists left top right bottom fl ft fr fb,
         is_minimum left (map box_x Example.two_boxes)
         /\ is_minimum top (map box_y Example.two_boxes)
         /\ is_maximum right [Int 10; Int 30]
         /\ is_maximum bottom [Int 10; Int 15]
         /\ number_float left = Ok fl
         /\ number_float top = Ok ft
         /\ number_float right = Ok fr
         /\ number_float bottom = Ok fb
         /\ frame_data_of Example.two_items = Ok (frame_data fl ft fr fb)
         /\ group_shapes (PStr "board-1") (PList Example.two_ids) Example.live_session
            = create_frame_and_reparent Example.live_handle (PStr "board-1")
                (frame_data fl ft fr fb) Example.two_ids Example.resolved_session)
  /\ resolve_items (V := Example.bare_vendor) (Some "access-1") (PStr "board-1")
       Example.two_ids Example.bare_live_session
     = (Ok Example.float_items, Example.bare_resolved_session)
  /\ Forall2 has_box Example.float_items Example.float_boxes
  /\ collect right_edge Example.float_boxes
     = Ok [Float 10.5%float; Float 30.25%float]
  /\ collect bottom_edge Example.float_boxes
     = Ok [Float 7.75%float; Float 15%float]
  /\ exists left top right bottom fl ft fr fb,
      is_minimum left (map box_x Example.float_boxes)
      /\ is_minimum top (map box_y Example.float_boxes)
      /\ is_maximum right [Float 10.5%float; Float 30.25%float]
      /\ is_maximum bottom [Float 7.75%float; Float 15%float]
      /\ number_float left = Ok fl
      /\ number_float top = Ok ft
      /\ number_float right = Ok fr
      /\ number_float bottom = Ok fb
      /\ frame_data_of Example.float_items = Ok (frame_data fl ft fr fb)
      /\ group_shapes (V := Example.bare_vendor) (PStr "board-1")
           (PList Example.two_ids) Example.bare_live_session
         = create_frame_and_reparent (V := Example.bare_vendor) (Some "access-1")
             (PStr "board-1") (frame_data fl ft fr fb) Example.two_ids
             Example.bare_resolved_session.
Proof.
  assert (Hres : resolve_items Example.live_handle (PStr "board-1") Example.two_ids
                   Example.live_session
                 = (Ok Example.two_items, Example.resolved_session))
    by reflexivity.
  assert (Hbox : Forall2 has_box Example.two_items Example.two_boxes).
  { repeat constructor; do 3 eexists; repeat split; reflexivity. }
  assert (Hres' : resolve_items (V := Example.bare_vendor) (Some "access-1")
                    (PStr "board-1") Example.two_ids Example.bare_live_session
                  = (Ok Example.float_items, Example.bare_resolved_session))
    by reflexivity.
  assert (Hbox' : Forall2 has_box Example.float_items Example.float_boxes).
  { repeat constructor; do 3 eexists; repeat split; reflexivity. }
  split; [reflexivity|]. split; [exact Hres|]. split; [exact Hbox|].
  split; [reflexivity|]. split; [reflexivity|].
  split; [exact (proj1 (@group_shapes_bounding_box _ _ Example.live_session
                          Example.resolved_session (PStr "access-1") (PStr "board-1")
                          (PList Example.two_ids) Example.live_handle Example.two_ids
                          Example.two_items _ _ [Int 10; Int 30] [Int 10; Int 15]
                          eq_refl eq_refl eq_refl Hres Hbox eq_refl eq_refl eq_refl))|].
  split; [exact Hres'|]. split; [exact Hbox'|].
  split; [reflexivity|]. split; [reflexivity|].
  exact (proj1 (@group_shapes_bounding_box _ Example.bare_vendor
                  Example.bare_live_session Example.bare_resolved_session
                  (PStr "access-1") (PStr "board-1") (PList Example.two_ids)
                  (Some "access-1") Example.two_ids Example.float_items _ _
                  [Float 10.5%float; Float 30.25%float]
                  [Float 7.75%float; Float 15%float]
                  eq_refl eq_refl eq_refl Hres' Hbox' eq_refl eq_refl eq_refl)).
Defined.

(** The same computation on floats, fractions among them: the items
    (0.5, -2.25, 10.0, 10.0) and (20.0, 5.0, 10.25, 10.0) give the frame
    (0.5, -2.25, 29.75, 17.25). *)
Lemma frame_of_fractions :
  frame_data_of Example.float_items
  = Ok (PDict [("data", PDict [("title", PStr "Group")]);
               ("position", PDict [("x", PFloat 0.5%float);
                                   ("y", PFloat (-2.25)%float)]);
               ("geometry", PDict [("width", PFloat 29.75%float);
                                   ("height", PFloat 17.25%float)])]).
Proof. reflexivity. Qed.

(** Beyond 2**53 the frame is the one of the doubles: an x of 2**53 + 1 is
    placed at 9007199254740992.0. *)
Lemma frame_of_a_large_int :
  frame_data_of
    [PDict [("position", PDict [("x", PNum (2 ^ 53 + 1)); ("y", PNum 0)]);
            ("geometry", PDict [("width", PNum 1); ("height", PNum 1)])]]
  = Ok (PDict [("data", PDict [("title", PStr "Group")]);
               ("position", PDict [("x", PFloat 9007199254740992%float);
                                   ("y", PFloat 0%float)]);
               ("geometry", PDict [("width", PFloat 2%float);
                                   ("height", PFloat 1%float)])]).
Proof. vm_compute. reflexivity. Qed.

(** C7 on the live client: width 5 and no height. *)
Lemma update_shape_width_only_witness :
  live_access_token (self Example.live_session) = Ok (Some (PStr "access-1"))
  /\ shape_tools.handle_tool_call (CI := miro_client_interface) (PStr "update_shape")
       Example.width_only_arguments Example.live_session
     = (Ok (error_payload "'height'"), Example.live_session).
Proof.
  split; [reflexivity|].
  apply (@update_shape_width_only _ _ Example.live_session (PStr "access-1")
           (PStr "board-1") (PStr "item-1") (PNum 5) 5%float);
    reflexivity.
Defined.

(** C9 on a handle that has an access token and no refresh_token
    attribute. *)
Lemma save_then_load_witness :
  holds_pair (self (Example.bare_live_session))
             Example.access_only_pair
  /\ accessToken Example.access_only_pair <> EmptyString
  /\ exists st1 st2,
      _save_tokens (V := Example.bare_vendor)
                   (Example.bare_live_session)
      = (Ok tt, st1)
      /\ _load_tokens (restarted (Example.bare_client None) st1) = (Ok tt, st2)
      /\ _stored_access_token (self st2) = PStr "access-1"
      /\ _stored_refresh_token (self st2) = PNone
      /\ token_file st2 = token_file st1.
Proof.
  assert (Hp : holds_pair (self (Example.bare_live_session))
                          Example.access_only_pair).
  { left. exists (Some "access-1"). repeat split; reflexivity. }
  assert (Hne : accessToken Example.access_only_pair <> EmptyString) by discriminate.
  split; [exact Hp|]. split; [exact Hne|].
  exact (@save_then_load_round_trip _ Example.bare_vendor
           (Example.bare_live_session) Example.access_only_pair
           (Example.bare_client None) Hp Hne).
Defined.

(** C9 fails for a pair whose access token is the empty string: the guard
    of _save_tokens writes nothing, and the client constructed afterwards
    loads no token. *)
Lemma empty_access_token_is_not_saved :
  holds_pair (self Example.empty_token_session) Example.empty_pair
  /\ _save_tokens Example.empty_token_session = (Ok tt, Example.empty_token_session)
  /\ token_file Example.empty_token_session = None
  /\ _load_tokens (restarted Example.fresh_client Example.empty_token_session)
     = (Ok tt, restarted Example.fresh_client Example.empty_token_session)
  /\ _stored_access_token
       (self (restarted Example.fresh_client Example.empty_token_session)) = PNone
  /\ ~ (exists st1 st2,
           _save_tokens Example.empty_token_session = (Ok tt, st1)
           /\ _load_tokens (restarted Example.fresh_client st1) = (Ok tt, st2)
           /\ _stored_access_token (self st2)
              = PStr (accessToken Example.empty_pair)).
Proof.
  split.
  { left. eexists. repeat split; reflexivity. }
  split; [reflexivity|]. split; [reflexivity|]. split; [reflexivity|].
  split; [reflexivity|].
  intros [st1 [st2 [H1 [H2 H3]]]].
  change (_save_tokens Example.empty_token_session)
    with (Ok tt, Example.empty_token_session) in H1.
  injection H1 as <-.
  change (_load_tokens (restarted Example.fresh_client Example.empty_token_session))
    with (Ok tt, restarted Example.fresh_client Example.empty_token_session) in H2.
  injection H2 as <-. discriminate H3.
Qed.

(** The serializer on a list that mixes None, a mapping holding a set, and
    an instance whose model_dump raises. *)
Lemma convert_to_dict_witness :
  markers_printable Example.mixed_value = true
  /\ exists j, convert_to_dict Example.mixed_value = Ok j
               /\ (dumps_clean Example.mixed_value = true ->
                   json_serializable j = true).
Proof.
  split; [reflexivity|]. apply (convert_to_dict_returns Example.mixed_value).
  reflexivity.
Defined.

(** C3 (convert_to_dict) on two values.  A model without model_dump whose
    dict() returns a datetime among its fields is handed back as dict()
    returned it, a value json.dumps refuses; and a typing marker whose
    __str__ raises makes convert_to_dict raise, the str(obj) of that branch
    standing outside any try. *)
Theorem convert_to_dict_not_total :
  (convert_to_dict Example.legacy_model
   = Ok (PDict [("id", PStr "board-1"); ("created_at", PDatetime "2024-01-01T00:00:00")])
   /\ json_dumps
        (PDict [("id", PStr "board-1"); ("created_at", PDatetime "2024-01-01T00:00:00")])
      = Raise (TypeError "Object of type datetime is not JSON serializable"))
  /\ convert_to_dict Example.silent_marker = Raise (ValueError "not resolved").
Proof. repeat split; reflexivity. Qed.

(** C2 on the empty environment. *)
Lemma configuration_failure_witness :
  configuration_missing Example.empty_environment = true
  /\ exists message,
      validate_config Example.empty_environment = Raise (ValueError message)
      /\ (message = "MIRO_CLIENT_ID environment variable is required"
          \/ message = "MIRO_CLIENT_SECRET environment variable is required")
      /\ forall name arguments p,
          lookup name TOOLS <> None -> miro_client p = None ->
          exists p',
            handle_tools_call Example.empty_environment (PStr name) arguments p
            = (Ok (error_content ("Error executing tool " ++ name ++ ": " ++ message)), p')
            /\ miro_client p' = None /\ stdout p' = stdout p.
Proof.
  split; [reflexivity|].
  apply (proj2 (configuration_failure_reported_not_fatal Example.empty_environment)).
  reflexivity.
Defined.

(** C2 fails on the empty environment: the process starts, answers
    initialize, answers a tool call with the configuration error as an
    isError result, and reaches the end of its input. *)
Lemma missing_configuration_does_not_stop_the_process :
  validate_config Example.empty_environment
  = Raise (ValueError "MIRO_CLIENT_ID environment variable is required")
  /\ main Example.empty_environment None []
          [Text (Document Example.initialize_request);
           Text (Document Example.get_auth_url_request)]
     = (Ok tt,
        {| miro_client := None; disk := None; remote := [];
           stdout :=
             [rpc_result (PNum 1) (handle_initialize (PDict []));
              rpc_result (PNum 2)
                (error_content ("Error executing tool get_auth_url: "
                                ++ "MIRO_CLIENT_ID environment variable is required"))];
           stderr := ["Error initializing Miro client: "
                      ++ "MIRO_CLIENT_ID environment variable is required"] |}).
Proof. split; reflexivity. Qed.

(** C8 on a line of 100000 opening brackets, and on a tools/call
    notification whose params are a number. *)
Lemma null_id_response_witness :
  is_JSONDecodeError Example.too_deep = false
  /\ handle_line Example.environment (Text (Rejected Example.too_deep))
                 Example.fresh_process
     = (Ok tt, Example.after_deep_line)
  /\ handle_line Example.environment (Text (Document Example.malformed_notification))
                 Example.fresh_process
     = (Ok tt, Example.after_malformed_notification)
  /\ request_id_of Example.malformed_notification = PNone
  /\ (stdout Example.after_malformed_notification = stdout Example.fresh_process
      \/ exists e p1,
          process_request Example.environment Example.malformed_notification
                          Example.fresh_process
          = (Raise e, p1)
          /\ stdout Example.after_malformed_notification
             = (stdout Example.fresh_process ++ [escaped_response e])%list).
Proof.
  assert (H : handle_line Example.environment
                (Text (Document Example.malformed_notification)) Example.fresh_process
              = (Ok tt, Example.after_malformed_notification))
    by reflexivity.
  split; [reflexivity|].
  split; [exact (proj1 (proj2 (parse_failure_and_null_id_responses
                                 Example.environment))
                       Example.too_deep Example.fresh_process eq_refl)|].
  split; [exact H|]. split; [reflexivity|].
  exact (proj2 (proj2 (parse_failure_and_null_id_responses Example.environment))
               Example.malformed_notification Example.fresh_process (Ok tt)
               Example.after_malformed_notification H eq_refl).
Defined.

(** C8 fails on a line that parses: the notification has no id, and the
    server still prints a response, the internal error -32603 under a null
    id. *)
Lemma parsed_notification_gets_a_response :
  json_loads (Document Example.malformed_notification)
  = Ok Example.malformed_notification
  /\ py_get Example.malformed_notification "id" PNone = Ok PNone
  /\ stdout (snd (handle_line Example.environment
                    (Text (Document Example.malformed_notification))
                    Example.fresh_process))
     = [rpc_error PNone (-32603) "Internal error: 'int' object has no attribute 'get'"].
Proof. repeat split; reflexivity. Qed.

(** **** The further properties at concrete inputs *)

(** X1 on the registry: get_board registered a second time, and a
    registration in which one specification is a string. *)
Lemma register_tool_last_writer_witness :
  Forall (fun kv => is_dict (snd kv) = true) get_board_parameters
  /\ (exists required tools',
         required_of get_board_parameters = Ok required
         /\ register_tool "get_board" "Look a board up" get_board_parameters TOOLS
            = (Ok tt, tools')
         /\ lookup "get_board" tools'
            = Some (descriptor "get_board" "Look a board up" get_board_parameters
                               required)
         /\ forall other, other <> "get_board" ->
                          lookup other tools' = lookup other TOOLS)
  /\ In ("limit", PStr "number") Example.misdeclared_parameters
  /\ exists e,
      register_tool "list_boards" "List the boards" Example.misdeclared_parameters
                    TOOLS
      = (Raise e, TOOLS).
Proof.
  assert (Hd : Forall (fun kv => is_dict (snd kv) = true) get_board_parameters)
    by (repeat constructor).
  assert (Hin : In ("limit", PStr "number") Example.misdeclared_parameters)
    by (simpl; auto).
  split; [exact Hd|].
  split; [exact (proj1 (register_tool_last_writer_wins "get_board" "Look a board up"
                          get_board_parameters TOOLS) Hd)|].
  split; [exact Hin|].
  exact (proj2 (register_tool_last_writer_wins "list_boards" "List the boards"
                  Example.misdeclared_parameters TOOLS)
               "limit" (PStr "number") Hin eq_refl).
Defined.

(** X2 on the registry: a name registered again, and a new one. *)
Lemma register_tool_listing_witness :
  NoDup (map fst TOOLS)
  /\ (exists tools',
         register_tool "get_board" "Look a board up" get_board_parameters TOOLS
         = (Ok tt, tools')
         /\ NoDup (map fst tools')
         /\ (lookup "get_board" TOOLS <> None -> map fst tools' = map fst TOOLS)
         /\ (lookup "get_board" TOOLS = None ->
             map fst tools' = (map fst TOOLS ++ ["get_board"])%list))
  /\ (exists tools',
         register_tool "list_boards" "List the boards" [] TOOLS = (Ok tt, tools')
         /\ NoDup (map fst tools')
         /\ (lookup "list_boards" TOOLS <> None -> map fst tools' = map fst TOOLS)
         /\ (lookup "list_boards" TOOLS = None ->
             map fst tools' = (map fst TOOLS ++ ["list_boards"])%list))
  /\ lookup "get_board" TOOLS <> None
  /\ lookup "list_boards" TOOLS = None.
Proof.
  assert (Hnd : NoDup (map fst TOOLS))
    by (repeat constructor; simpl; intuition discriminate).
  assert (Hd : Forall (fun kv => is_dict (snd kv) = true) get_board_parameters)
    by (repeat constructor).
  split; [exact Hnd|].
  split; [exact (@register_tool_listing_order "get_board" "Look a board up"
                   get_board_parameters TOOLS Hd Hnd)|].
  split; [exact (@register_tool_listing_order "list_boards" "List the boards"
                   [] TOOLS (Forall_nil _) Hnd)|].
  split; [discriminate|reflexivity].
Defined.

(** X3 on the environment that sets both variables. *)
Lemma validate_config_witness :
  (exists id secret,
      env_MIRO_CLIENT_ID Example.environment = Some id /\ id <> EmptyString
      /\ env_MIRO_CLIENT_SECRET Example.environment = Some secret
      /\ secret <> EmptyString)
  /\ validate_config Example.environment = Ok tt.
Proof.
  assert (H : exists id secret,
             env_MIRO_CLIENT_ID Example.environment = Some id /\ id <> EmptyString
             /\ env_MIRO_CLIENT_SECRET Example.environment = Some secret
             /\ secret <> EmptyString).
  { exists "client", "secret". repeat split; discriminate. }
  split; [exact H|].
  exact (proj2 (validate_config_accepts Example.environment) H).
Defined.

(** X4 on the body of a board response. *)
Lemma convert_to_dict_plain_witness :
  plain Example.board_body = true
  /\ convert_to_dict Example.board_body = Ok Example.board_body.
Proof.
  split; [reflexivity|]. exact (convert_to_dict_plain Example.board_body eq_refl).
Defined.

(** X5 on a mapping that holds a set. *)
Lemma convert_to_dict_shape_witness :
  convert_to_dict (PDict [("ids", PSet [PNum 1; PNum 2])])
  = Ok (PDict [("ids", PList [PNum 1; PNum 2])])
  /\ exists d', PDict [("ids", PList [PNum 1; PNum 2])] = PDict d'
                /\ map fst d' = ["ids"].
Proof.
  split; [reflexivity|].
  exact (proj1 (convert_to_dict_keeps_shape
                  (PDict [("ids", PSet [PNum 1; PNum 2])]) eq_refl)
               [("ids", PSet [PNum 1; PNum 2])] eq_refl).
Defined.

(** X6 on the instance whose model_dump raises. *)
Lemma convert_to_dict_attributes_witness :
  is_typing_marker "<class 'miro_api.models.shape.Shape'>" = false
  /\ exists d',
      convert_to_dict Example.broken_dump_model = Ok (PDict d')
      /\ forall k, In k (map fst d') ->
                   In k ["id"; "_secret"; "tags"] /\ public_attribute k = true.
Proof.
  split; [reflexivity|].
  exact (convert_to_dict_attributes "<class 'miro_api.models.shape.Shape'>"
           (Some (Raise (TypeError "unexpected keyword argument 'mode'"),
                  Raise (ValueError "cannot dump")))
           None
           [("id", PStr "1"); ("_secret", PSet [PNum 2]); ("tags", PSet [PStr "x"])]
           (Ok "Shape(id='1')") eq_refl eq_refl eq_refl).
Defined.

(** X7 on a token file json cannot decode, and on one whose nesting is too
    deep for the decoder. *)
Lemma corrupt_store_witness :
  token_file Example.garbled_file_session
  = Some (Unparsable "Expecting value: line 1 column 1 (char 0)")
  /\ _load_tokens Example.garbled_file_session
     = (Ok tt, reset_store Example.garbled_file_session)
  /\ exists e, token_file Example.deep_file_session = Some (Rejected e)
               /\ _load_tokens Example.deep_file_session
                  = (Raise e, Example.deep_file_session).
Proof.
  split; [reflexivity|]. split.
  - exact (proj1 (corrupt_store_is_reset Example.garbled_file_session eq_refl) eq_refl).
  - eexists. split; [reflexivity|].
    exact (proj2 (corrupt_store_is_reset Example.deep_file_session eq_refl)
                 _ eq_refl eq_refl eq_refl).
Defined.

(** X8 on the client that never asked for an authorization URL. *)
Lemma exchange_needs_a_handle_witness :
  _miro (self Example.cached_session) = None
  /\ exists message,
      exchange_code_for_token (PStr "code-1") Example.cached_session
      = (Raise (ValueError message), Example.cached_session).
Proof.
  split; [reflexivity|]. eexists.
  exact (exchange_needs_a_handle Example.cached_session (PStr "code-1") eq_refl).
Defined.

(** X9 on a fresh client of the vendor whose handle has no refresh_token
    attribute. *)
Lemma oauth_flow_witness :
  getattr_or_None (refresh_token (Vendor := Example.bare_vendor) (Some "access-1"))
  = Ok PNone
  /\ exists st1 st2,
      get_auth_url (V := Example.bare_vendor) (Example.bare_session None)
      = (Ok (PStr "https://miro.com/oauth/authorize"), st1)
      /\ exchange_code_for_token (PStr "code-1") st1
         = (Ok (PDict [("success", PBool true);
                       ("message", PStr "Successfully authenticated with Miro")]), st2)
      /\ token_file st2
         = Some (Document (PDict [("access_token", PStr "access-1");
                                  ("refresh_token", PNone)]))
      /\ _stored_access_token (self st2) = PStr "access-1"
      /\ _stored_refresh_token (self st2) = PNone
      /\ vendor st2 = []
      /\ _get_api st2 = (Ok (Some "access-1"), st2).
Proof.
  assert (Hne : "access-1" <> EmptyString) by discriminate.
  split; [reflexivity|].
  exact (@oauth_flow_authenticates _ Example.bare_vendor (Example.bare_session None)
           (PStr "code-1") None (Some "access-1") [] "access-1" PNone
           eq_refl eq_refl eq_refl Hne eq_refl eq_refl).
Defined.

(** X10 on the vendor that rejects every code. *)
Lemma rejected_code_witness :
  exists st',
    exchange_code_for_token (V := Example.sticky_vendor) (PStr "expired")
                            Example.sticky_session
    = (Raise (VendorError "invalid_grant"), st')
    /\ token_file st' = token_file Example.sticky_session
    /\ _stored_access_token (self st') = PStr "access-1"
    /\ _stored_refresh_token (self st') = PStr "refresh-1".
Proof.
  exact (@rejected_code_saves_nothing _ Example.sticky_vendor Example.sticky_session
           (PStr "expired") Example.live_handle Example.live_handle 1%nat
           (VendorError "invalid_grant") eq_refl eq_refl).
Defined.

(** X11 on the session with no credentials, and on a handle that has no
    token yet and raises when asked for it. *)
Lemma mutations_need_a_live_token_witness :
  live_access_token (self Example.anonymous_session) = Ok None
  /\ (exists message,
         mutations_refused Example.anonymous_session (ValueError message))
  /\ live_access_token (self (Example.bare_session (Some None)))
     = Raise Example.no_token_stored
  /\ mutations_refused (V := Example.bare_vendor) (Example.bare_session (Some None))
                       Example.no_token_stored.
Proof.
  split; [reflexivity|].
  split; [exact (proj1 (mutations_need_a_live_token Example.anonymous_session)
                       eq_refl)|].
  split; [reflexivity|].
  exact (proj2 (@mutations_need_a_live_token _ Example.bare_vendor
                  (Example.bare_session (Some None)))
               Example.no_token_stored eq_refl).
Defined.

(** X12 on the session with no credentials. *)
Lemma get_board_needs_a_token_witness :
  live_access_token (self Example.anonymous_session) = Ok None
  /\ exists e,
      get_board (PStr "board-1") Example.anonymous_session
      = (Raise e, Example.anonymous_session).
Proof.
  split; [reflexivity|].
  exact (get_board_needs_a_token Example.anonymous_session (PStr "board-1")
           eq_refl eq_refl).
Defined.

(** X14 on a call with a fill colour, an empty border colour and a border
    width of 0, and on one whose border width is no number. *)
Lemma handler_style_witness :
  border_width (arg Example.styled_arguments "borderWidth") = Ok (Some 0%float)
  /\ (exists style,
         shape_tools._build_style_dict (PDict Example.styled_arguments) = Ok style
         /\ ((truthy style = false
              /\ wire_style (PStr "#FF0000") (PStr EmptyString) (Some 0%float) = [])
             \/ (truthy style = true
                 /\ _format_style style
                    = Ok (PDict [("fill_color", PStr "#FF0000");
                                 ("fill_opacity", PStr "1.0");
                                 ("border_width", PStr "0.0")]))))
  /\ border_width (arg Example.thick_arguments "borderWidth")
     = Raise (ValueError "could not convert string to float: 'thick'")
  /\ shape_tools._build_style_dict (PDict Example.thick_arguments)
     = Raise (ValueError "could not convert string to float: 'thick'").
Proof.
  split; [reflexivity|].
  split; [exact (proj1 (handler_style_on_the_wire Example.styled_arguments)
                       (Some 0%float) eq_refl)|].
  split; [reflexivity|].
  exact (proj2 (handler_style_on_the_wire Example.thick_arguments)
               (ValueError "could not convert string to float: 'thick'") eq_refl).
Defined.

(** X15 on a style that gives the opacity after the colour. *)
Lemma explicit_opacity_witness :
  NoDup (map fst Example.translucent_style)
  /\ format_style_loop Example.translucent_style []
     = Ok [("fill_color", PStr "#FF0000"); ("fill_opacity", PStr "0.5")]
  /\ lookup "fill_opacity" [("fill_color", PStr "#FF0000"); ("fill_opacity", PStr "0.5")]
     = Some (PStr "0.5").
Proof.
  assert (Hnd : NoDup (map fst Example.translucent_style)).
  { repeat constructor; simpl; intuition discriminate. }
  assert (Hloop : format_style_loop Example.translucent_style []
                  = Ok [("fill_color", PStr "#FF0000"); ("fill_opacity", PStr "0.5")])
    by reflexivity.
  split; [exact Hnd|]. split; [exact Hloop|].
  exact (@explicit_opacity_is_kept _ "fill_opacity" (PStr "0.5")
           Example.translucent_style [] _ (or_introl eq_refl) Hnd
           (or_intror (or_introl eq_refl)) Hloop).
Defined.

(** X16 on the two shapes: the scan for "b". *)
Lemma find_by_id_witness :
  find_by_id Example.two_items (Ok "b") = Ok (Some (Example.shape "b" 20 5 10 10))
  /\ exists before after,
      Example.two_items = (before ++ Example.shape "b" 20 5 10 10 :: after)%list
      /\ id_text (Example.shape "b" 20 5 10 10) = Ok "b"
      /\ forall other, In other before -> exists s, id_text other = Ok s /\ s <> "b".
Proof.
  assert (H : find_by_id Example.two_items (Ok "b")
              = Ok (Some (Example.shape "b" 20 5 10 10))) by reflexivity.
  split; [exact H|].
  exact (find_by_id_first_match Example.two_items "b"
           (found := Some (Example.shape "b" 20 5 10 10)) H).
Defined.

(** X17 on a listing with one child of the frame "f". *)
Lemma children_of_witness :
  forallb parent_readable [Example.text_item; Example.sticky_note] = true
  /\ children_of (PStr "f") [Example.text_item; Example.sticky_note]
     = Ok [Example.text_item]
  /\ [Example.text_item]
     = filter (in_group (PStr "f")) [Example.text_item; Example.sticky_note].
Proof.
  assert (H : children_of (PStr "f") [Example.text_item; Example.sticky_note]
              = Ok [Example.text_item])
    by exact (proj2 (children_of_selects (PStr "f")
                       [Example.text_item; Example.sticky_note]) eq_refl).
  split; [reflexivity|]. split; [exact H|].
  exact (proj1 (children_of_selects (PStr "f")
                  [Example.text_item; Example.sticky_note]) _ H).
Defined.

(** X18 on the live client and an empty list of ids. *)
Lemma group_shapes_nothing_witness :
  live_access_token (self Example.live_session) = Ok (Some (PStr "access-1"))
  /\ group_shapes (PStr "board-1") (PList []) Example.live_session
     = (Raise (ValueError "No items found to group"), Example.live_session).
Proof.
  split; [reflexivity|].
  exact (group_shapes_nothing_to_group Example.live_session (t := PStr "access-1")
           (PStr "board-1") (PList []) eq_refl eq_refl).
Defined.

(** X19 on the vendor whose frame endpoint answers with a sticky note. *)
Lemma ungroup_refuses_witness :
  ungroup_shapes (V := Example.sticky_vendor) (PStr "board-1") (PStr "s")
                 Example.sticky_session
  = (Raise (ValueError "Item s is not a frame/group"), Example.sticky_after 1).
Proof.
  exact (@ungroup_refuses_what_is_no_frame _ Example.sticky_vendor
           Example.sticky_session Example.live_handle (PStr "access-1")
           (PStr "board-1") (PStr "s") Example.sticky_note (PStr "sticky_note")
           1%nat [("id", PStr "s"); ("type", PStr "sticky_note")]
           "Item s is not a frame/group"
           eq_refl eq_refl eq_refl eq_refl eq_refl eq_refl eq_refl).
Defined.

(** X20 on the same vendor: a shape, the sticky note behind the frame
    endpoint, and the item with the numeric id 7 found in the listing. *)
Lemma item_lookup_witness :
  _get_item_from_api (V := Example.sticky_vendor) Example.live_handle
                     (PStr "board-1") (PStr "a") Example.sticky_session
  = (Ok (Example.shape "a" 0 0 10 10), Example.sticky_after 1)
  /\ _get_item_from_api (V := Example.sticky_vendor) Example.live_handle
                        (PStr "board-1") (PStr "s") Example.sticky_session
     = (Ok Example.sticky_note, Example.sticky_after 2)
  /\ _get_item_from_api (V := Example.sticky_vendor) Example.live_handle
                        (PStr "board-1") (PStr "7") Example.sticky_session
     = (Ok Example.text_item, Example.sticky_after 3).
Proof.
  split; [|split].
  - exact (proj1 (@item_lookup_tiers _ Example.sticky_vendor Example.sticky_session
                    Example.live_handle (PStr "board-1") (PStr "a"))
                 (Example.shape "a" 0 0 10 10) 1%nat eq_refl).
  - exact (proj1 (proj2 (@item_lookup_tiers _ Example.sticky_vendor
                           Example.sticky_session Example.live_handle
                           (PStr "board-1") (PStr "s")))
                 (VendorError "(404) Not Found") 1%nat Example.sticky_note 2%nat
                 eq_refl eq_refl).
  - exact (proj2 (proj2 (@item_lookup_tiers _ Example.sticky_vendor
                           Example.sticky_session Example.live_handle
                           (PStr "board-1") (PStr "7")))
                 (VendorError "(404) Not Found") 1%nat
                 (VendorError "(404) Not Found") 2%nat
                 (PList [Example.text_item]) 3%nat (PList [Example.text_item])
                 "7" [Example.text_item] Example.text_item
                 eq_refl eq_refl eq_refl eq_refl eq_refl eq_refl eq_refl).
Defined.

(** X21 on a listing wrapped in an object. *)
Lemma extract_items_list_witness :
  plain (PDict [("data", PList [Example.text_item]); ("total", PNum 1)]) = true
  /\ _extract_items_list (PDict [("data", PList [Example.text_item]); ("total", PNum 1)])
     = Ok (PList [Example.text_item]).
Proof.
  split; [reflexivity|].
  exact (extract_items_list_formats
           (PDict [("data", PList [Example.text_item]); ("total", PNum 1)]) eq_refl).
Defined.

(** X22 on a call without board id and a call with a single id. *)
Lemma group_shapes_validation_witness :
  truthy (arg Example.no_board_arguments "board_id") = false
  /\ group_tools.handle_tool_call (CI := miro_client_interface) (PStr "group_shapes")
       (PDict Example.no_board_arguments) Example.live_session
     = (Ok (error_payload "board_id parameter is required"), Example.live_session)
  /\ truthy (arg Example.one_id_arguments "board_id") = true
  /\ group_tools.handle_tool_call (CI := miro_client_interface) (PStr "group_shapes")
       (PDict Example.one_id_arguments) Example.live_session
     = (Ok (error_payload "item_ids must be a list with at least 2 item IDs"),
        Example.live_session).
Proof.
  split; [reflexivity|].
  split; [exact (proj1 (group_shapes_validation (CI := miro_client_interface)
                          Example.no_board_arguments Example.live_session) eq_refl)|].
  split; [reflexivity|].
  apply (proj2 (group_shapes_validation (CI := miro_client_interface)
                  Example.one_id_arguments Example.live_session) eq_refl).
  intros l [= <-]. simpl. lia.
Defined.

(** X23 on a call that names no board. *)
Lemma identifiers_are_required_witness :
  truthy (arg Example.no_board_arguments "board_id") = false
  /\ shape_tools.handle_tool_call (CI := miro_client_interface) (PStr "delete_shape")
       (PDict Example.no_board_arguments) Example.live_session
     = (Ok (error_payload "board_id and item_id are required"), Example.live_session)
  /\ group_tools.handle_tool_call (CI := miro_client_interface) (PStr "ungroup_shapes")
       (PDict Example.no_board_arguments) Example.live_session
     = (Ok (error_payload "board_id and group_id are required"), Example.live_session)
  /\ board_tools.handle_tool_call (CI := miro_client_interface) (PStr "get_board")
       (PDict Example.no_board_arguments) Example.live_session
     = (Ok (error_payload "board_id is required"), Example.live_session)
  /\ auth_tools.handle_tool_call (CI := miro_client_interface)
       (PStr "exchange_auth_code") (PDict Example.no_board_arguments)
       Example.live_session
     = (Ok (error_payload "code parameter is required"), Example.live_session).
Proof.
  destruct (identifiers_are_required (CI := miro_client_interface)
              Example.no_board_arguments Example.live_session)
    as [H1 [H2 [H3 H4]]].
  split; [reflexivity|].
  split; [exact (proj2 (H1 (or_introl eq_refl)))|].
  split; [exact (H2 (or_introl eq_refl))|].
  split; [exact (H3 eq_refl)|exact (H4 eq_refl)].
Defined.

(** X24 on the width and the x "wide". *)
Lemma unreadable_numbers_witness :
  py_float (arg Example.wide_arguments "width")
  = Raise (ValueError "could not convert string to float: 'wide'")
  /\ shape_tools.handle_tool_call (CI := miro_client_interface) (PStr "create_shape")
       (PDict Example.wide_arguments) Example.live_session
     = (Ok (error_payload "could not convert string to float: 'wide'"),
        Example.live_session)
  /\ py_float (arg Example.far_arguments "x")
     = Raise (ValueError "could not convert string to float: 'wide'")
  /\ shape_tools.handle_tool_call (CI := miro_client_interface) (PStr "update_shape")
       (PDict Example.far_arguments) Example.live_session
     = (Raise (ValueError "could not convert string to float: 'wide'"),
        Example.live_session).
Proof.
  split; [reflexivity|]. split.
  - exact (proj1 (unreadable_numbers (CI := miro_client_interface)
                    Example.wide_arguments Example.live_session
                    (ValueError "could not convert string to float: 'wide'")
                    1%float 2%float eq_refl)
                 eq_refl eq_refl eq_refl eq_refl eq_refl eq_refl eq_refl eq_refl).
  - split; [reflexivity|].
    exact (proj2 (unreadable_numbers (CI := miro_client_interface)
                    Example.far_arguments Example.live_session
                    (ValueError "could not convert string to float: 'wide'")
                    0%float 0%float eq_refl)
                 eq_refl eq_refl eq_refl).
Defined.

(** X25 on the session with no credentials: the refusal of the client comes
    back as an error payload. *)
Lemma client_errors_witness :
  truthy (arg Example.delete_arguments "board_id") = true
  /\ shape_tools.handle_tool_call (CI := miro_client_interface) (PStr "delete_shape")
       (PDict Example.delete_arguments) Example.anonymous_session
     = (Ok (error_payload not_authenticated_message), Example.anonymous_session).
Proof.
  split; [reflexivity|].
  exact (proj1 (client_errors_become_payloads (CI := miro_client_interface)
                  Example.delete_arguments Example.anonymous_session
                  Example.anonymous_session eq_refl)
               (Raise (ValueError not_authenticated_message)) eq_refl eq_refl).
Defined.

(** X26 on the tool name frobnicate. *)
Lemma unknown_tool_witness :
  lookup "frobnicate" TOOLS = None
  /\ handle_tools_call Example.environment (PStr "frobnicate") (PDict [])
                       Example.fresh_process
     = (Ok (error_content "Unknown tool: frobnicate"), Example.fresh_process).
Proof.
  split; [reflexivity|].
  exact (unknown_tool_is_a_tool_error Example.environment "frobnicate" (PDict [])
           Example.fresh_process eq_refl).
Defined.

(** X28 on the method ping, with and without an id. *)
Lemma unknown_method_witness :
  is_None (arg Example.ping_notification "id") = true
  /\ process_request Example.environment (PDict Example.ping_notification)
                     Example.fresh_process
     = (Ok None, Example.fresh_process)
  /\ is_None (arg Example.ping_request "id") = false
  /\ process_request Example.environment (PDict Example.ping_request)
                     Example.fresh_process
     = (Ok (Some (rpc_error (PNum 7) (-32601) "Method not found: ping")),
        Example.fresh_process).
Proof.
  split; [reflexivity|].
  split; [exact (proj1 (unknown_method Example.environment Example.ping_notification
                          Example.fresh_process eq_refl eq_refl eq_refl) eq_refl)|].
  split; [reflexivity|].
  exact (proj2 (unknown_method Example.environment Example.ping_request
                  Example.fresh_process eq_refl eq_refl eq_refl)
               "Method not found: ping" eq_refl eq_refl).
Defined.

(** X30 on a constructed client that holds no token. *)
Lemma refused_call_witness :
  miro_client Example.anonymous_process = Some Example.fresh_client
  /\ live_access_token Example.fresh_client = Ok None
  /\ exists message p',
      handle_tools_call Example.environment (PStr "delete_shape")
                        (PDict Example.delete_arguments) Example.anonymous_process
      = (Ok (text_content (json_dumps_text (error_payload message))), p')
      /\ miro_client p' = Some Example.fresh_client
      /\ disk p' = disk Example.anonymous_process
      /\ remote p' = remote Example.anonymous_process
      /\ stdout p' = stdout Example.anonymous_process
      /\ stderr p' = stderr Example.anonymous_process.
Proof.
  split; [reflexivity|]. split; [reflexivity|].
  exact (refused_call_is_answered_as_content Example.environment
           Example.delete_arguments Example.anonymous_process
           (c := Example.fresh_client) eq_refl eq_refl eq_refl eq_refl).
Defined.

End Concrete.
